(** * Risk assessment engine and auto-rebalancer: a shallow embedding

    This development embeds two services of the trading backend,
    [services/portfolio_risk_service.py] and [services/auto_rebalancer.py],
    and settles properties of them.

    Conventions of the embedding.
    - A Python [float] is a rational number [Q]; rounding, infinities and NaN
      are outside the model.  Comparisons are the boolean ones the code
      branches on.
    - A raising computation is a value of [outcome]: either [Returned v] or
      [Raised e].  Division goes through [pydiv], which raises
      [ZeroDivisionError] on a zero divisor, so a guard in the source is a
      guard in the model.
    - A [datetime] is an integer number of seconds on the wall clock and a
      date is the day number [t / 86400]. *)

From Stdlib Require Import ZArith QArith Lia Lqa Ascii String Sorted.
From stdpp Require Import base option list strings gmap pretty.

Local Open Scope Z_scope.
Local Open Scope Q_scope.

(** ** Python values *)

Module Py.

Inductive exn : Type :=
| ZeroDivisionError
| ValueError (msg : string)
| Exception (msg : string).

Inductive outcome (A : Type) : Type :=
| Returned (a : A)
| Raised (e : exn).
Arguments Returned {A} a.
Arguments Raised {A} e.

Definition bind {A B} (c : outcome A) (k : A -> outcome B) : outcome B :=
  match c with
  | Returned a => k a
  | Raised e => Raised e
  end.

Definition returns {A} (c : outcome A) : Prop := exists a, c = Returned a.

(** [a < b] on floats. *)
Definition Qlt_bool (a b : Q) : bool := negb (Qle_bool b a).

(** [a / b]: raises on a zero divisor. *)
Definition pydiv (a b : Q) : outcome Q :=
  if Qeq_bool b 0 then Raised ZeroDivisionError else Returned (a / b).

(** [min(a, b)] returns its first argument unless the second is smaller. *)
Definition pymin (a b : Q) : Q := if Qlt_bool b a then b else a.

(** [max(l)] over a non-empty list, written as the fold Python performs. *)
Definition pymax_list (x : Q) (l : list Q) : Q :=
  fold_left (fun m y => if Qlt_bool m y then y else m) l x.

(** [abs(x)] *)
Definition pyabs (x : Q) : Q := if Qlt_bool x 0 then - x else x.

(** [sum(l)], starting from 0. *)
Definition pysum (l : list Q) : Q := fold_left Qplus l 0.

(** [x or d] for an optional number: [None] and zero are falsy. *)
Definition or_else (x : option Q) (d : Q) : Q :=
  match x with
  | Some v => if Qeq_bool v 0 then d else v
  | None => d
  end.

(** Truthiness of an optional number. *)
Definition truthy (x : option Q) : bool :=
  match x with
  | Some v => negb (Qeq_bool v 0)
  | None => false
  end.

(** [s.upper()], on the ASCII letters. *)
Definition upper_ascii (c : ascii) : ascii :=
  let n := nat_of_ascii c in
  if (Nat.leb 97 n && Nat.leb n 122)%bool then ascii_of_nat (n - 32) else c.

Fixpoint upper (s : string) : string :=
  match s with
  | EmptyString => EmptyString
  | String c r => String (upper_ascii c) (upper r)
  end.

End Py.

Import Py.

Declare Scope outcome_scope.
Delimit Scope outcome_scope with outcome.
Notation "'let!' x ':=' c 'in' k" := (Py.bind c (fun x => k))
  (at level 10, x name, c at level 100, k at level 200) : outcome_scope.
Local Open Scope outcome_scope.

(** ** services/portfolio_risk_service.py *)

Module RiskService.

Inductive PositionAction := HOLD | REDUCE | EXIT | ADD | REALLOCATE.

Inductive RiskLevel := LOW | MODERATE | HIGH | CRITICAL.

Definition action_value (a : PositionAction) : string :=
  match a with
  | HOLD => "hold" | REDUCE => "reduce" | EXIT => "exit"
  | ADD => "add" | REALLOCATE => "reallocate"
  end.

Definition risk_value (r : RiskLevel) : string :=
  match r with
  | LOW => "low" | MODERATE => "moderate" | HIGH => "high"
  | CRITICAL => "critical"
  end.

Definition PositionAction_eqb (a b : PositionAction) : bool :=
  match a, b with
  | HOLD, HOLD | REDUCE, REDUCE | EXIT, EXIT | ADD, ADD
  | REALLOCATE, REALLOCATE => true
  | _, _ => false
  end.

Definition RiskLevel_eqb (a b : RiskLevel) : bool :=
  match a, b with
  | LOW, LOW | MODERATE, MODERATE | HIGH, HIGH | CRITICAL, CRITICAL => true
  | _, _ => false
  end.

(** The order LOW < MODERATE < HIGH < CRITICAL. *)
Definition risk_rank (r : RiskLevel) : nat :=
  match r with LOW => 0 | MODERATE => 1 | HIGH => 2 | CRITICAL => 3 end.

Definition risk_le (a b : RiskLevel) : Prop := (risk_rank a <= risk_rank b)%nat.

(** The text of [action_reason]; the formatted figure is kept as a number. *)
Inductive ActionReason :=
| NoReason
| StopLossTriggered (pnl_pct : Q)
| TakeProfitOpportunity (pnl_pct : Q)
| TooConcentrated (concentration : Q)
| CriticalRiskLevel
| HighRiskLevel
| WithinParameters.

(** A row of the position store, as the service reads it.  [pos_ticker] is
    [None] when the row has no symbol relation. *)
Record Position := {
  pos_ticker : option string;
  pos_symbol_id : Z;
  pos_quantity : option Q;
  pos_average_entry_price : option Q;
  pos_current_price : option Q
}.

Record Account := { balance : option Q }.

Inductive SymbolName := Ticker (t : string) | SymbolId (id : Z).

Record PositionRiskAssessment := {
  symbol : SymbolName;
  symbol_id : Z;
  quantity : Q;
  entry_price : Q;
  current_price : Q;
  market_value : Q;
  unrealized_pnl : Q;
  unrealized_pnl_pct : Q;
  risk_level : RiskLevel;
  volatility_score : Q;
  concentration_risk : Q;
  drawdown_from_high : Q;
  days_held : Z;
  recommended_action : PositionAction;
  action_reason : ActionReason;
  target_allocation : Q;
  stop_loss_price : Q;
  take_profit_price : Q;
  confidence_score : Q
}.

Inductive SuggestionReason :=
| PositionReason (r : ActionReason)
| CashPosition (cash_pct : Q).

Record Suggestion := {
  sg_priority : Z;
  sg_symbol : option SymbolName;
  sg_action : string;
  sg_reason : SuggestionReason;
  sg_current_value : Q;
  sg_pnl_pct : Q;
  sg_risk_level : string
}.

Record PortfolioRiskAssessment := {
  account_id : string;
  total_value : Q;
  cash_available : Q;
  invested_value : Q;
  total_unrealized_pnl : Q;
  overall_risk_level : RiskLevel;
  diversification_score : Q;
  concentration_warning : bool;
  max_position_concentration_seen : Q;
  correlation_risk : Q;
  positions : list PositionRiskAssessment;
  rebalance_needed : bool;
  capital_at_risk : Q;
  suggested_actions : list Suggestion
}.

(** Thresholds set in [__init__]. *)
Definition max_position_concentration : Q := 25 # 100.
Definition stop_loss_threshold : Q := - (10 # 100).
Definition take_profit_threshold : Q := 20 # 100.

Definition _calculate_risk_level (pnl_pct concentration : Q) : RiskLevel :=
  if Qlt_bool pnl_pct (-20) then CRITICAL
  else if Qlt_bool pnl_pct (-10) then HIGH
  else if Qlt_bool 40 concentration then HIGH
  else if Qlt_bool 25 concentration then MODERATE
  else if Qlt_bool 30 pnl_pct then MODERATE
  else LOW.

Definition _determine_action (pnl_pct concentration : Q) (risk : RiskLevel)
  : PositionAction * ActionReason :=
  if Qlt_bool pnl_pct (stop_loss_threshold * 100) then
    (EXIT, StopLossTriggered pnl_pct)
  else if Qlt_bool (take_profit_threshold * 100) pnl_pct then
    (REDUCE, TakeProfitOpportunity pnl_pct)
  else if Qlt_bool (max_position_concentration * 100) concentration then
    (REDUCE, TooConcentrated concentration)
  else if RiskLevel_eqb risk CRITICAL then (EXIT, CriticalRiskLevel)
  else if RiskLevel_eqb risk HIGH then (REDUCE, HighRiskLevel)
  else (HOLD, WithinParameters).

Definition _assess_position (position : Position) (total_portfolio_value : Q)
  : outcome PositionRiskAssessment :=
  let quantity := or_else (pos_quantity position) 0 in
  let entry_price := or_else (pos_average_entry_price position) 0 in
  let current_price := or_else (pos_current_price position) entry_price in
  let market_value := quantity * current_price in
  let cost_basis := quantity * entry_price in
  let unrealized_pnl := market_value - cost_basis in
  let! unrealized_pnl_pct :=
    (if Qlt_bool 0 cost_basis
     then let! r := pydiv unrealized_pnl cost_basis in Returned (r * 100)
     else Returned 0) in
  let! concentration :=
    (if Qlt_bool 0 total_portfolio_value
     then let! r := pydiv market_value total_portfolio_value in Returned (r * 100)
     else Returned 0) in
  let risk_level := _calculate_risk_level unrealized_pnl_pct concentration in
  let '(action, reason) :=
    _determine_action unrealized_pnl_pct concentration risk_level in
  let symbol_name :=
    match pos_ticker position with
    | Some t => Ticker t
    | None => SymbolId (pos_symbol_id position)
    end in
  Returned {|
    symbol := symbol_name;
    symbol_id := pos_symbol_id position;
    quantity := quantity;
    entry_price := entry_price;
    current_price := current_price;
    market_value := market_value;
    unrealized_pnl := unrealized_pnl;
    unrealized_pnl_pct := unrealized_pnl_pct;
    risk_level := risk_level;
    volatility_score := 0;
    concentration_risk := concentration;
    drawdown_from_high := 0;
    days_held := 0%Z;
    recommended_action := action;
    action_reason := reason;
    target_allocation := pymin concentration (max_position_concentration * 100);
    stop_loss_price := entry_price * (1 + stop_loss_threshold);
    take_profit_price := entry_price * (1 + take_profit_threshold);
    confidence_score := 7 # 10
  |}.

(** [_analyze_portfolio_composition] mutates the assessment in place; here
    it returns the updated record. *)
Definition risk_counts (ps : list PositionRiskAssessment) (level : RiskLevel)
  : nat :=
  length (filter (fun p => RiskLevel_eqb (risk_level p) level = true) ps).

Definition with_composition (a : PortfolioRiskAssessment)
    (score : Q) (warning : bool) (max_conc : Q) (overall : RiskLevel)
    (rebalance : bool) (at_risk : Q) : PortfolioRiskAssessment :=
  {| account_id := account_id a;
     total_value := total_value a;
     cash_available := cash_available a;
     invested_value := invested_value a;
     total_unrealized_pnl := total_unrealized_pnl a;
     overall_risk_level := overall;
     diversification_score := score;
     concentration_warning := warning;
     max_position_concentration_seen := max_conc;
     correlation_risk := correlation_risk a;
     positions := positions a;
     rebalance_needed := rebalance;
     capital_at_risk := at_risk;
     suggested_actions := suggested_actions a |}.

Definition _analyze_portfolio_composition (assessment : PortfolioRiskAssessment)
  : PortfolioRiskAssessment :=
  match positions assessment with
  | [] =>
      with_composition assessment 100
        (concentration_warning assessment)
        (max_position_concentration_seen assessment)
        LOW
        (rebalance_needed assessment)
        (capital_at_risk assessment)
  | p0 :: rest =>
      let ps := p0 :: rest in
      let num_positions := length ps in
      let score0 : Q :=
        if Nat.leb 10 num_positions then 90
        else if Nat.leb 5 num_positions then 70
        else if Nat.leb 3 num_positions then 50
        else 30 in
      let max_conc :=
        pymax_list (concentration_risk p0) (map concentration_risk rest) in
      let warning := Qlt_bool (max_position_concentration * 100) max_conc in
      let score := if warning then score0 - 20 else score0 in
      let n : Q := inject_Z (Z.of_nat num_positions) in
      let count (l : RiskLevel) : Q := inject_Z (Z.of_nat (risk_counts ps l)) in
      let overall :=
        if Qlt_bool 0 (count CRITICAL) then CRITICAL
        else if Qlt_bool (n * (3 # 10)) (count HIGH) then HIGH
        else if Qlt_bool (n * (5 # 10)) (count MODERATE) then MODERATE
        else LOW in
      let actions_needed :=
        filter (fun p => PositionAction_eqb (recommended_action p) HOLD = false) ps in
      let rebalance := Nat.ltb 0 (length actions_needed) in
      let at_risk :=
        pysum (map (fun p => pyabs (unrealized_pnl p))
                   (filter (fun p => Qlt_bool (unrealized_pnl p) 0 = true) ps)) in
      with_composition assessment score
        (if warning then true else concentration_warning assessment)
        max_conc overall rebalance at_risk
  end.

Definition priority_order (a : PositionAction) : Z :=
  match a with
  | EXIT => 1 | REDUCE => 2 | REALLOCATE => 3 | ADD => 4 | HOLD => 5
  end%Z.

(** The sort key [(priority, -abs(pnl_pct))] and the tuple order on it. *)
Definition sort_key (p : PositionRiskAssessment) : Z * Q :=
  (priority_order (recommended_action p), - pyabs (unrealized_pnl_pct p)).

Definition key_lt (k1 k2 : Z * Q) : bool :=
  (Z.ltb (fst k1) (fst k2)
   || (Z.eqb (fst k1) (fst k2) && Qlt_bool (snd k1) (snd k2)))%bool.

(** [sorted(..., key=...)] is stable: equal keys keep their input order. *)
Fixpoint insert_sorted (x : PositionRiskAssessment)
    (l : list PositionRiskAssessment) : list PositionRiskAssessment :=
  match l with
  | [] => [x]
  | y :: ys =>
      if key_lt (sort_key y) (sort_key x) then y :: insert_sorted x ys
      else x :: y :: ys
  end.

Definition sorted (l : list PositionRiskAssessment)
  : list PositionRiskAssessment :=
  fold_right insert_sorted [] l.

(** The loop over [enumerate(sorted_positions)], from index [i]. *)
Fixpoint position_suggestions (i : Z) (l : list PositionRiskAssessment)
  : list Suggestion :=
  match l with
  | [] => []
  | pos :: rest =>
      let tail := position_suggestions (i + 1)%Z rest in
      if PositionAction_eqb (recommended_action pos) HOLD then tail
      else {| sg_priority := (i + 1)%Z;
              sg_symbol := Some (symbol pos);
              sg_action := action_value (recommended_action pos);
              sg_reason := PositionReason (action_reason pos);
              sg_current_value := market_value pos;
              sg_pnl_pct := unrealized_pnl_pct pos;
              sg_risk_level := risk_value (risk_level pos) |} :: tail
  end.

Definition deploy_cash (priority : Z) (cash_pct cash : Q) : Suggestion :=
  {| sg_priority := priority;
     sg_symbol := None;
     sg_action := "deploy_cash";
     sg_reason := CashPosition cash_pct;
     sg_current_value := cash;
     sg_pnl_pct := 0;
     sg_risk_level := "low" |}.

Definition with_suggestions (a : PortfolioRiskAssessment)
    (s : list Suggestion) : PortfolioRiskAssessment :=
  {| account_id := account_id a;
     total_value := total_value a;
     cash_available := cash_available a;
     invested_value := invested_value a;
     total_unrealized_pnl := total_unrealized_pnl a;
     overall_risk_level := overall_risk_level a;
     diversification_score := diversification_score a;
     concentration_warning := concentration_warning a;
     max_position_concentration_seen := max_position_concentration_seen a;
     correlation_risk := correlation_risk a;
     positions := positions a;
     rebalance_needed := rebalance_needed a;
     capital_at_risk := capital_at_risk a;
     suggested_actions := s |}.

Definition _generate_recommendations (assessment : PortfolioRiskAssessment)
  : outcome PortfolioRiskAssessment :=
  let suggestions := position_suggestions 0 (sorted (positions assessment)) in
  let! cash_pct :=
    (if Qlt_bool 0 (total_value assessment)
     then let! r := pydiv (cash_available assessment) (total_value assessment) in
          Returned (r * 100)
     else Returned 0) in
  let suggestions :=
    if Qlt_bool 30 cash_pct
    then suggestions ++
         [deploy_cash (Z.of_nat (length suggestions) + 1)%Z cash_pct
            (cash_available assessment)]
    else suggestions in
  Returned (with_suggestions assessment suggestions).

(** The loop of [assess_portfolio_risk] over the stored positions: only rows
    with a positive quantity are assessed. *)
Fixpoint assess_positions (ps : list Position) (total_value : Q)
  : outcome (list PositionRiskAssessment) :=
  match ps with
  | [] => Returned []
  | position :: rest =>
      if (truthy (pos_quantity position)
          && Qlt_bool 0 (or_else (pos_quantity position) 0))%bool
      then
        let! assessment := _assess_position position total_value in
        let! tail := assess_positions rest total_value in
        Returned (assessment :: tail)
      else assess_positions rest total_value
  end.

(** [assess_portfolio_risk]: the two store lookups are its arguments,
    [account] being [None] when the account does not exist. *)
Definition assess_portfolio_risk (id : string) (account : option Account)
    (positions : list Position) : outcome PortfolioRiskAssessment :=
  match account with
  | None => Raised (ValueError ("Account " ++ id ++ " not found"))
  | Some account =>
      let total_invested :=
        pysum (map (fun p =>
                      or_else (pos_quantity p) 0
                      * or_else (pos_current_price p)
                          (or_else (pos_average_entry_price p) 0))
                   positions) in
      let cash_available :=
        if truthy (balance account) then or_else (balance account) 0 else 0 in
      let total_value := total_invested + cash_available in
      let! position_assessments := assess_positions positions total_value in
      let portfolio_assessment :=
        {| account_id := id;
           total_value := total_value;
           cash_available := cash_available;
           invested_value := total_invested;
           total_unrealized_pnl := pysum (map unrealized_pnl position_assessments);
           overall_risk_level := MODERATE;
           diversification_score := 0;
           concentration_warning := false;
           max_position_concentration_seen := 0;
           correlation_risk := 0;
           positions := position_assessments;
           rebalance_needed := false;
           capital_at_risk := 0;
           suggested_actions := [] |} in
      _generate_recommendations
        (_analyze_portfolio_composition portfolio_assessment)
  end.

End RiskService.

(** ** services/auto_rebalancer.py *)

Module Rebalancer.

Inductive RebalanceAction := BUY | SELL | SELL_ALL | NO_ACTION.

(** Modelled from the spec: the alert types of [services/continuous_monitor],
    whose module is not among the sources; these are the five types
    [_handle_alert] dispatches on. *)
Inductive AlertType :=
| STOP_LOSS_HIT | TAKE_PROFIT | CONCENTRATION | RISK_THRESHOLD | IDLE_CAPITAL.

(** Modelled from the spec: the urgency tiers of [services/continuous_monitor],
    IMMEDIATE > HIGH > MEDIUM > LOW. *)
Inductive ActionUrgency := IMMEDIATE | HIGH | MEDIUM | LOW.

(** Modelled from the spec: the alert of [services/continuous_monitor], with
    the fields the rebalancer reads; [a_data] is the payload dictionary. *)
Record Alert := {
  a_alert_type : AlertType;
  a_urgency : ActionUrgency;
  a_symbol : option string;
  a_data : gmap string Q
}.

(** The text of a trade's [reason]; formatted figures are kept as numbers. *)
Inductive TradeReason :=
| StopLossTriggered (pnl_pct : Q)
| ReducingExposure (pnl_pct : Q)
| TakingProfits (pnl_pct : Q)
| ReducingConcentration (concentration target_pct : Q)
| CriticalRiskThreshold.

Record TradeExecution := {
  timestamp : Z;
  symbol : string;
  action : RebalanceAction;
  quantity : Q;
  price : Q;
  total_value : Q;
  reason : TradeReason;
  alert_type : option AlertType;
  success : bool;
  error : option string
}.

Record RebalanceConfig := {
  enabled : bool;
  dry_run : bool;
  max_daily_trades : Z;
  max_single_trade_pct : Q;
  min_trade_value : Q;
  cooldown_minutes : Z;
  auto_exit_loss_pct : Q;
  auto_reduce_gain_pct : Q;
  auto_reduce_concentration_pct : Q;
  target_position_pct : Q;
  max_position_pct : Q;
  act_on_immediate : bool;
  act_on_high : bool;
  act_on_medium : bool;
  act_on_low : bool
}.

(** The defaults of the [RebalanceConfig] dataclass. *)
Definition default_config : RebalanceConfig :=
  {| enabled := true;
     dry_run := true;
     max_daily_trades := 10;
     max_single_trade_pct := 25;
     min_trade_value := 100;
     cooldown_minutes := 15;
     auto_exit_loss_pct := -15;
     auto_reduce_gain_pct := 30;
     auto_reduce_concentration_pct := 30;
     target_position_pct := 5;
     max_position_pct := 10;
     act_on_immediate := true;
     act_on_high := true;
     act_on_medium := false;
     act_on_low := false |}.

(** The attributes of the rebalancer that no method assigns. *)
Record Rebalancer := {
  account_id : string;
  config : RebalanceConfig;
  on_trade : option (TradeExecution -> outcome unit)
}.

(** The state the methods mutate. *)
Record State := {
  _trade_history : list TradeExecution;
  _daily_trade_count : Z;
  _last_trade_time : gmap string Z;
  _last_reset_date : Z;
  _running : bool
}.

(** The position store behind [PositionService] and the session.  A row
    carries its quantity as a number: the rebalancer reads it with
    [float(position.quantity)] and, unlike the risk service with its
    [or 0], has no path of its own for a row without one. *)
Record StoredPosition := {
  sp_ticker : option string;
  sp_symbol_id : Z;
  sp_quantity : Q
}.

Record Order := {
  o_account_id : string;
  o_symbol_id : Z;
  o_order_type : string;
  o_quantity : Q;
  o_price : Q;
  o_status : string;
  o_created_at : Z;
  o_filled_at : Z
}.

Record Store := {
  stored_positions : list StoredPosition;
  stored_orders : list Order
}.

(** What lies outside the rebalancer: the store, and the executions handed
    to the [on_trade] callback so far, in order. *)
Record World := {
  store : Store;
  notified : list TradeExecution
}.

(** The successive readings of [datetime.now()] during one handling, each
    named after the statement that takes it, and the fate of the store
    transaction: [commit_error = Some msg] when it raises. *)
Record Env := {
  at_reset : Z;
  at_check : Z;
  at_stamp : Z;
  at_created : Z;
  at_filled : Z;
  at_update : Z;
  commit_error : option string
}.

Definition date (t : Z) : Z := (t / 86400)%Z.

(** [__init__], constructed at time [now]. *)
Definition init (now : Z) : State :=
  {| _trade_history := [];
     _daily_trade_count := 0;
     _last_trade_time := ∅;
     _last_reset_date := date now;
     _running := false |}.

Definition start (st : State) : State :=
  {| _trade_history := _trade_history st;
     _daily_trade_count := _daily_trade_count st;
     _last_trade_time := _last_trade_time st;
     _last_reset_date := _last_reset_date st;
     _running := true |}.

Definition stop (st : State) : State :=
  {| _trade_history := _trade_history st;
     _daily_trade_count := _daily_trade_count st;
     _last_trade_time := _last_trade_time st;
     _last_reset_date := _last_reset_date st;
     _running := false |}.

Definition _reset_daily_limits (st : State) (now : Z) : State :=
  let today := date now in
  if (_last_reset_date st <? today)%Z then
    {| _trade_history := _trade_history st;
       _daily_trade_count := 0;
       _last_trade_time := _last_trade_time st;
       _last_reset_date := today;
       _running := _running st |}
  else st.

Inductive Message :=
| OK
| DailyLimitReached
| CooldownActive (minutes_left : Q).

Definition _can_trade (self : Rebalancer) (st : State) (env : Env)
    (symbol : string) : State * (bool * Message) :=
  let st := _reset_daily_limits st (at_reset env) in
  if (max_daily_trades (config self) <=? _daily_trade_count st)%Z then
    (st, (false, DailyLimitReached))
  else
    match _last_trade_time st !! symbol with
    | Some last =>
        let elapsed := inject_Z (at_check env - last) / 60 in
        let cooldown := inject_Z (cooldown_minutes (config self)) in
        if Qlt_bool elapsed cooldown
        then (st, (false, CooldownActive (cooldown - elapsed)))
        else (st, (true, OK))
    | None => (st, (true, OK))
    end.

Definition is_sell (action : RebalanceAction) : bool :=
  match action with SELL | SELL_ALL => true | _ => false end.

Definition is_sell_all (action : RebalanceAction) : bool :=
  match action with SELL_ALL => true | _ => false end.

(** The loop that looks the position up: the first row whose ticker equals
    the symbol, letter case aside; a row without symbol has ticker [""]. *)
Definition pos_symbol (p : StoredPosition) : string := default "" (sp_ticker p).

Definition find_position (positions : list StoredPosition) (symbol : string)
  : option (nat * StoredPosition) :=
  list_find (fun p => upper (pos_symbol p) = upper symbol) positions.

(** [_execute_real_trade]: the order is added, the position reduced and
    deleted once empty, and the transaction committed; a raising
    transaction leaves the store as it was. *)
Definition _execute_real_trade (self : Rebalancer) (db : Store) (env : Env)
    (position : option (nat * StoredPosition)) (action : RebalanceAction)
    (quantity price : Q) : Store * outcome unit :=
  if is_sell action then
    match commit_error env with
    | Some msg => (db, Raised (Exception msg))
    | None =>
        match position with
        | None => (db, Raised (Exception "'NoneType' object has no attribute 'symbol_id'"))
        | Some (i, p) =>
            let order :=
              {| o_account_id := account_id self;
                 o_symbol_id := sp_symbol_id p;
                 o_order_type := "sell";
                 o_quantity := quantity;
                 o_price := price;
                 o_status := "filled";
                 o_created_at := at_created env;
                 o_filled_at := at_filled env |} in
            let left := sp_quantity p - quantity in
            let positions :=
              if Qle_bool left 0 then delete i (stored_positions db)
              else <[i := {| sp_ticker := sp_ticker p;
                             sp_symbol_id := sp_symbol_id p;
                             sp_quantity := left |}]> (stored_positions db) in
            ({| stored_positions := positions;
                stored_orders := stored_orders db ++ [order] |},
             Returned tt)
        end
    end
  else (db, Returned tt).

(** The outcome of a method: the state and the world it leaves, and whether
    it returned or raised. *)
Definition Step : Type := State * World * outcome unit.

Definition record_trade (st : State) (env : Env) (execution : TradeExecution)
  : State :=
  {| _trade_history := _trade_history st ++ [execution];
     _daily_trade_count := (_daily_trade_count st + 1)%Z;
     _last_trade_time := <[symbol execution := at_update env]> (_last_trade_time st);
     _last_reset_date := _last_reset_date st;
     _running := _running st |}.

Definition failed (execution : TradeExecution) (msg : string) : TradeExecution :=
  {| timestamp := timestamp execution;
     symbol := symbol execution;
     action := action execution;
     quantity := quantity execution;
     price := price execution;
     total_value := total_value execution;
     reason := reason execution;
     alert_type := alert_type execution;
     success := false;
     error := Some msg |}.

Definition exn_message (e : exn) : string :=
  match e with
  | ZeroDivisionError => "division by zero"
  | ValueError msg => msg
  | Exception msg => msg
  end.

(** The blocks "Calculate quantity" and "Apply max single trade limit" of
    [_execute_trade]. *)
Definition calculate_quantity (self : Rebalancer)
    (position : option (nat * StoredPosition)) (action : RebalanceAction)
    (quantity_pct : Q) : Q :=
  let held := from_option (fun ip => sp_quantity (snd ip)) 0 position in
  let quantity :=
    match action with
    | SELL_ALL => held
    | SELL => held * (quantity_pct / 100)
    | _ => 0
    end in
  match position with
  | Some (_, p) =>
      let max_quantity :=
        sp_quantity p * (max_single_trade_pct (config self) / 100) in
      pymin quantity max_quantity
  | None => quantity
  end.

(** The block "Calculate value". *)
Definition calculate_value (quantity price : Q) : Q :=
  if Qlt_bool 0 price then quantity * price else 0.

(** The check "minimum trade value". *)
Definition too_small (self : Rebalancer) (trade_value : Q)
    (action : RebalanceAction) : bool :=
  (Qlt_bool trade_value (min_trade_value (config self))
   && negb (is_sell_all action))%bool.

Definition _execute_trade (self : Rebalancer) (st : State) (w : World)
    (env : Env) (symbol : string) (action : RebalanceAction)
    (reason : TradeReason) (alert_type : option AlertType) (price : Q)
    (quantity_pct : Q) : Step :=
  let '(st, (can_trade, message)) := _can_trade self st env symbol in
  if negb can_trade then (st, w, Returned tt)
  else
    let position := find_position (stored_positions (store w)) symbol in
    if (negb (bool_decide (is_Some position)) && is_sell action)%bool then
      (st, w, Returned tt)
    else
      let quantity := calculate_quantity self position action quantity_pct in
      let trade_value := calculate_value quantity price in
      if too_small self trade_value action then (st, w, Returned tt)
      else
        let execution :=
          {| timestamp := at_stamp env;
             symbol := symbol;
             action := action;
             quantity := quantity;
             price := price;
             total_value := trade_value;
             reason := reason;
             alert_type := alert_type;
             success := true;
             error := None |} in
        let '(db, execution) :=
          if dry_run (config self) then (store w, execution)
          else
            match _execute_real_trade self (store w) env position action
                    quantity price with
            | (db, Returned _) => (db, execution)
            | (db, Raised e) => (db, failed execution (exn_message e))
            end in
        let st := record_trade st env execution in
        match on_trade self with
        | Some callback =>
            (st, {| store := db; notified := notified w ++ [execution] |},
             callback execution)
        | None => (st, {| store := db; notified := notified w |}, Returned tt)
        end.

(** [alert.data.get(key, 0)] *)
Definition get (data : gmap string Q) (key : string) : Q :=
  default 0 (data !! key).

(** [if not symbol: return]: a missing and an empty symbol are both falsy. *)
Definition usable_symbol (s : option string) : option string :=
  match s with
  | Some EmptyString => None
  | other => other
  end.

Definition _handle_stop_loss (self : Rebalancer) (st : State) (w : World)
    (env : Env) (alert : Alert) : Step :=
  match usable_symbol (a_symbol alert) with
  | None => (st, w, Returned tt)
  | Some symbol =>
      let pnl_pct := get (a_data alert) "pnl_pct" in
      let current_price := get (a_data alert) "current_price" in
      if Qlt_bool pnl_pct (auto_exit_loss_pct (config self)) then
        _execute_trade self st w env symbol SELL_ALL
          (StopLossTriggered pnl_pct) (Some (a_alert_type alert))
          current_price 100
      else
        _execute_trade self st w env symbol SELL
          (ReducingExposure pnl_pct) (Some (a_alert_type alert))
          current_price 50
  end.

Definition _handle_take_profit (self : Rebalancer) (st : State) (w : World)
    (env : Env) (alert : Alert) : Step :=
  match usable_symbol (a_symbol alert) with
  | None => (st, w, Returned tt)
  | Some symbol =>
      let pnl_pct := get (a_data alert) "pnl_pct" in
      let current_price := get (a_data alert) "current_price" in
      if Qlt_bool (auto_reduce_gain_pct (config self)) pnl_pct then
        let reduce_pct := pymin 50 (max_single_trade_pct (config self)) in
        _execute_trade self st w env symbol SELL
          (TakingProfits pnl_pct) (Some (a_alert_type alert))
          current_price reduce_pct
      else (st, w, Returned tt)
  end.

Definition _handle_concentration (self : Rebalancer) (st : State) (w : World)
    (env : Env) (alert : Alert) : Step :=
  match usable_symbol (a_symbol alert) with
  | None => (st, w, Returned tt)
  | Some symbol =>
      let concentration := get (a_data alert) "concentration_pct" in
      let current_price := get (a_data alert) "current_price" in
      if Qlt_bool (auto_reduce_concentration_pct (config self)) concentration then
        let target_pct := target_position_pct (config self) in
        match pydiv (concentration - target_pct) concentration with
        | Raised e => (st, w, Raised e)
        | Returned r =>
            let reduce_pct := r * 100 in
            let reduce_pct :=
              pymin reduce_pct (max_single_trade_pct (config self)) in
            _execute_trade self st w env symbol SELL
              (ReducingConcentration concentration target_pct)
              (Some (a_alert_type alert)) current_price reduce_pct
        end
      else (st, w, Returned tt)
  end.

Definition _handle_risk_threshold (self : Rebalancer) (st : State) (w : World)
    (env : Env) (alert : Alert) : Step :=
  match usable_symbol (a_symbol alert) with
  | None => (st, w, Returned tt)
  | Some symbol =>
      let current_price := get (a_data alert) "current_price" in
      _execute_trade self st w env symbol SELL_ALL
        CriticalRiskThreshold (Some (a_alert_type alert)) current_price 100
  end.

(** [_handle_idle_capital] only logs. *)
Definition _handle_idle_capital (self : Rebalancer) (st : State) (w : World)
    (env : Env) (alert : Alert) : Step :=
  (st, w, Returned tt).

Definition should_act (cfg : RebalanceConfig) (u : ActionUrgency) : bool :=
  match u with
  | IMMEDIATE => act_on_immediate cfg
  | HIGH => act_on_high cfg
  | MEDIUM => act_on_medium cfg
  | LOW => act_on_low cfg
  end.

Definition _handle_alert (self : Rebalancer) (st : State) (w : World)
    (env : Env) (alert : Alert) : Step :=
  if (negb (_running st) || negb (enabled (config self)))%bool then
    (st, w, Returned tt)
  else if negb (should_act (config self) (a_urgency alert)) then
    (st, w, Returned tt)
  else
    match a_alert_type alert with
    | STOP_LOSS_HIT => _handle_stop_loss self st w env alert
    | TAKE_PROFIT => _handle_take_profit self st w env alert
    | CONCENTRATION => _handle_concentration self st w env alert
    | RISK_THRESHOLD => _handle_risk_threshold self st w env alert
    | IDLE_CAPITAL => _handle_idle_capital self st w env alert
    end.

Record DailyStats := {
  trades_today : Z;
  trades_remaining : Z;
  total_volume : Q;
  successful : Z;
  failed_count : Z;
  dry_run_mode : bool
}.

(** [get_daily_stats]: [now_reset] is the clock reading of the reset check
    and [now_filter] the one the history is filtered with. *)
Definition get_daily_stats (self : Rebalancer) (st : State)
    (now_reset now_filter : Z) : State * DailyStats :=
  let st := _reset_daily_limits st now_reset in
  let today_trades :=
    filter (fun t => date (timestamp t) = date now_filter) (_trade_history st) in
  (st,
   {| trades_today := Z.of_nat (length today_trades);
      trades_remaining :=
        (max_daily_trades (config self) - _daily_trade_count st)%Z;
      total_volume :=
        pysum (map total_value (filter (fun t => success t = true) today_trades));
      successful :=
        Z.of_nat (length (filter (fun t => success t = true) today_trades));
      failed_count :=
        Z.of_nat (length (filter (fun t => success t = false) today_trades));
      dry_run_mode := dry_run (config self) |}).

(** The operations a client performs on one rebalancer, and a run of them
    from a given state.  An exception raised by one operation reaches its
    caller; the rebalancer lives on and serves the next operation. *)
Inductive Op :=
| Start
| Stop
| HandleAlert (alert : Alert) (env : Env)
| GetDailyStats (now_reset now_filter : Z).

Definition step (self : Rebalancer) (sw : State * World) (op : Op)
  : State * World :=
  let '(st, w) := sw in
  match op with
  | Start => (start st, w)
  | Stop => (stop st, w)
  | HandleAlert alert env => fst (_handle_alert self st w env alert)
  | GetDailyStats now_reset now_filter =>
      (fst (get_daily_stats self st now_reset now_filter), w)
  end.

Definition run (self : Rebalancer) (sw : State * World) (ops : list Op)
  : State * World :=
  fold_left (step self) ops sw.

End Rebalancer.

(** ** What a handling does, as relations *)

Module Handling.

Import Rebalancer.

(** The throttle check passed for [symbol] in the state [st] it was made
    in (after the daily reset). *)
Definition throttle_passed (self : Rebalancer) (st : State) (env : Env)
    (symbol : string) : Prop :=
  (_daily_trade_count st < max_daily_trades (config self))%Z
  /\ forall last,
      _last_trade_time st !! symbol = Some last ->
      inject_Z (cooldown_minutes (config self))
      <= inject_Z (at_check env - last) / 60.

(** What one call of [_execute_trade] does: it either leaves without a
    trade, having at most reset the daily limits, or it records exactly
    one execution after a passed throttle check, hands it to the callback
    if there is one, and ends as the callback ends. *)
Inductive executed (self : Rebalancer) (st : State) (w : World) (env : Env)
    (symbol : string) (action : RebalanceAction) (quantity_pct : Q)
  : Step -> Prop :=
| executed_skip :
    executed self st w env symbol action quantity_pct
      (_reset_daily_limits st (at_reset env), w, Returned tt)
| executed_trade (e : TradeExecution) db w' result :
    let st0 := _reset_daily_limits st (at_reset env) in
    let position := find_position (stored_positions (store w)) symbol in
    throttle_passed self st0 env symbol ->
    Rebalancer.symbol e = symbol ->
    Rebalancer.action e = action ->
    timestamp e = at_stamp env ->
    quantity e = calculate_quantity self position action quantity_pct ->
    (is_sell action = true -> is_Some position) ->
    (dry_run (config self) = true -> success e = true /\ db = store w) ->
    (forall msg,
        dry_run (config self) = false -> is_sell action = true ->
        commit_error env = Some msg ->
        success e = false /\ error e = Some msg /\ db = store w) ->
    w' = {| store := db;
            notified := notified w ++ match on_trade self with
                                      | Some _ => [e]
                                      | None => []
                                      end |} ->
    result = match on_trade self with
             | Some callback => callback e
             | None => Returned tt
             end ->
    executed self st w env symbol action quantity_pct
      (record_trade st0 env e, w', result).

(** What one call of [_handle_alert] does: it either discards the alert,
    leaving state and world as they were (the concentration handler may
    raise on a zero concentration before any trade), or it is one call of
    [_execute_trade] for a selling action. *)
Inductive handled (self : Rebalancer) (st : State) (w : World) (env : Env)
    (alert : Alert) : Step -> Prop :=
| handled_discarded :
    handled self st w env alert (st, w, Returned tt)
| handled_raised :
    a_alert_type alert = CONCENTRATION ->
    handled self st w env alert (st, w, Raised ZeroDivisionError)
| handled_executed symbol action quantity_pct step :
    _running st = true ->
    a_symbol alert = Some symbol ->
    is_sell action = true ->
    (action = SELL_ALL ->
     a_alert_type alert = RISK_THRESHOLD
     \/ (a_alert_type alert = STOP_LOSS_HIT
         /\ get (a_data alert) "pnl_pct" < auto_exit_loss_pct (config self))) ->
    executed self st w env symbol action quantity_pct step ->
    handled self st w env alert step.

(** A handling that records nothing: the history and the world are as
    before (the state has at most been through the daily reset), and the
    handling returns, or raises on the zero concentration it divides by. *)
Definition untouched (st : State) (w : World) (step : Step) : Prop :=
  let '(st', w', r) := step in
  _trade_history st' = _trade_history st
  /\ w' = w
  /\ (r = Returned tt \/ r = Raised ZeroDivisionError).

(** A handling that records the execution [e]: [e] is appended to the
    history, counted and stamped as its symbol's last trade; it succeeded
    in dry-run mode and failed with the transaction's message in live
    mode when the transaction raised, the store being unchanged in both
    cases; it is handed to the callback, if there is one, exactly once;
    and the handling ends as the callback ends. *)
Definition recorded (self : Rebalancer) (st : State) (w : World) (env : Env)
    (step : Step) (e : TradeExecution) : Prop :=
  let '(st', w', r) := step in
  st' = record_trade (_reset_daily_limits st (at_reset env)) env e
  /\ _trade_history st' = _trade_history st ++ [e]
  /\ is_sell (action e) = true
  /\ (dry_run (config self) = true ->
      success e = true /\ store w' = store w)
  /\ (forall msg,
        dry_run (config self) = false -> commit_error env = Some msg ->
        success e = false /\ error e = Some msg /\ store w' = store w)
  /\ notified w' = notified w ++ match on_trade self with
                                  | Some _ => [e]
                                  | None => []
                                  end
  /\ r = match on_trade self with
         | Some callback => callback e
         | None => Returned tt
         end.

(** The counter stays between 0 and the cap. *)
Definition counter_within_cap (self : Rebalancer) (st : State) : Prop :=
  (0 <= _daily_trade_count st <= max_daily_trades (config self))%Z.

End Handling.

(** ** Clocks and runs *)

Module Clock.

Import Rebalancer.

(** The number of executions of a history stamped on day [d]. *)
Definition trades_on (d : Z) (history : list TradeExecution) : nat :=
  length (filter (fun t => date (timestamp t) = d) history).

(** Within one handling the clock does not run backwards between the
    cooldown check, the stamp of the execution and the update of the
    last-trade time. *)
Definition readings_ordered (op : Op) : Prop :=
  match op with
  | HandleAlert _ env => (at_check env <= at_stamp env <= at_update env)%Z
  | _ => True
  end.

(** The dates the clock shows never fall behind: each reset check reads a
    date no earlier than [d], the date of the previous one, and a
    handling does not straddle midnight between its reset check and the
    stamp of its execution. *)
Fixpoint clock_advances (d : Z) (ops : list Op) : Prop :=
  match ops with
  | [] => True
  | HandleAlert _ env :: rest =>
      (d <= date (at_reset env))%Z
      /\ date (at_stamp env) = date (at_reset env)
      /\ clock_advances (date (at_reset env)) rest
  | GetDailyStats now_reset _ :: rest =>
      (d <= date now_reset)%Z /\ clock_advances (date now_reset) rest
  | _ :: rest => clock_advances d rest
  end.

(** What the daily bookkeeping maintains while the clock shows day [d] or
    later: the stored reset date is not after [d], no execution is stamped
    after the reset date, the counter covers the executions stamped on the
    reset date and is within the cap, and no day has more executions than
    the cap. *)
Definition daily_invariant (self : Rebalancer) (d : Z) (st : State) : Prop :=
  (_last_reset_date st <= d)%Z
  /\ Forall (fun e => (date (timestamp e) <= _last_reset_date st)%Z)
       (_trade_history st)
  /\ (Z.of_nat (trades_on (_last_reset_date st) (_trade_history st))
      <= _daily_trade_count st)%Z
  /\ (_daily_trade_count st <= max_daily_trades (config self))%Z
  /\ forall d', (Z.of_nat (trades_on d' (_trade_history st))
                 <= max_daily_trades (config self))%Z.

(** Executions recorded under one symbol string are at least [c] minutes
    apart, in the order of the history. *)
Definition spaced (c : Z) (history : list TradeExecution) : Prop :=
  forall (i j : nat) (e1 e2 : TradeExecution),
    (i < j)%nat ->
    history !! i = Some e1 -> history !! j = Some e2 ->
    symbol e1 = symbol e2 ->
    (timestamp e1 + 60 * c <= timestamp e2)%Z.

(** What the cooldown bookkeeping maintains: the last-trade time kept
    under a symbol string is not before the stamp of any execution recorded
    under it, and the executions recorded under one string are a cooldown
    apart. *)
Definition cooldown_invariant (self : Rebalancer) (st : State) : Prop :=
  Forall (fun e => exists u, _last_trade_time st !! symbol e = Some u
                             /\ (timestamp e <= u)%Z)
    (_trade_history st)
  /\ spaced (cooldown_minutes (config self)) (_trade_history st).

End Clock.

(** ** Scenarios *)

Module Scenario.

Import Rebalancer.

(** An account holding 10 units of AAPL. *)
Definition holding : World :=
  {| store := {| stored_positions :=
                   [{| sp_ticker := Some "AAPL"; sp_symbol_id := 1;
                       sp_quantity := 10 |}];
                 stored_orders := [] |};
     notified := [] |}.

(** A handling whose clock readings are all [t]. *)
Definition at_time (t : Z) (failure : option string) : Env :=
  {| at_reset := t; at_check := t; at_stamp := t; at_created := t;
     at_filled := t; at_update := t; commit_error := failure |}.

Definition risk_alert : Alert :=
  {| a_alert_type := RISK_THRESHOLD;
     a_urgency := IMMEDIATE;
     a_symbol := Some "AAPL";
     a_data := {[ "current_price" := 100 ]} |}.

Definition stop_loss_alert : Alert :=
  {| a_alert_type := STOP_LOSS_HIT;
     a_urgency := IMMEDIATE;
     a_symbol := Some "AAPL";
     a_data := <[ "pnl_pct" := -20 ]> {[ "current_price" := 100 ]} |}.

(** The same stop-loss alert, naming the position in lower case. *)
Definition stop_loss_alert_lower : Alert :=
  {| a_alert_type := STOP_LOSS_HIT;
     a_urgency := IMMEDIATE;
     a_symbol := Some "aapl";
     a_data := a_data stop_loss_alert |}.

(** A concentration alert for AAPL at 40% of the portfolio. *)
Definition concentration_alert : Alert :=
  {| a_alert_type := CONCENTRATION;
     a_urgency := HIGH;
     a_symbol := Some "AAPL";
     a_data := <[ "concentration_pct" := 40 ]> {[ "current_price" := 100 ]} |}.

(** The rebalancer of [create_auto_rebalancer], without a callback or with
    the given one. *)
Definition rebalancer (dry : bool)
    (callback : option (TradeExecution -> outcome unit)) : Rebalancer :=
  {| account_id := "demo";
     config :=
       {| enabled := true;
          dry_run := dry;
          max_daily_trades := 10;
          max_single_trade_pct := 25;
          min_trade_value := min_trade_value default_config;
          cooldown_minutes := 15;
          auto_exit_loss_pct := -15;
          auto_reduce_gain_pct := 30;
          auto_reduce_concentration_pct := 30;
          target_position_pct := target_position_pct default_config;
          max_position_pct := max_position_pct default_config;
          act_on_immediate := true;
          act_on_high := true;
          act_on_medium := false;
          act_on_low := false |};
     on_trade := callback |}.

Definition quiet_callback (e : TradeExecution) : outcome unit := Returned tt.

Definition failing_callback (e : TradeExecution) : outcome unit :=
  Raised (Exception "notification failed").

End Scenario.

(** ** services/portfolio_risk_service.py: the queries *)

Module RiskQueries.

Import RiskService.

(** [max(a, b)] returns its first argument unless the second is larger. *)
Definition pymax (a b : Q) : Q := if Qlt_bool a b then b else a.

(** The [symbol] string of an assessment: the ticker, or ["ID:<symbol_id>"]. *)
Definition symbol_text (s : SymbolName) : string :=
  match s with
  | Ticker t => t
  | SymbolId id => "ID:" ++ pretty id
  end.

Definition get_position_recommendation (id : string) (account : option Account)
    (stored : list Position) (symbol : string)
  : outcome (option PositionRiskAssessment) :=
  let! assessment := assess_portfolio_risk id account stored in
  Returned
    (snd <$> list_find
               (fun pos => upper (symbol_text (RiskService.symbol pos)) = upper symbol)
               (positions assessment)).

(** An opportunity is a dictionary read with [get]; a missing key is [None]. *)
Record Opportunity := {
  opp_symbol : option string;
  opp_reason : option string;
  opp_expected_return : option string;
  opp_risk_level : option string
}.

Inductive ReallocationReason :=
| FromAction (r : ActionReason)
| NewOpportunity (text : string).

Record ReallocationSuggestion := {
  from_symbol : option string;
  to_symbol : option string;
  amount : Q;
  reason : ReallocationReason;
  priority : Z;
  expected_benefit : string;
  risk_impact : string
}.

Definition to_reduce (pos : PositionRiskAssessment) : bool :=
  (PositionAction_eqb (recommended_action pos) REDUCE
   || PositionAction_eqb (recommended_action pos) EXIT)%bool.

(** The capital a reduction frees: the whole market value for an EXIT, the
    excess over the target allocation for a REDUCE.  The arithmetic is
    exact: where the target allocation is the position's own concentration
    the excess is exactly 0 here, while floats may leave a rounding residue
    of either sign before [max]. *)
Definition reduction_amount (total : Q) (pos : PositionRiskAssessment) : Q :=
  if PositionAction_eqb (recommended_action pos) EXIT then market_value pos
  else
    let target_value := total * (target_allocation pos / 100) in
    pymax 0 (market_value pos - target_value).

Definition reduction_suggestion (assessment : PortfolioRiskAssessment)
    (pos : PositionRiskAssessment) : ReallocationSuggestion :=
  {| from_symbol := Some (symbol_text (RiskService.symbol pos));
     to_symbol := None;
     amount := reduction_amount (total_value assessment) pos;
     reason := FromAction (action_reason pos);
     priority :=
       if PositionAction_eqb (recommended_action pos) EXIT then 1 else 2;
     expected_benefit := "Reduce risk exposure";
     risk_impact :=
       "Reduces portfolio risk from "
       ++ risk_value (overall_risk_level assessment) |}.

(** The loop over [enumerate(opportunities[:3])], from index [i]; [n] is
    [len(opportunities)]. *)
Fixpoint opportunity_suggestions (freed_capital : Q) (n : nat) (i : Z)
    (opps : list Opportunity) : outcome (list ReallocationSuggestion) :=
  match opps with
  | [] => Returned []
  | opp :: rest =>
      let! share := pydiv freed_capital (inject_Z (Z.min 3 (Z.of_nat n))) in
      let! tail := opportunity_suggestions freed_capital n (i + 1)%Z rest in
      Returned
        ({| from_symbol := Some "freed_capital"%string;
            to_symbol := opp_symbol opp;
            amount := share;
            reason :=
              NewOpportunity
                (default "AI identified opportunity"%string (opp_reason opp));
            priority := (3 + i)%Z;
            expected_benefit :=
              default "Potential upside"%string (opp_expected_return opp);
            risk_impact := default "moderate"%string (opp_risk_level opp) |}
         :: tail)
  end.

(** [get_reallocation_suggestions]; [opportunities] is [None] for the
    default argument. *)
Definition get_reallocation_suggestions (id : string)
    (account : option Account) (stored : list Position)
    (opportunities : option (list Opportunity))
  : outcome (list ReallocationSuggestion) :=
  let! assessment := assess_portfolio_risk id account stored in
  let positions_to_reduce :=
    List.filter to_reduce (positions assessment) in
  let opps := default [] opportunities in
  if (bool_decide (positions_to_reduce = [])
      && bool_decide (opps = []))%bool then Returned []
  else
    let freed_capital :=
      pysum (map (reduction_amount (total_value assessment))
               positions_to_reduce) in
    let suggestions :=
      map (reduction_suggestion assessment) positions_to_reduce in
    if (negb (bool_decide (opps = [])) && Qlt_bool 0 freed_capital)%bool then
      let! more :=
        opportunity_suggestions freed_capital (length opps) 0 (take 3 opps) in
      Returned (suggestions ++ more)
    else Returned suggestions.

End RiskQueries.

(** ** services/auto_rebalancer.py: history, manual rebalance *)

Module RebalancerQueries.

Import Rebalancer.

(** [l[start:]] as Python slices: a negative start counts from the end, and
    both are clamped to the list. *)
Definition slice_from {A} (start : Z) (l : list A) : list A :=
  let n := Z.of_nat (length l) in
  let k := if (start <? 0)%Z then Z.max (n + start) 0 else Z.min start n in
  drop (Z.to_nat k) l.

Definition get_trade_history (st : State) (limit : Z) : list TradeExecution :=
  slice_from (- limit) (_trade_history st).

(** Modelled from the spec: the snapshot of [services/continuous_monitor],
    of which [manual_rebalance] reads the alerts only. *)
Record PortfolioSnapshot := { alerts : list Alert }.

Record RebalanceResult := {
  r_timestamp : Z;
  trades_executed : list TradeExecution;
  alerts_processed : nat;
  portfolio_before : option PortfolioSnapshot;
  portfolio_after : option PortfolioSnapshot;
  r_dry_run : bool
}.

(** [RebalanceResult.summary] formats two figures: the number of successful
    trades and their total value. *)
Definition summary_figures (r : RebalanceResult) : nat * Q :=
  let executed := List.filter success (trades_executed r) in
  (length executed, pysum (map total_value executed)).

(** The loop of [manual_rebalance] over the alerts; the [k]-th handling
    runs in the environment [envs k], and an exception ends the loop. *)
Fixpoint handle_alerts (self : Rebalancer) (st : State) (w : World)
    (envs : nat -> Env) (k : nat) (l : list Alert) : Step :=
  match l with
  | [] => (st, w, Returned tt)
  | alert :: rest =>
      match _handle_alert self st w (envs k) alert with
      | (st, w, Returned _) => handle_alerts self st w envs (S k) rest
      | raised => raised
      end
  end.

(** [manual_rebalance]: [monitor] is [None] when no monitor is connected and
    otherwise holds the two snapshots its [get_current_state] returns, before
    and after the handling; [now] is the clock reading of the result. *)
Definition manual_rebalance (self : Rebalancer)
    (on_rebalance : option (RebalanceResult -> outcome unit))
    (monitor : option (option PortfolioSnapshot * option PortfolioSnapshot))
    (st : State) (w : World) (envs : nat -> Env) (now : Z)
  : State * World * outcome RebalanceResult :=
  match monitor with
  | None =>
      (st, w, Raised (ValueError "Monitor not connected. Call start() first."))
  | Some (snapshot_before, snapshot_after) =>
      let trades_before := length (_trade_history st) in
      let '(st', w', handled) :=
        match snapshot_before with
        | Some snapshot => handle_alerts self st w envs 0 (alerts snapshot)
        | None => (st, w, Returned tt)
        end in
      match handled with
      | Raised e => (st', w', Raised e)
      | Returned _ =>
          let new_trades :=
            slice_from (Z.of_nat trades_before) (_trade_history st') in
          let result :=
            {| r_timestamp := now;
               trades_executed := new_trades;
               alerts_processed :=
                 match snapshot_before with
                 | Some snapshot => length (alerts snapshot)
                 | None => 0
                 end;
               portfolio_before := snapshot_before;
               portfolio_after := snapshot_after;
               r_dry_run := dry_run (config self) |} in
          match on_rebalance with
          | Some callback =>
              match callback result with
              | Returned _ => (st', w', Returned result)
              | Raised e => (st', w', Raised e)
              end
          | None => (st', w', Returned result)
          end
      end
  end.

(** [create_auto_rebalancer(account_id, dry_run, on_trade)]: the factory
    installs a logging callback, which returns, when none is given. *)
Definition default_on_trade (trade : TradeExecution) : outcome unit :=
  Returned tt.

Definition create_auto_rebalancer (id : string) (dry : bool)
    (callback : option (TradeExecution -> outcome unit)) : Rebalancer :=
  {| account_id := id;
     config :=
       {| enabled := true;
          dry_run := dry;
          max_daily_trades := 10;
          max_single_trade_pct := 25;
          min_trade_value := min_trade_value default_config;
          cooldown_minutes := 15;
          auto_exit_loss_pct := -15;
          auto_reduce_gain_pct := 30;
          auto_reduce_concentration_pct := 30;
          target_position_pct := target_position_pct default_config;
          max_position_pct := max_position_pct default_config;
          act_on_immediate := true;
          act_on_high := true;
          act_on_medium := false;
          act_on_low := false |};
     on_trade := Some (default default_on_trade callback) |}.

End RebalancerQueries.

(** ** Notions the statements about the risk service use *)

Module RiskFacts.

Import RiskService.

(** The rows [assess_portfolio_risk] assesses: those with a positive
    quantity. *)
Definition held (p : Position) : bool :=
  Qlt_bool 0 (or_else (pos_quantity p) 0).

(** [k1 <= k2] in the tuple order of the sort keys. *)
Definition key_le (k1 k2 : Z * Q) : Prop := key_lt k2 k1 = false.

(** No element of [l] is followed by one with a smaller sort key. *)
Definition ordered_by_key (l : list PositionRiskAssessment) : Prop :=
  StronglySorted (fun x y => key_le (sort_key x) (sort_key y)) l.

Definition is_hold (p : PositionRiskAssessment) : bool :=
  PositionAction_eqb (recommended_action p) HOLD.

(** The integers [from + 1, ..., from + n]. *)
Definition consecutive (from : Z) (n : nat) : list Z :=
  map (fun k => (from + 1 + Z.of_nat k)%Z) (seq 0 n).

End RiskFacts.

(** ** Notions the statements about the rebalancer use *)

Module RebalancerFacts.

Import Rebalancer.

(** The handling [step], begun in state [st], recorded the execution [e]. *)
Definition records (st : State) (step : Step) (e : TradeExecution) : Prop :=
  _trade_history (fst (fst step)) = _trade_history st ++ [e].

(** The store transaction of a live trade, as [_execute_trade] reads its
    result: the store it leaves and the mark it puts on the execution. *)
Definition settled (self : Rebalancer) (w : World) (env : Env)
    (e : TradeExecution) (db : Store) : Prop :=
  if dry_run (config self) then
    db = store w /\ success e = true /\ error e = None
  else
    exists r,
      _execute_real_trade self (store w) env
        (find_position (stored_positions (store w)) (symbol e))
        (action e) (quantity e) (price e) = (db, r)
      /\ match r with
         | Returned _ => success e = true /\ error e = None
         | Raised ex => success e = false /\ error e = Some (exn_message ex)
         end.

(** An operation that is not [Start]. *)
Definition not_start (op : Op) : Prop :=
  match op with Start => False | _ => True end.

(** The action each handler asks [_execute_trade] for. *)
Definition chosen_action (self : Rebalancer) (alert : Alert) : RebalanceAction :=
  match a_alert_type alert with
  | RISK_THRESHOLD => SELL_ALL
  | STOP_LOSS_HIT =>
      if Qlt_bool (get (a_data alert) "pnl_pct")
           (auto_exit_loss_pct (config self))
      then SELL_ALL else SELL
  | _ => SELL
  end.

(** The [quantity_pct] each handler asks [_execute_trade] for; the two
    handlers that pass none leave it at its default, 100. *)
Definition chosen_pct (self : Rebalancer) (alert : Alert) : Q :=
  match a_alert_type alert with
  | STOP_LOSS_HIT =>
      if Qlt_bool (get (a_data alert) "pnl_pct")
           (auto_exit_loss_pct (config self))
      then 100 else 50
  | TAKE_PROFIT => pymin 50 (max_single_trade_pct (config self))
  | CONCENTRATION =>
      let concentration := get (a_data alert) "concentration_pct" in
      pymin ((concentration - target_position_pct (config self))
             / concentration * 100)
        (max_single_trade_pct (config self))
  | _ => 100
  end.

(** The alert makes its handler call [_execute_trade]: a stop-loss and a
    risk-threshold alert always do, a take-profit alert when the gain is
    above [auto_reduce_gain_pct], a concentration alert when the
    concentration is above [auto_reduce_concentration_pct] (and can be
    divided by), an idle-capital alert never. *)
Definition triggers (self : Rebalancer) (alert : Alert) : Prop :=
  match a_alert_type alert with
  | STOP_LOSS_HIT | RISK_THRESHOLD => True
  | TAKE_PROFIT =>
      auto_reduce_gain_pct (config self) < get (a_data alert) "pnl_pct"
  | CONCENTRATION =>
      auto_reduce_concentration_pct (config self)
      < get (a_data alert) "concentration_pct"
      /\ ~ get (a_data alert) "concentration_pct" == 0
  | IDLE_CAPITAL => False
  end.

(** The outcome is a raised [ZeroDivisionError]. *)
Definition divided_by_zero (r : outcome unit) : bool :=
  match r with
  | Raised ZeroDivisionError => true
  | _ => false
  end.

(** The number of alert handlings among operations. *)
Definition handlings (ops : list Op) : nat :=
  length (List.filter (fun op => match op with
                                 | HandleAlert _ _ => true
                                 | _ => false
                                 end) ops).

(** An execution as the rebalancer makes them: a sale for an alert of one
    of the four trading types. *)
Definition well_formed (e : TradeExecution) : Prop :=
  (action e = SELL \/ action e = SELL_ALL)
  /\ exists t, alert_type e = Some t /\ t <> IDLE_CAPITAL.

(** The daily counter is the number of executions stamped on the stored
    reset date, no execution is stamped later, and the reset date is not
    after day [d]. *)
Definition counter_exact (d : Z) (st : State) : Prop :=
  (_last_reset_date st <= d)%Z
  /\ Forall (fun e => (date (timestamp e) <= _last_reset_date st)%Z)
       (_trade_history st)
  /\ Z.of_nat (Clock.trades_on (_last_reset_date st) (_trade_history st))
     = _daily_trade_count st.

(** The quantity held over all rows of the store. *)
Definition total_held (db : Store) : Q :=
  fold_right Qplus 0 (map sp_quantity (stored_positions db)).

End RebalancerFacts.

(** * Properties *)

(** ** The comparisons the code branches on *)

Section Comparisons.

Variables a b : Q.

Lemma Qlt_bool_iff : Qlt_bool a b = true <-> a < b.
Proof.
  unfold Qlt_bool. rewrite negb_true_iff. split.
  - intros H. apply Qnot_le_lt. intros Hle.
    apply Qle_bool_iff in Hle. congruence.
  - intros H. destruct (Qle_bool b a) eqn:E; [|reflexivity].
    apply Qle_bool_iff in E. exfalso. exact (Qlt_not_le _ _ H E).
Qed.

Lemma Qlt_bool_false_iff : Qlt_bool a b = false <-> b <= a.
Proof. unfold Qlt_bool. rewrite negb_false_iff. apply Qle_bool_iff. Qed.

Lemma Qlt_bool_spec : reflect (a < b) (Qlt_bool a b).
Proof.
  destruct (Qlt_bool a b) eqn:E; constructor.
  - now apply Qlt_bool_iff.
  - apply Qlt_bool_false_iff in E. now apply Qle_not_lt.
Qed.

Lemma pydiv_returns : ~ b == 0 -> pydiv a b = Returned (a / b).
Proof.
  intros H. unfold pydiv. destruct (Qeq_bool b 0) eqn:E; [|reflexivity].
  apply Qeq_bool_iff in E. contradiction.
Qed.

End Comparisons.

(** Turns every comparison of the goal and the context into its meaning. *)
Ltac by_cases_on_comparisons :=
  repeat match goal with
    | |- context [Qlt_bool ?x ?y] => destruct (Qlt_bool_spec x y)
    end.

(** ** Risk assessment *)

Section RiskLevels.

Import RiskService.

(** The rules of [_calculate_risk_level] read off as a table. *)
Lemma risk_level_cases (pnl_pct concentration : Q) :
  (pnl_pct < -20 /\ _calculate_risk_level pnl_pct concentration = CRITICAL)
  \/ (-20 <= pnl_pct < -10
      /\ _calculate_risk_level pnl_pct concentration = HIGH)
  \/ (-10 <= pnl_pct /\ 40 < concentration
      /\ _calculate_risk_level pnl_pct concentration = HIGH)
  \/ (-10 <= pnl_pct /\ 25 < concentration <= 40
      /\ _calculate_risk_level pnl_pct concentration = MODERATE)
  \/ (30 < pnl_pct /\ concentration <= 25
      /\ _calculate_risk_level pnl_pct concentration = MODERATE)
  \/ (-10 <= pnl_pct <= 30 /\ concentration <= 25
      /\ _calculate_risk_level pnl_pct concentration = LOW).
Proof.
  unfold _calculate_risk_level. by_cases_on_comparisons.
  - left. split; [assumption | reflexivity].
  - right; left. split; [split; [lra | assumption] | reflexivity].
  - do 2 right; left. repeat split; [lra | assumption].
  - do 3 right; left. repeat split; lra.
  - do 4 right; left. repeat split; lra.
  - do 5 right. repeat split; lra.
Qed.

(** C2, as the claim states it, fails: a gain of 35% at a concentration of
    10% is rated MODERATE (profit-taking territory), and the lower P&L of
    0% at the same concentration is rated LOW. *)
Lemma C2_risk_level_drops_below_profit_taking :
  0 < 35
  /\ _calculate_risk_level 35 10 = MODERATE
  /\ _calculate_risk_level 0 10 = LOW
  /\ ~ risk_le (_calculate_risk_level 35 10) (_calculate_risk_level 0 10).
Proof.
  repeat split. vm_compute. lia.
Qed.

(** C2, amended: with the concentration fixed and [pnl2 < pnl1], the risk
    level at [pnl2] is at least the one at [pnl1] in every case but one:
    when the concentration is at most 25, [pnl1] exceeds 30 and [pnl2] lies
    between -10 and 30, the level falls from MODERATE to LOW. *)
Theorem C2_risk_level_monotone_except_profit_taking
    (c pnl1 pnl2 : Q) (Hlt : pnl2 < pnl1) :
  risk_le (_calculate_risk_level pnl1 c) (_calculate_risk_level pnl2 c)
  <-> ~ (c <= 25 /\ 30 < pnl1 /\ -10 <= pnl2 <= 30).
Proof.
  unfold risk_le.
  destruct (risk_level_cases pnl1 c)
    as [[H1 ->]|[[H1 ->]|[(H1 & H1' & ->)|[(H1 & H1' & ->)|[(H1 & H1' & ->)|(H1 & H1' & ->)]]]]];
  destruct (risk_level_cases pnl2 c)
    as [[H2 ->]|[[H2 ->]|[(H2 & H2' & ->)|[(H2 & H2' & ->)|[(H2 & H2' & ->)|(H2 & H2' & ->)]]]]];
  cbn [risk_rank]; split; intros H;
    try (exfalso; lra); try lia; try (intros (? & ? & ?); lra);
    try (exfalso; apply H; repeat split; lra).
Qed.

Lemma C2_risk_level_monotone_witness :
  0 < 20
  /\ (risk_le (_calculate_risk_level 20 10) (_calculate_risk_level 0 10)
      <-> ~ (10 <= 25 /\ 30 < 20 /\ -10 <= 0 <= 30)).
Proof.
  split; [reflexivity|].
  apply (C2_risk_level_monotone_except_profit_taking 10 20 0). reflexivity.
Defined.

End RiskLevels.

Section PositionAssessment.

Import RiskService.

Implicit Types (position : Position) (total : Q).

(** [_assess_position] returns on every input, and its two ratios are the
    guarded expressions of the source. *)
Lemma assess_position_returns position total :
  exists a,
    _assess_position position total = Returned a
    /\ quantity a = or_else (pos_quantity position) 0
    /\ entry_price a = or_else (pos_average_entry_price position) 0
    /\ current_price a =
         or_else (pos_current_price position) (entry_price a)
    /\ market_value a = quantity a * current_price a
    /\ unrealized_pnl_pct a =
         (if Qlt_bool 0 (quantity a * entry_price a)
          then unrealized_pnl a / (quantity a * entry_price a) * 100
          else 0)
    /\ concentration_risk a =
         (if Qlt_bool 0 total then market_value a / total * 100 else 0).
Proof.
  unfold _assess_position.
  set (q := or_else (pos_quantity position) 0).
  set (e := or_else (pos_average_entry_price position) 0).
  set (cp := or_else (pos_current_price position) e).
  destruct (Qlt_bool_spec 0 (q * e)) as [Hcb|Hcb];
    destruct (Qlt_bool_spec 0 total) as [Htv|Htv];
    rewrite ?pydiv_returns by lra; cbn [bind];
    match goal with
    | |- context [_determine_action ?x ?y ?z] =>
        destruct (_determine_action x y z) as [act why]
    end;
    eexists; (split; [reflexivity|]); cbn;
    fold q e cp;
    repeat split;
    try (destruct (Qlt_bool_spec 0 (q * e)); [reflexivity || lra | reflexivity || lra]);
    try (destruct (Qlt_bool_spec 0 total); [reflexivity || lra | reflexivity || lra]).
Qed.

(** C4, as the claim states it, fails: a position of -5 units bought at 10
    and quoted at 12 is assessed, and the assessment carries the negative
    quantity and market value; nothing is raised. *)
Lemma C4_negative_quantity_is_assessed :
  let position :=
    {| pos_ticker := Some "AAPL"; pos_symbol_id := 1;
       pos_quantity := Some (-5);
       pos_average_entry_price := Some 10;
       pos_current_price := Some 12 |} in
  or_else (pos_quantity position) 0 < 0
  /\ exists a,
       _assess_position position 1000 = Returned a
       /\ quantity a = -5
       /\ market_value a == -60.
Proof.
  cbn zeta. split; [reflexivity|].
  eexists. split; [vm_compute; reflexivity|]. split; reflexivity.
Qed.

(** C4, amended: position assessment validates nothing and raises nothing.
    On every input, negative quantities and prices included, it returns an
    assessment whose quantity and entry price are the stored figures (zero
    when they are absent), not coerced. *)
Theorem C4_assess_position_never_fails position total :
  exists a,
    _assess_position position total = Returned a
    /\ quantity a = or_else (pos_quantity position) 0
    /\ entry_price a = or_else (pos_average_entry_price position) 0.
Proof.
  destruct (assess_position_returns position total)
    as (a & Ha & Hq & He & _).
  exists a. auto.
Qed.

End PositionAssessment.

Section PortfolioAssessment.

Import RiskService.

Lemma analyze_keeps_positions a :
  positions (_analyze_portfolio_composition a) = positions a.
Proof.
  unfold _analyze_portfolio_composition.
  destruct (positions a) eqn:E; cbn; rewrite ?E; reflexivity.
Qed.

Lemma analyze_keeps_totals a :
  total_value (_analyze_portfolio_composition a) = total_value a
  /\ cash_available (_analyze_portfolio_composition a) = cash_available a.
Proof.
  unfold _analyze_portfolio_composition.
  destruct (positions a); split; reflexivity.
Qed.

(** [_generate_recommendations] never raises: its division is guarded. *)
Lemma generate_recommendations_returns a :
  exists s, _generate_recommendations a = Returned (with_suggestions a s).
Proof.
  unfold _generate_recommendations.
  destruct (Qlt_bool_spec 0 (total_value a)).
  - rewrite pydiv_returns by lra. cbn [bind]. eexists; reflexivity.
  - cbn [bind]. eexists; reflexivity.
Qed.

Lemma assess_positions_returns ps total :
  exists l,
    assess_positions ps total = Returned l
    /\ Forall (fun a => concentration_risk a =
                          if Qlt_bool 0 total
                          then market_value a / total * 100 else 0) l.
Proof.
  induction ps as [|position ps (l & Hl & Hall)]; cbn [assess_positions].
  - exists []. split; [reflexivity | constructor].
  - destruct (truthy (pos_quantity position)
              && Qlt_bool 0 (or_else (pos_quantity position) 0))%bool.
    + destruct (assess_position_returns position total)
        as (a & Ha & _ & _ & _ & _ & _ & Hc).
      rewrite Ha, Hl. cbn [bind]. exists (a :: l).
      split; [reflexivity | constructor; assumption].
    + exists l. split; assumption.
Qed.

(** With an existing account, [assess_portfolio_risk] returns. *)
Lemma assess_portfolio_risk_returns id account ps :
  exists a l,
    assess_portfolio_risk id (Some account) ps = Returned a
    /\ assess_positions ps (total_value a) = Returned l
    /\ positions a = l.
Proof.
  unfold assess_portfolio_risk.
  match goal with
  | |- context [assess_positions ps ?t] =>
      destruct (assess_positions_returns ps t) as (l & Hl & _); set (tv := t) in *
  end.
  rewrite Hl. cbn [bind].
  match goal with
  | |- context [_generate_recommendations ?x] =>
      destruct (generate_recommendations_returns x) as (s & Hs); rewrite Hs
  end.
  eexists; exists l. split; [reflexivity|].
  cbn [total_value with_suggestions positions].
  rewrite (proj1 (analyze_keeps_totals _)), analyze_keeps_positions.
  cbn. split; [exact Hl | reflexivity].
Qed.

(** C3, as the claim states it, fails: an account without positions and a
    balance of 1000 is all cash, and is advised to deploy it. *)
Lemma C3_cash_only_account_gets_deploy_cash :
  exists a,
    assess_portfolio_risk "acct" (Some {| balance := Some 1000 |}) []
    = Returned a
    /\ map sg_action (suggested_actions a) = ["deploy_cash"%string]
    /\ suggested_actions a <> [].
Proof.
  eexists. split; [vm_compute; reflexivity|].
  split; [reflexivity | discriminate].
Qed.

(** C3, amended: for an account without positions the assessment has
    diversification score 100, overall risk LOW and no rebalance needed;
    its suggested actions are empty when the cash balance is not positive,
    and otherwise hold the single suggestion to deploy the cash, with
    priority 1. *)
Theorem C3_no_positions_assessment id account :
  exists a,
    assess_portfolio_risk id (Some account) [] = Returned a
    /\ positions a = []
    /\ diversification_score a = 100
    /\ overall_risk_level a = LOW
    /\ rebalance_needed a = false
    /\ suggested_actions a =
         (if Qlt_bool 0 (cash_available a)
          then [deploy_cash 1 (cash_available a / total_value a * 100)
                  (cash_available a)]
          else []).
Proof.
  unfold assess_portfolio_risk.
  cbn [map pysum fold_left assess_positions bind].
  set (cash := if truthy (balance account)
               then or_else (balance account) 0 else 0).
  unfold _analyze_portfolio_composition, _generate_recommendations.
  cbn [positions with_composition total_value cash_available sorted
       fold_right position_suggestions length app Z.of_nat].
  destruct (Qlt_bool_spec 0 (0 + cash)) as [Hpos|Hneg].
  - rewrite pydiv_returns by lra. cbn [bind].
    assert (Hratio : cash / (0 + cash) == 1) by (field; lra).
    destruct (Qlt_bool_spec 30 (cash / (0 + cash) * 100)) as [_|Hfalse];
      [|exfalso; rewrite Hratio in Hfalse; lra].
    eexists. split; [reflexivity|].
    cbn. destruct (Qlt_bool_spec 0 cash); [|lra].
    repeat split.
  - cbn [bind].
    destruct (Qlt_bool_spec 30 0) as [Habs|_]; [lra|].
    eexists. split; [reflexivity|].
    cbn. destruct (Qlt_bool_spec 0 cash); [lra|].
    repeat split.
Qed.

(** C9: a position whose cost basis is zero is assessed with an unrealized
    P&L percentage of 0, and a position assessed against a total portfolio
    value of zero gets concentration 0; neither division is reached.  So
    in the assessment of a portfolio whose total value is zero every
    position has concentration 0. *)
Theorem C9_zero_denominators_yield_zero :
  (forall position total,
      or_else (pos_quantity position) 0
      * or_else (pos_average_entry_price position) 0 == 0 ->
      exists a,
        _assess_position position total = Returned a
        /\ unrealized_pnl_pct a = 0)
  /\ (forall position total,
        total == 0 ->
        exists a,
          _assess_position position total = Returned a
          /\ concentration_risk a = 0)
  /\ (forall id account ps,
        exists a,
          assess_portfolio_risk id (Some account) ps = Returned a
          /\ (total_value a == 0 ->
              Forall (fun p => concentration_risk p = 0) (positions a))).
Proof.
  split; [|split].
  - intros position total H0.
    destruct (assess_position_returns position total)
      as (a & Ha & Hq & He & _ & _ & Hpnl & _).
    exists a. split; [exact Ha|].
    rewrite Hpnl, Hq, He.
    destruct (Qlt_bool_spec 0
                (or_else (pos_quantity position) 0
                 * or_else (pos_average_entry_price position) 0));
      [lra | reflexivity].
  - intros position total H0.
    destruct (assess_position_returns position total)
      as (a & Ha & _ & _ & _ & _ & _ & Hconc).
    exists a. split; [exact Ha|].
    rewrite Hconc. destruct (Qlt_bool_spec 0 total); [lra | reflexivity].
  - intros id account ps.
    destruct (assess_portfolio_risk_returns id account ps)
      as (a & l & Ha & Hl & Hpos).
    exists a. split; [exact Ha|]. intros H0.
    destruct (assess_positions_returns ps (total_value a))
      as (l' & Hl' & Hall).
    rewrite Hl in Hl'. injection Hl' as <-. rewrite Hpos.
    eapply Forall_impl; [exact Hall|].
    intros p Hp. cbn beta in Hp. rewrite Hp.
    destruct (Qlt_bool_spec 0 (total_value a)); [lra | reflexivity].
Qed.

Lemma C9_zero_denominators_witness :
  let position :=
    {| pos_ticker := Some "AAPL"; pos_symbol_id := 1;
       pos_quantity := Some 5;
       pos_average_entry_price := None;
       pos_current_price := Some 12 |} in
  (exists a, _assess_position position 0 = Returned a
             /\ unrealized_pnl_pct a = 0)
  /\ (exists a, _assess_position position 0 = Returned a
                /\ concentration_risk a = 0)
  /\ (exists a,
        assess_portfolio_risk "acct" (Some {| balance := None |})
          [{| pos_ticker := Some "AAPL"; pos_symbol_id := 1;
              pos_quantity := Some 5;
              pos_average_entry_price := None;
              pos_current_price := None |}] = Returned a
        /\ length (positions a) = 1%nat
        /\ Forall (fun p => concentration_risk p = 0) (positions a)).
Proof.
  cbn zeta. split; [|split].
  - apply (proj1 C9_zero_denominators_yield_zero). reflexivity.
  - apply (proj1 (proj2 C9_zero_denominators_yield_zero)). reflexivity.
  - match goal with
    | |- exists a, assess_portfolio_risk ?id (Some ?acc) ?ps = _ /\ _ =>
        destruct (proj2 (proj2 C9_zero_denominators_yield_zero) id acc ps)
          as (a & Ha & Hall)
    end.
    exists a. split; [exact Ha|].
    vm_compute in Ha. injection Ha as <-.
    split; [reflexivity|]. apply Hall. reflexivity.
Defined.

End PortfolioAssessment.

(** ** The rebalancer's execution path *)

Section ExecutionPath.

Import Rebalancer Handling.

Variable self : Rebalancer.

Implicit Types (st : State) (w : World) (env : Env) (e : TradeExecution).

Lemma can_trade_cases st env symbol :
  let st0 := _reset_daily_limits st (at_reset env) in
  exists ok msg,
    _can_trade self st env symbol = (st0, (ok, msg))
    /\ (ok = true -> throttle_passed self st0 env symbol).
Proof.
  intros st0. unfold _can_trade. fold st0.
  destruct (Z.leb_spec (max_daily_trades (config self)) (_daily_trade_count st0)).
  - do 2 eexists. split; [reflexivity | discriminate].
  - destruct (_last_trade_time st0 !! symbol) as [last|] eqn:Hlast.
    + match goal with |- context [Qlt_bool ?x ?y] => destruct (Qlt_bool_spec x y) end.
      * do 2 eexists. split; [reflexivity | discriminate].
      * do 2 eexists. split; [reflexivity|]. intros _. split; [assumption|].
        intros last' Heq. rewrite Hlast in Heq. injection Heq as <-.
        now apply Qnot_lt_le.
    + do 2 eexists. split; [reflexivity|]. intros _. split; [assumption|].
      intros last' Heq. rewrite Hlast in Heq. discriminate Heq.
Qed.

Lemma execute_trade_executed st w env symbol action reason alert_type price pct :
  executed self st w env symbol action pct
    (_execute_trade self st w env symbol action reason alert_type price pct).
Proof.
  unfold _execute_trade.
  destruct (can_trade_cases st env symbol) as (ok & msg & -> & Hok).
  destruct ok; cbn [negb]; [|constructor].
  specialize (Hok eq_refl).
  set (position := find_position (stored_positions (store w)) symbol).
  destruct (negb (bool_decide (is_Some position)) && is_sell action)%bool
    eqn:Hfound; [constructor|].
  destruct (too_small _ _ _); [constructor|].
  match goal with
  | |- context [if dry_run (config self) then ?a else ?b] =>
      destruct (if dry_run (config self) then a else b) as [db e] eqn:Hrun
  end.
  assert (He : Rebalancer.symbol e = symbol /\ Rebalancer.action e = action
               /\ timestamp e = at_stamp env
               /\ quantity e = calculate_quantity self position action pct
               /\ (dry_run (config self) = true ->
                   success e = true /\ db = store w)
               /\ (forall msg,
                     dry_run (config self) = false -> is_sell action = true ->
                     commit_error env = Some msg ->
                     success e = false /\ error e = Some msg /\ db = store w)).
  { destruct (dry_run (config self)).
    - injection Hrun as <- <-. repeat split; intros; discriminate.
    - unfold _execute_real_trade in Hrun.
      destruct (is_sell action); [destruct (commit_error env) as [err|]|].
      + injection Hrun as <- <-.
        repeat split; try discriminate; intros; cbn; congruence.
      + destruct position as [[i pos]|]; injection Hrun as <- <-;
          repeat split; try discriminate; intros; cbn; congruence.
      + injection Hrun as <- <-.
        repeat split; try discriminate; intros; cbn; congruence. }
  destruct He as (Hs & Ha & Ht & Hq & Hdry & Hlive).
  assert (Hpos : is_sell action = true -> is_Some position).
  { intros Hsell. rewrite Hsell, andb_true_r, negb_false_iff in Hfound.
    now apply bool_decide_eq_true in Hfound. }
  destruct (on_trade self) eqn:Hcb;
    eapply (executed_trade _ _ _ _ _ _ _ e db); eauto; rewrite Hcb;
    rewrite ?app_nil_r; reflexivity.
Qed.

Lemma handle_alert_handled st w env alert :
  handled self st w env alert (_handle_alert self st w env alert).
Proof.
  unfold _handle_alert.
  destruct (_running st) eqn:Hrun; cbn [negb orb]; [|constructor].
  destruct (enabled (config self)); cbn [negb]; [|constructor].
  destruct (should_act _ _); cbn [negb]; [|constructor].
  destruct (a_alert_type alert) eqn:Htype;
    unfold _handle_stop_loss, _handle_take_profit, _handle_concentration,
      _handle_risk_threshold, _handle_idle_capital;
    try (destruct (a_symbol alert) as [[|c symbol]|] eqn:Hsym;
         cbn [usable_symbol]; try constructor).
  - destruct (Qlt_bool_spec (get (a_data alert) "pnl_pct")
                (auto_exit_loss_pct (config self))).
    + eapply handled_executed;
        [eassumption | eassumption | | | apply execute_trade_executed];
        [reflexivity|].
      intros _. right. split; [assumption | assumption].
    + eapply handled_executed;
        [eassumption | eassumption | | | apply execute_trade_executed];
        [reflexivity|].
      discriminate.
  - destruct (Qlt_bool _ _); [|constructor].
    eapply handled_executed;
      [eassumption | eassumption | | | apply execute_trade_executed];
        [reflexivity|].
    discriminate.
  - destruct (Qlt_bool _ _); [|constructor].
    unfold pydiv. destruct (Qeq_bool _ _); [now constructor|].
    eapply handled_executed;
      [eassumption | eassumption | | | apply execute_trade_executed];
        [reflexivity|].
    discriminate.
  - eapply handled_executed;
      [eassumption | eassumption | | | apply execute_trade_executed];
        [reflexivity|].
    intros _. left. assumption.
Qed.

End ExecutionPath.

(** ** Runs of the rebalancer *)

Section Runs.

Import Rebalancer Handling Clock.

Variable self : Rebalancer.

Implicit Types (st : State) (w : World) (env : Env) (e : TradeExecution)
  (op : Op) (ops : list Op).

(** The state one operation leaves. *)
Lemma step_cases st w op :
  let st' := fst (step self (st, w) op) in
  match op with
  | Start => st' = start st
  | Stop => st' = stop st
  | GetDailyStats now_reset _ => st' = _reset_daily_limits st now_reset
  | HandleAlert alert env =>
      let st0 := _reset_daily_limits st (at_reset env) in
      st' = st \/ st' = st0
      \/ exists e,
          throttle_passed self st0 env (symbol e)
          /\ timestamp e = at_stamp env
          /\ st' = record_trade st0 env e
  end.
Proof.
  destruct op as [| |alert env|now_reset now_filter]; cbn; try reflexivity.
  destruct (handle_alert_handled self st w env alert)
    as [| |sym act pct stp _ _ _ _ Hexec]; cbn; auto.
  destruct Hexec as [|e db w' r st0 pos Hpass Hsym _ Hts]; cbn; auto.
  right; right. exists e. rewrite Hsym. auto.
Qed.

Lemma run_cons sw op ops :
  run self sw (op :: ops) = run self (step self sw op) ops.
Proof. reflexivity. Qed.

Lemma reset_cases st now :
  (_last_reset_date st < date now)%Z
  /\ _daily_trade_count (_reset_daily_limits st now) = 0%Z
  /\ _last_reset_date (_reset_daily_limits st now) = date now
  /\ _trade_history (_reset_daily_limits st now) = _trade_history st
  /\ _last_trade_time (_reset_daily_limits st now) = _last_trade_time st
  \/ (date now <= _last_reset_date st)%Z
     /\ _reset_daily_limits st now = st.
Proof.
  unfold _reset_daily_limits.
  destruct (Z.ltb_spec (_last_reset_date st) (date now));
    [left; repeat split; assumption | right; split; [assumption | reflexivity]].
Qed.

Lemma reset_counter_within_cap st now :
  (0 <= max_daily_trades (config self))%Z ->
  counter_within_cap self st -> counter_within_cap self (_reset_daily_limits st now).
Proof.
  intros Hmax Hst. unfold counter_within_cap.
  destruct (reset_cases st now) as [(_ & -> & _)|(_ & ->)]; [lia | exact Hst].
Qed.

Lemma step_counter_within_cap st w op :
  (0 <= max_daily_trades (config self))%Z ->
  counter_within_cap self st -> counter_within_cap self (fst (step self (st, w) op)).
Proof.
  intros Hmax Hst. pose proof (step_cases st w op) as Hstep.
  cbn zeta in Hstep.
  destruct op as [| |alert env|now_reset now_filter].
  - rewrite Hstep. exact Hst.
  - rewrite Hstep. exact Hst.
  - pose proof (reset_counter_within_cap st (at_reset env) Hmax Hst) as Hreset.
    destruct Hstep as [->|[->|(e & [Hcount _] & _ & ->)]]; auto.
    unfold counter_within_cap in *. cbn. lia.
  - rewrite Hstep. now apply reset_counter_within_cap.
Qed.

Lemma run_counter_within_cap ops st w :
  (0 <= max_daily_trades (config self))%Z ->
  counter_within_cap self st -> counter_within_cap self (fst (run self (st, w) ops)).
Proof.
  intros Hmax. revert st w.
  induction ops as [|op ops IH]; intros st w Hst; [exact Hst|].
  rewrite run_cons.
  pose proof (step_counter_within_cap st w op Hmax Hst) as Hnext.
  destruct (step self (st, w) op) as [st1 w1]. now apply IH.
Qed.

(** C10: in every state the rebalancer reaches from its construction, by
    any operations, the daily counter lies between 0 and the cap (the cap
    being non-negative), so the [trades_remaining] figure of the daily
    statistics is never negative. *)
Theorem C10_daily_counter_never_exceeds_cap ops t0 w0 :
  (0 <= max_daily_trades (config self))%Z ->
  let st := fst (run self (init t0, w0) ops) in
  (0 <= _daily_trade_count st <= max_daily_trades (config self))%Z
  /\ forall now_reset now_filter,
      (0 <= trades_remaining
              (snd (get_daily_stats self st now_reset now_filter)))%Z.
Proof.
  intros Hmax st.
  assert (Hst : counter_within_cap self st).
  { apply run_counter_within_cap; [exact Hmax|].
    unfold counter_within_cap. cbn. lia. }
  split; [exact Hst|]. intros now_reset now_filter. cbn.
  pose proof (reset_counter_within_cap st now_reset Hmax Hst) as Hreset.
  unfold counter_within_cap in Hreset. lia.
Qed.

(** *** The daily cap *)

Lemma trades_on_snoc d (h : list TradeExecution) e :
  trades_on d (h ++ [e])
  = (trades_on d h + if decide (date (timestamp e) = d) then 1 else 0)%nat.
Proof.
  unfold trades_on. rewrite filter_app, length_app. f_equal.
  rewrite filter_cons, filter_nil. now destruct (decide _).
Qed.

Lemma trades_on_later d (h : list TradeExecution) :
  Forall (fun e => (date (timestamp e) < d)%Z) h -> trades_on d h = 0%nat.
Proof.
  unfold trades_on. induction 1 as [|e h He _ IH]; [reflexivity|].
  rewrite filter_cons. destruct (decide _); [lia | exact IH].
Qed.

Lemma reset_daily_invariant d st now :
  (0 <= max_daily_trades (config self))%Z ->
  (d <= date now)%Z ->
  daily_invariant self d st ->
  daily_invariant self (date now) (_reset_daily_limits st now)
  /\ _last_reset_date (_reset_daily_limits st now) = date now.
Proof.
  intros Hmax Hd (Hdate & Hpast & Hcount & Hcap & Hdays).
  destruct (reset_cases st now) as [(Hlt & H0 & Hd' & Hh & _)|(Hle & ->)].
  - split; [|exact Hd'].
    unfold daily_invariant. rewrite H0, Hd', Hh.
    assert (Hbefore : Forall (fun e => (date (timestamp e) < date now)%Z)
                        (_trade_history st)).
    { eapply Forall_impl; [exact Hpast|]. cbn. intros e He. lia. }
    repeat split; auto.
    + lia.
    + eapply Forall_impl; [exact Hbefore|]. cbn. intros e He. lia.
    + rewrite (trades_on_later _ _ Hbefore). lia.
  - unfold daily_invariant. split; [|lia]. repeat split; auto. lia.
Qed.

Lemma record_daily_invariant d st env e :
  daily_invariant self d st ->
  (_daily_trade_count st < max_daily_trades (config self))%Z ->
  date (timestamp e) = _last_reset_date st ->
  daily_invariant self d (record_trade st env e).
Proof.
  intros (Hdate & Hpast & Hcount & Hcap & Hdays) Hbelow He.
  unfold daily_invariant, record_trade.
  cbn [_last_reset_date _trade_history _daily_trade_count].
  repeat split.
  - exact Hdate.
  - apply Forall_app. split; [exact Hpast|].
    constructor; [lia | constructor].
  - rewrite trades_on_snoc. destruct (decide _); lia.
  - lia.
  - intros d'. rewrite trades_on_snoc.
    destruct (decide (date (timestamp e) = d')) as [<-|_].
    + rewrite He. lia.
    + specialize (Hdays d'). lia.
Qed.

Lemma daily_invariant_later d d' st :
  (d <= d')%Z -> daily_invariant self d st -> daily_invariant self d' st.
Proof.
  intros Hd (Hdate & Hrest). split; [lia | exact Hrest].
Qed.

Lemma run_daily_invariant ops d st w :
  (0 <= max_daily_trades (config self))%Z ->
  clock_advances d ops ->
  daily_invariant self d st ->
  exists d', daily_invariant self d' (fst (run self (st, w) ops)).
Proof.
  intros Hmax. revert d st w.
  induction ops as [|op ops IH]; intros d st w Hclock Hst;
    [exists d; exact Hst|].
  rewrite run_cons. pose proof (step_cases st w op) as Hstep.
  cbn zeta in Hstep. destruct (step self (st, w) op) as [st1 w1].
  cbn [fst] in Hstep.
  destruct op as [| |alert env|now_reset now_filter]; cbn in Hclock.
  - subst st1. apply (IH d); [exact Hclock | exact Hst].
  - subst st1. apply (IH d); [exact Hclock | exact Hst].
  - destruct Hclock as (Hd & Hsame & Hrest).
    destruct (reset_daily_invariant d st (at_reset env) Hmax Hd Hst)
      as [Hreset Hnow].
    apply (IH (date (at_reset env))); [exact Hrest|].
    destruct Hstep as [->|[->|(e & [Hbelow _] & Hts & ->)]].
    + now apply (daily_invariant_later d).
    + exact Hreset.
    + apply record_daily_invariant; [exact Hreset | exact Hbelow|].
      rewrite Hts, Hnow. exact Hsame.
  - destruct Hclock as (Hd & Hrest). subst st1.
    apply (IH (date now_reset)); [exact Hrest|].
    exact (proj1 (reset_daily_invariant d st now_reset Hmax Hd Hst)).
Qed.

(** *** The cooldown *)

Lemma minutes_elapsed (c x : Z) :
  inject_Z c <= inject_Z x / 60 <-> (60 * c <= x)%Z.
Proof.
  unfold Qle, Qdiv, Qmult, Qinv, inject_Z. cbn. lia.
Qed.

Lemma reset_keeps_cooldown_invariant st now :
  cooldown_invariant self st ->
  cooldown_invariant self (_reset_daily_limits st now).
Proof.
  unfold cooldown_invariant.
  destruct (reset_cases st now) as [(_ & _ & _ & -> & ->)|(_ & ->)]; auto.
Qed.

Lemma record_cooldown_invariant st env e :
  (0 <= cooldown_minutes (config self))%Z ->
  (at_check env <= at_stamp env <= at_update env)%Z ->
  cooldown_invariant self st ->
  throttle_passed self st env (symbol e) ->
  timestamp e = at_stamp env ->
  cooldown_invariant self (record_trade st env e).
Proof.
  intros Hc Hclock [Hlast Hspaced] [_ Hcool] Hts.
  assert (Hold : Forall (fun e1 => symbol e1 = symbol e ->
                           (timestamp e1 + 60 * cooldown_minutes (config self)
                            <= at_check env)%Z) (_trade_history st)).
  { eapply Forall_impl; [exact Hlast|]. cbn.
    intros e1 (u & Hu & Hle) Hsym. rewrite Hsym in Hu.
    specialize (Hcool u Hu). apply minutes_elapsed in Hcool. lia. }
  unfold cooldown_invariant, record_trade.
  cbn [_trade_history _last_trade_time]. split.
  - apply Forall_app. split.
    + rewrite Forall_forall in Hlast, Hold |- *.
      intros e1 He1. destruct (decide (symbol e1 = symbol e)) as [Heq|Hne].
      * exists (at_update env). rewrite Heq, lookup_insert_eq.
        split; [reflexivity|]. specialize (Hold e1 He1 Heq). lia.
      * destruct (Hlast e1 He1) as (u & Hu & Hle). exists u.
        rewrite lookup_insert_ne by congruence. auto.
    + constructor; [|constructor]. exists (at_update env).
      rewrite lookup_insert_eq. split; [reflexivity | lia].
  - intros i j e1 e2 Hij H1 H2 Hsym.
    apply lookup_snoc_Some in H2 as [[Hj H2]|[Hj <-]].
    + rewrite lookup_app_l in H1 by lia. eauto.
    + rewrite lookup_app_l in H1 by lia.
      rewrite Forall_forall in Hold.
      apply list_elem_of_lookup_2 in H1.
      specialize (Hold e1 H1 Hsym). lia.
Qed.

Lemma run_cooldown_invariant ops st w :
  (0 <= cooldown_minutes (config self))%Z ->
  Forall readings_ordered ops ->
  cooldown_invariant self st ->
  cooldown_invariant self (fst (run self (st, w) ops)).
Proof.
  intros Hc Hops. revert st w.
  induction Hops as [|op ops Hop _ IH]; intros st w Hst; [exact Hst|].
  rewrite run_cons. pose proof (step_cases st w op) as Hstep.
  cbn zeta in Hstep. destruct (step self (st, w) op) as [st1 w1].
  cbn [fst] in Hstep. apply IH.
  destruct op as [| |alert env|now_reset now_filter].
  - subst st1. exact Hst.
  - subst st1. exact Hst.
  - pose proof (reset_keeps_cooldown_invariant st (at_reset env) Hst)
      as Hreset.
    destruct Hstep as [->|[->|(e & Hpass & Hts & ->)]]; auto.
    now apply record_cooldown_invariant.
  - subst st1. now apply reset_keeps_cooldown_invariant.
Qed.

(** A check made less than the cooldown after the last trade on the symbol
    is rejected. *)
Lemma can_trade_within_cooldown st env symbol last :
  _last_trade_time st !! symbol = Some last ->
  (at_check env - last < 60 * cooldown_minutes (config self))%Z ->
  fst (snd (_can_trade self st env symbol)) = false.
Proof.
  intros Hlast Hearly. unfold _can_trade.
  destruct (Z.leb _ _); [reflexivity|].
  assert (Hkept : _last_trade_time (_reset_daily_limits st (at_reset env))
                  = _last_trade_time st).
  { destruct (reset_cases st (at_reset env)) as [(_ & _ & _ & _ & ->)|(_ & ->)];
      reflexivity. }
  rewrite Hkept, Hlast.
  match goal with |- context [Qlt_bool ?x ?y] => destruct (Qlt_bool_spec x y) as [|Hge] end;
    [reflexivity|].
  exfalso. apply Qnot_lt_le, minutes_elapsed in Hge. lia.
Qed.

End Runs.

(** ** The throttle *)

Section Throttle.

Import Rebalancer Handling Clock Scenario.

Lemma init_daily_invariant self t0 :
  (0 <= max_daily_trades (config self))%Z ->
  daily_invariant self (date t0) (init t0).
Proof.
  intros Hmax. unfold daily_invariant. cbn.
  repeat split; try lia. constructor.
Qed.

(** C5: in a run of the rebalancer from its construction, on a clock whose
    date never falls back and with a non-negative cap, no day gets more
    than [max_daily_trades] executions; and the throttle check and the
    statistics query set the counter to 0 and the reset date to the
    clock's date whenever that date is past the stored reset date, and
    leave both alone otherwise. *)
Theorem C5_daily_cap_and_reset (self : Rebalancer) :
  (forall ops t0 w0 d,
      (0 <= max_daily_trades (config self))%Z ->
      clock_advances (date t0) ops ->
      (Z.of_nat (trades_on d (_trade_history (fst (run self (init t0, w0) ops))))
       <= max_daily_trades (config self))%Z)
  /\ (forall st env symbol,
        let st' := fst (_can_trade self st env symbol) in
        if (_last_reset_date st <? date (at_reset env))%Z
        then _daily_trade_count st' = 0%Z
             /\ _last_reset_date st' = date (at_reset env)
        else st' = st)
  /\ (forall st now_reset now_filter,
        let st' := fst (get_daily_stats self st now_reset now_filter) in
        if (_last_reset_date st <? date now_reset)%Z
        then _daily_trade_count st' = 0%Z
             /\ _last_reset_date st' = date now_reset
        else st' = st).
Proof.
  split; [|split].
  - intros ops t0 w0 d Hmax Hclock.
    destruct (run_daily_invariant self ops (date t0) (init t0) w0 Hmax Hclock
                (init_daily_invariant self t0 Hmax))
      as (d' & _ & _ & _ & _ & Hdays).
    apply Hdays.
  - intros st env symbol.
    destruct (can_trade_cases self st env symbol) as (ok & msg & -> & _).
    cbn. unfold _reset_daily_limits.
    destruct (_last_reset_date st <? date (at_reset env))%Z; cbn; auto.
  - intros st now_reset now_filter. cbn. unfold _reset_daily_limits.
    destruct (_last_reset_date st <? date now_reset)%Z; cbn; auto.
Qed.

Lemma C5_daily_cap_witness :
  (Z.of_nat
     (trades_on 0
        (_trade_history
           (fst (run (rebalancer true None) (init 0, holding)
                   [Start; HandleAlert risk_alert (at_time 1000 None);
                    GetDailyStats 90000 90000]))))
   <= max_daily_trades (config (rebalancer true None)))%Z.
Proof.
  apply (proj1 (C5_daily_cap_and_reset (rebalancer true None))).
  - cbn. lia.
  - cbn. repeat split; vm_compute; congruence.
Defined.

Lemma init_cooldown_invariant self t0 : cooldown_invariant self (init t0).
Proof.
  split; [constructor|]. intros i j e1 e2 _ H. cbn in H.
  rewrite lookup_nil in H. discriminate.
Qed.

(** X27: the cooldown is kept per symbol string: in a run of the
    rebalancer from its construction, with a non-negative cooldown and
    clock readings in order within each handling, two executions recorded
    under the same symbol string are stamped at least [cooldown_minutes]
    apart; and a throttle check made less than the cooldown after the last
    trade recorded under that string is rejected. *)
Theorem X27_cooldown_per_symbol_string :
  (forall self ops t0 w0,
      (0 <= cooldown_minutes (config self))%Z ->
      Forall readings_ordered ops ->
      spaced (cooldown_minutes (config self))
        (_trade_history (fst (run self (init t0, w0) ops))))
  /\ (forall self st env symbol last,
        _last_trade_time st !! symbol = Some last ->
        (at_check env - last < 60 * cooldown_minutes (config self))%Z ->
        fst (snd (_can_trade self st env symbol)) = false).
Proof.
  split.
  - intros self ops t0 w0 Hc Hops.
    apply (run_cooldown_invariant self ops (init t0) w0 Hc Hops
             (init_cooldown_invariant self t0)).
  - intros self st env symbol last. apply can_trade_within_cooldown.
Qed.

Lemma X27_cooldown_per_symbol_string_witness :
  spaced 15
    (_trade_history
       (fst (run (rebalancer true None) (init 0, holding)
               [Start; HandleAlert stop_loss_alert (at_time 1000 None);
                HandleAlert stop_loss_alert (at_time 1300 None);
                HandleAlert stop_loss_alert (at_time 2000 None)])))
  /\ fst (snd (_can_trade (rebalancer true None)
                 (record_trade (init 0) (at_time 1000 None)
                    {| timestamp := 1000; symbol := "AAPL";
                       action := SELL_ALL; quantity := 10; price := 100;
                       total_value := 1000; reason := CriticalRiskThreshold;
                       alert_type := None; success := true; error := None |})
                 (at_time 1300 None) "AAPL")) = false.
Proof.
  split.
  - apply (proj1 X27_cooldown_per_symbol_string (rebalancer true None)).
    + cbn. lia.
    + repeat constructor; cbn; lia.
  - apply (proj2 X27_cooldown_per_symbol_string) with (last := 1000%Z).
    + reflexivity.
    + cbn. lia.
Defined.

(** C6 at the failing input: under a cooldown of 15 minutes, two
    STOP_LOSS_HIT alerts five minutes apart that name the one AAPL position
    as "aapl" and as "AAPL" are both executed, on the same stored row: the
    position is looked up letter case aside, the last-trade time under the
    symbol string as given.  With the same string in both alerts the second
    is rejected and exactly one execution is recorded. *)
Theorem C6_cooldown_misses_letter_case :
  let self := rebalancer true None in
  let lower := HandleAlert stop_loss_alert_lower (at_time 1000 None) in
  let first := HandleAlert stop_loss_alert (at_time 1000 None) in
  let second := HandleAlert stop_loss_alert (at_time 1300 None) in
  let mixed := fst (run self (init 0, holding) [Start; lower; second]) in
  let same := fst (run self (init 0, holding) [Start; first; second]) in
  cooldown_minutes (config self) = 15%Z
  /\ (exists e1 e2 row,
        _trade_history mixed = [e1; e2]
        /\ symbol e1 = "aapl"%string
        /\ symbol e2 = "AAPL"%string
        /\ timestamp e1 = 1000%Z
        /\ timestamp e2 = 1300%Z
        /\ find_position (stored_positions (store holding)) (symbol e1)
           = Some (0%nat, row)
        /\ find_position (stored_positions (store holding)) (symbol e2)
           = Some (0%nat, row)
        /\ sp_ticker row = Some "AAPL"%string
        /\ _last_trade_time mixed !! "aapl"%string = Some 1000%Z
        /\ _last_trade_time mixed !! "AAPL"%string = Some 1300%Z)
  /\ (exists e,
        _trade_history same = [e]
        /\ timestamp e = 1000%Z
        /\ fst (snd (_can_trade self
                       (fst (run self (init 0, holding) [Start; first]))
                       (at_time 1300 None) "AAPL")) = false).
Proof.
  cbn zeta. split; [reflexivity|]. split.
  - do 3 eexists. split; [vm_compute; reflexivity|].
    repeat split; vm_compute; reflexivity.
  - eexists. split; [vm_compute; reflexivity|].
    split; vm_compute; reflexivity.
Qed.

End Throttle.

(** ** Recording an execution *)

Section Recording.

Import Rebalancer Handling Clock Scenario RebalancerFacts.

Implicit Types (self : Rebalancer) (st : State) (w : World) (env : Env).

Lemma handled_outcome self st w env alert (step : Step) :
  handled self st w env alert step ->
  untouched st w step \/ exists e, recorded self st w env step e.
Proof.
  assert (Hkept : _trade_history (_reset_daily_limits st (at_reset env))
                  = _trade_history st).
  { destruct (reset_cases st (at_reset env)) as [(_ & _ & _ & -> & _)|(_ & ->)];
      reflexivity. }
  unfold untouched, recorded.
  intros [| |sym act pct stp _ _ Hsell _ Hexec]; auto.
  destruct Hexec
    as [|e db w1 r1 st0 pos _ _ Hact _ _ _ Hdry Hlive Hw Hr]; auto.
  right. exists e. rewrite Hact, Hw, Hr.
  cbn [record_trade _trade_history store notified].
  subst st0. rewrite Hkept. repeat split; auto.
  - now apply Hdry.
  - now apply Hdry.
  - now apply (Hlive msg).
  - now apply (Hlive msg).
  - now apply (Hlive msg).
Qed.

(** What a handling leaves behind: nothing but, at most, a daily reset; or
    exactly one recorded execution. *)
Lemma handle_alert_outcome self st w env alert :
  untouched st w (_handle_alert self st w env alert)
  \/ exists e, recorded self st w env (_handle_alert self st w env alert) e.
Proof.
  exact (handled_outcome self st w env alert _
           (handle_alert_handled self st w env alert)).
Qed.

(** The throttle state after a recorded execution. *)
Lemma record_trade_throttle st env (e : TradeExecution) :
  _daily_trade_count (record_trade st env e) = (_daily_trade_count st + 1)%Z
  /\ _last_trade_time (record_trade st env e) !! symbol e
     = Some (at_update env).
Proof.
  split; [reflexivity|]. cbn. apply lookup_insert_eq.
Qed.

(** A handling whose alert reaches its handler's call of [_execute_trade]
    is that call, for the action and the percentage the handler chooses. *)
Lemma handle_alert_trading self st w env alert symbol :
  _running st = true ->
  enabled (config self) = true ->
  should_act (config self) (a_urgency alert) = true ->
  a_symbol alert = Some symbol ->
  symbol <> ""%string ->
  triggers self alert ->
  exists reason,
    _handle_alert self st w env alert
    = _execute_trade self st w env symbol (chosen_action self alert) reason
        (Some (a_alert_type alert)) (get (a_data alert) "current_price")
        (chosen_pct self alert).
Proof.
  intros Hrun Hen Hact Hsym Hne Htrig.
  unfold _handle_alert, chosen_action, chosen_pct, triggers in *.
  rewrite Hrun, Hen, Hact. cbn [negb orb].
  destruct symbol as [|c symbol]; [contradiction|].
  destruct (a_alert_type alert) eqn:Htype;
    unfold _handle_stop_loss, _handle_take_profit, _handle_concentration,
      _handle_risk_threshold; rewrite ?Hsym, ?Htype; cbn [usable_symbol].
  - destruct (Qlt_bool _ _); eexists; reflexivity.
  - apply Qlt_bool_iff in Htrig. rewrite Htrig. eexists; reflexivity.
  - destruct Htrig as [Hover Hnonzero].
    apply Qlt_bool_iff in Hover. rewrite Hover. unfold pydiv.
    destruct (Qeq_bool _ 0) eqn:Hzero;
      [apply Qeq_bool_iff in Hzero; contradiction|].
    eexists; reflexivity.
  - eexists; reflexivity.
  - contradiction.
Qed.

(** A live sale that passed the throttle check, found its position and is
    not too small is recorded, whatever the store transaction does. *)
Lemma execute_trade_live self st w env symbol action reason alert_type price pct
    position :
  dry_run (config self) = false ->
  is_sell action = true ->
  fst (snd (_can_trade self st env symbol)) = true ->
  find_position (stored_positions (store w)) symbol = Some position ->
  too_small self
    (calculate_value (calculate_quantity self (Some position) action pct) price)
    action = false ->
  exists e db,
    _execute_trade self st w env symbol action reason alert_type price pct
    = (record_trade (_reset_daily_limits st (at_reset env)) env e,
       {| store := db;
          notified := notified w ++ match on_trade self with
                                    | Some _ => [e]
                                    | None => []
                                    end |},
       match on_trade self with
       | Some callback => callback e
       | None => Returned tt
       end)
    /\ Rebalancer.symbol e = symbol
    /\ Rebalancer.action e = action
    /\ match commit_error env with
       | Some msg => success e = false /\ error e = Some msg /\ db = store w
       | None => success e = true /\ error e = None
       end.
Proof.
  intros Hlive Hsell Hcan Hfound Hsize.
  unfold _execute_trade.
  destruct (can_trade_cases self st env symbol) as (ok & m & Heq & _).
  rewrite Heq in Hcan |- *. cbn in Hcan. subst ok.
  cbn [negb]. rewrite Hfound.
  replace (bool_decide (is_Some (Some position))) with true
    by (symmetry; apply bool_decide_eq_true; eauto).
  cbn [negb andb]. rewrite Hsize, Hlive.
  unfold _execute_real_trade. rewrite Hsell.
  destruct position as [i p].
  destruct (commit_error env) as [msg|];
    destruct (on_trade self); do 2 eexists;
    (split; [rewrite ?app_nil_r; reflexivity|]); repeat split.
Qed.

(** C7: in live mode, an alert that makes [_handle_alert] carry out a sale
    (the rebalancer runs, is enabled and acts on the alert's urgency, the
    alert names a symbol and triggers its handler, the throttle check
    passes, the position is found and the sale is not too small) is always
    recorded, whether the store transaction goes through or raises: the
    execution is appended to the history, the daily counter goes up by one,
    the symbol's last-trade time is stamped, the callback, if one is
    registered, receives the execution exactly once, and, the callback
    returning, the handling returns.  When the transaction raises with
    message [msg] the execution is marked failed with [msg] in its error
    field and the store is left as it was; otherwise it is marked
    successful. *)
Theorem C7_failed_trade_is_recorded self st w env alert symbol position
    (Hlive : dry_run (config self) = false)
    (Hcallback : forall callback e,
        on_trade self = Some callback -> callback e = Returned tt)
    (Hrunning : _running st = true)
    (Henabled : enabled (config self) = true)
    (Hurgency : should_act (config self) (a_urgency alert) = true)
    (Hsymbol : a_symbol alert = Some symbol)
    (Hnonempty : symbol <> ""%string)
    (Htriggers : triggers self alert)
    (Hthrottle : fst (snd (_can_trade self st env symbol)) = true)
    (Hposition :
       find_position (stored_positions (store w)) symbol = Some position)
    (Hsize :
       too_small self
         (calculate_value
            (calculate_quantity self (Some position)
               (chosen_action self alert) (chosen_pct self alert))
            (get (a_data alert) "current_price"))
         (chosen_action self alert) = false) :
  let '(st', w', r) := _handle_alert self st w env alert in
  exists e,
    _trade_history st' = _trade_history st ++ [e]
    /\ _daily_trade_count st'
       = (_daily_trade_count (_reset_daily_limits st (at_reset env)) + 1)%Z
    /\ _last_trade_time st'
       = <[symbol := at_update env]> (_last_trade_time st)
    /\ notified w' = notified w ++ match on_trade self with
                                   | Some _ => [e]
                                   | None => []
                                   end
    /\ r = Returned tt
    /\ Rebalancer.symbol e = symbol
    /\ action e = chosen_action self alert
    /\ match commit_error env with
       | Some msg => success e = false /\ error e = Some msg
                     /\ store w' = store w
       | None => success e = true /\ error e = None
       end.
Proof.
  destruct (handle_alert_trading self st w env alert symbol
              Hrunning Henabled Hurgency Hsymbol Hnonempty Htriggers)
    as [reason ->].
  assert (Hsell : is_sell (chosen_action self alert) = true).
  { unfold chosen_action.
    destruct (a_alert_type alert); try reflexivity.
    now destruct (Qlt_bool _ _). }
  destruct (execute_trade_live self st w env symbol (chosen_action self alert)
              reason (Some (a_alert_type alert))
              (get (a_data alert) "current_price") (chosen_pct self alert)
              position Hlive Hsell Hthrottle Hposition Hsize)
    as (e & db & -> & Hs & Ha & Hmark).
  assert (Hkept : _trade_history (_reset_daily_limits st (at_reset env))
                  = _trade_history st
                  /\ _last_trade_time (_reset_daily_limits st (at_reset env))
                     = _last_trade_time st).
  { destruct (reset_cases st (at_reset env))
      as [(_ & _ & _ & -> & ->)|(_ & ->)]; split; reflexivity. }
  destruct Hkept as [Hhistory Hlast].
  exists e.
  split; [cbn; now rewrite Hhistory|].
  split; [reflexivity|].
  split; [cbn; now rewrite Hs, Hlast|].
  split; [reflexivity|].
  split; [destruct (on_trade self) as [callback|] eqn:Hcb;
          [now apply (Hcallback callback) | reflexivity]|].
  split; [exact Hs|]. split; [exact Ha|].
  cbn [store]. exact Hmark.
Qed.

Lemma C7_failed_trade_witness :
  let self := rebalancer false (Some quiet_callback) in
  let env := at_time 1000 (Some "connection lost"%string) in
  let '(st', w', r) :=
    _handle_alert self (start (init 0)) holding env risk_alert in
  exists e,
    _trade_history st' = _trade_history (start (init 0)) ++ [e]
    /\ _daily_trade_count st'
       = (_daily_trade_count
            (_reset_daily_limits (start (init 0)) (at_reset env)) + 1)%Z
    /\ _last_trade_time st'
       = <["AAPL"%string := at_update env]> (_last_trade_time (start (init 0)))
    /\ notified w' = notified holding ++ [e]
    /\ r = Returned tt
    /\ Rebalancer.symbol e = "AAPL"%string
    /\ action e = SELL_ALL
    /\ success e = false
    /\ error e = Some "connection lost"%string
    /\ store w' = store holding.
Proof.
  cbn zeta.
  refine (C7_failed_trade_is_recorded
            (rebalancer false (Some quiet_callback)) (start (init 0)) holding
            (at_time 1000 (Some "connection lost"%string)) risk_alert "AAPL"
            (0%nat, {| sp_ticker := Some "AAPL"%string; sp_symbol_id := 1;
                       sp_quantity := 10 |})
            eq_refl _ eq_refl eq_refl eq_refl eq_refl _ I _ _ _).
  - intros callback e Hcb. injection Hcb as <-. reflexivity.
  - discriminate.
  - vm_compute. reflexivity.
  - vm_compute. reflexivity.
  - vm_compute. reflexivity.
Defined.

(** C8, as the claim states it, fails: with a callback that raises, the
    handling of a RISK_THRESHOLD alert records the execution and then
    ends with the callback's exception. *)
Lemma C8_callback_exception_reaches_caller :
  let self := rebalancer true (Some failing_callback) in
  let '(st', w', r) :=
    _handle_alert self (start (init 0)) holding (at_time 1000 None) risk_alert in
  length (_trade_history st') = 1%nat
  /\ r = Raised (Exception "notification failed").
Proof.
  vm_compute. split; reflexivity.
Qed.

(** C8, amended: the callback is invoked after the execution has been
    appended to the history and the throttle state updated, and nothing
    catches what it raises: when every call of the callback raises [x], a
    handling either records nothing, or records one execution (history,
    daily counter and last-trade time updated, the callback invoked once)
    and ends raising [x] to the caller. *)
Theorem C8_callback_exception_propagates_after_recording
    self callback x
    (Hcallback : on_trade self = Some callback)
    (Hraises : forall e, callback e = Raised x) :
  forall st w env alert,
    let '(st', w', r) := _handle_alert self st w env alert in
    untouched st w (st', w', r)
    \/ exists e,
        _trade_history st' = _trade_history st ++ [e]
        /\ _daily_trade_count st'
           = (_daily_trade_count (_reset_daily_limits st (at_reset env)) + 1)%Z
        /\ _last_trade_time st' !! symbol e = Some (at_update env)
        /\ notified w' = notified w ++ [e]
        /\ r = Raised x.
Proof.
  intros st w env alert.
  pose proof (handle_alert_outcome self st w env alert) as Hout.
  destruct (_handle_alert self st w env alert) as [[st' w'] r].
  destruct Hout as [Hnone|(e & Hst & Hhist & _ & _ & _ & Hnotified & Hr)];
    [left; exact Hnone|].
  right. exists e.
  rewrite Hcallback in Hnotified, Hr. rewrite Hraises in Hr.
  rewrite Hst at 2 3.
  destruct (record_trade_throttle
              (_reset_daily_limits st (at_reset env)) env e)
    as [Hcount Hlast].
  repeat split; assumption.
Qed.

Lemma C8_callback_exception_witness :
  let self := rebalancer true (Some failing_callback) in
  let '(st', w', r) :=
    _handle_alert self (start (init 0)) holding (at_time 1000 None) risk_alert in
  untouched (start (init 0)) holding (st', w', r)
  \/ exists e,
      _trade_history st' = _trade_history (start (init 0)) ++ [e]
      /\ _daily_trade_count st'
         = (_daily_trade_count
              (_reset_daily_limits (start (init 0)) 1000) + 1)%Z
      /\ _last_trade_time st' !! symbol e = Some 1000%Z
      /\ notified w' = notified holding ++ [e]
      /\ r = Raised (Exception "notification failed").
Proof.
  exact (C8_callback_exception_propagates_after_recording
           (rebalancer true (Some failing_callback)) failing_callback
           (Exception "notification failed") eq_refl (fun _ => eq_refl)
           (start (init 0)) holding (at_time 1000 None) risk_alert).
Defined.

(** The quantity of a SELL_ALL on a held position is the held quantity
    passed through the single-trade cap. *)
Lemma sell_all_quantity self i (p : StoredPosition) pct :
  calculate_quantity self (Some (i, p)) SELL_ALL pct
  = pymin (sp_quantity p)
      (sp_quantity p * (max_single_trade_pct (config self) / 100)).
Proof. reflexivity. Qed.

(** C1 at the failing input: under the default limits (at most 25% of a
    position per trade) a RISK_THRESHOLD alert, and a STOP_LOSS_HIT alert
    at a loss of 20%, on AAPL with 10 units held each record a SELL_ALL of
    2.5 units, not of the 10 held. *)
Theorem C1_sell_all_records_a_quarter :
  let self := rebalancer true None in
  let env := at_time 1000 None in
  map sp_quantity (stored_positions (store holding)) = [10]
  /\ (exists e,
        _trade_history
          (fst (fst (_handle_alert self (start (init 0)) holding env risk_alert)))
        = [e]
        /\ action e = SELL_ALL /\ quantity e == 25 # 10 /\ ~ quantity e == 10)
  /\ (exists e,
        _trade_history
          (fst (fst (_handle_alert self (start (init 0)) holding env
                       stop_loss_alert)))
        = [e]
        /\ action e = SELL_ALL /\ quantity e == 25 # 10 /\ ~ quantity e == 10).
Proof.
  cbn zeta. split; [reflexivity|].
  split; eexists; (split; [vm_compute; reflexivity|]);
    repeat split; discriminate.
Qed.

End Recording.

Section DailyStatistics.

Import Rebalancer Scenario.

Lemma C10_daily_counter_witness :
  let self := rebalancer true None in
  let st :=
    fst (run self (init 0, holding)
           [Start; HandleAlert risk_alert (at_time 1000 None);
            HandleAlert stop_loss_alert (at_time 5000 None)]) in
  (0 <= _daily_trade_count st <= max_daily_trades (config self))%Z
  /\ forall now_reset now_filter,
      (0 <= trades_remaining
              (snd (get_daily_stats self st now_reset now_filter)))%Z.
Proof.
  cbn zeta.
  apply (C10_daily_counter_never_exceeds_cap (rebalancer true None)).
  cbn. lia.
Defined.

End DailyStatistics.

(** * Further properties of the risk service *)

Section ActionsAndRisk.

Import RiskService.

(** The rules of [_determine_action], read off for a risk level computed by
    [_calculate_risk_level] from the same figures. *)
Lemma determine_action_cases (pnl_pct concentration : Q) :
  let risk := _calculate_risk_level pnl_pct concentration in
  let action := fst (_determine_action pnl_pct concentration risk) in
  (pnl_pct < -10 /\ action = EXIT)
  \/ (-10 <= pnl_pct /\ (20 < pnl_pct \/ 25 < concentration) /\ action = REDUCE)
  \/ (-10 <= pnl_pct <= 20 /\ concentration <= 25 /\ action = HOLD
      /\ risk = LOW).
Proof.
  cbn zeta. unfold _determine_action, stop_loss_threshold, take_profit_threshold,
    max_position_concentration.
  destruct (risk_level_cases pnl_pct concentration)
    as [[H1 ->]|[[H1 ->]|[(H1 & H1' & ->)|[(H1 & H1' & ->)|[(H1 & H1' & ->)|(H1 & H1' & ->)]]]]];
    by_cases_on_comparisons; cbn;
    try (left; split; [lra | reflexivity]);
    try (right; left; split; [lra | split; [lra | reflexivity]]);
    try (right; left; split; [lra | split; [left; lra | reflexivity]]);
    try (right; left; split; [lra | split; [right; lra | reflexivity]]);
    try (right; right; repeat split; lra);
    try (exfalso; lra).
Qed.

Lemma assess_position_levels position total :
  exists a,
    _assess_position position total = Returned a
    /\ risk_level a
       = _calculate_risk_level (unrealized_pnl_pct a) (concentration_risk a)
    /\ recommended_action a
       = fst (_determine_action (unrealized_pnl_pct a) (concentration_risk a)
                (risk_level a))
    /\ target_allocation a
       = pymin (concentration_risk a) (max_position_concentration * 100)
    /\ stop_loss_price a = entry_price a * (1 + stop_loss_threshold)
    /\ take_profit_price a = entry_price a * (1 + take_profit_threshold).
Proof.
  unfold _assess_position.
  match goal with
  | |- context [Qlt_bool 0 (?q * ?e)] =>
      destruct (Qlt_bool_spec 0 (q * e)) as [Hcb|Hcb]
  end;
    destruct (Qlt_bool_spec 0 total) as [Htv|Htv];
    rewrite ?pydiv_returns by lra; cbn [bind];
    match goal with
    | |- context [_determine_action ?x ?y ?z] =>
        destruct (_determine_action x y z) as [act why] eqn:Hact
    end;
    (eexists; split; [reflexivity|]); cbn; rewrite Hact; repeat split.
Qed.

(** X1: in every position assessment the recommendation agrees with the
    risk level: a CRITICAL position is told to EXIT, a HIGH one to EXIT or
    REDUCE, a HOLD is only given at LOW risk, exactly when the P&L lies
    between -10% and 20% and the concentration is at most 25%, and ADD and
    REALLOCATE are never recommended. *)
Theorem X1_recommendation_agrees_with_risk position total :
  exists a,
    _assess_position position total = Returned a
    /\ (risk_level a = CRITICAL -> recommended_action a = EXIT)
    /\ (risk_level a = HIGH ->
        recommended_action a = EXIT \/ recommended_action a = REDUCE)
    /\ (recommended_action a = HOLD <->
        -10 <= unrealized_pnl_pct a <= 20 /\ concentration_risk a <= 25)
    /\ (recommended_action a = HOLD -> risk_level a = LOW)
    /\ recommended_action a <> ADD
    /\ recommended_action a <> REALLOCATE.
Proof.
  destruct (assess_position_levels position total)
    as (a & Ha & Hrisk & Hact & _).
  exists a. split; [exact Ha|].
  rewrite Hact, Hrisk.
  pose proof (determine_action_cases (unrealized_pnl_pct a) (concentration_risk a))
    as Hcases.
  cbn zeta in Hcases.
  pose proof (risk_level_cases (unrealized_pnl_pct a) (concentration_risk a))
    as Hlevels.
  destruct Hcases as [[Hp ->]|[(Hp & Hc & ->)|(Hp & Hc & -> & Hlow)]].
  - repeat split; try discriminate; auto. intros [? ?]. lra.
  - repeat split; try discriminate; auto.
    + intros Hcrit.
      destruct Hlevels as [[? ?]|[[? H]|[(? & ? & H)|[(? & ? & H)|[(? & ? & H)|(? & ? & H)]]]]];
        try congruence. lra.
    + intros [? ?]. lra.
  - repeat split; try discriminate; auto; try lra; try congruence.
Qed.

(** X2: the derived figures of a position assessment: the target
    allocation exceeds neither the 25% limit nor the current concentration,
    and for a non-negative entry price the stop-loss price (90% of it) and
    the take-profit price (120% of it) enclose the entry price. *)
Theorem X2_targets_and_price_levels position total :
  exists a,
    _assess_position position total = Returned a
    /\ target_allocation a <= 25
    /\ target_allocation a <= concentration_risk a
    /\ stop_loss_price a == (9 # 10) * entry_price a
    /\ take_profit_price a == (12 # 10) * entry_price a
    /\ (0 <= entry_price a ->
        stop_loss_price a <= entry_price a <= take_profit_price a).
Proof.
  destruct (assess_position_levels position total)
    as (a & Ha & _ & _ & Htarget & Hstop & Htake).
  exists a. split; [exact Ha|].
  rewrite Htarget, Hstop, Htake.
  unfold pymin, max_position_concentration, stop_loss_threshold,
    take_profit_threshold.
  destruct (Qlt_bool_spec ((25 # 100) * 100) (concentration_risk a));
    repeat split; try lra.
Qed.

End ActionsAndRisk.

Section PortfolioShape.

Import RiskService RiskFacts.

Lemma held_iff p :
  (truthy (pos_quantity p)
   && Qlt_bool 0 (or_else (pos_quantity p) 0))%bool = held p.
Proof.
  unfold held, truthy, or_else.
  destruct (pos_quantity p) as [q|]; [|reflexivity].
  destruct (Qeq_bool q 0); reflexivity.
Qed.

Lemma assess_positions_spec ps total :
  exists l,
    assess_positions ps total = Returned l
    /\ Forall2 (fun p a => _assess_position p total = Returned a)
         (List.filter held ps) l.
Proof.
  induction ps as [|p ps (l & Hl & Hall)]; cbn [assess_positions List.filter].
  - exists []. split; [reflexivity | constructor].
  - rewrite held_iff. destruct (held p).
    + destruct (assess_position_returns p total) as (a & Ha & _).
      rewrite Ha, Hl. cbn [bind]. exists (a :: l).
      split; [reflexivity | constructor; assumption].
    + exists l. split; assumption.
Qed.

(** The assessment [assess_portfolio_risk] returns: the fresh record [pa]
    of the assessed rows, analysed, with the suggestions [s]. *)
Lemma assess_portfolio_risk_shape id account ps :
  exists pa s,
    assess_portfolio_risk id (Some account) ps
    = Returned (with_suggestions (_analyze_portfolio_composition pa) s)
    /\ Forall2 (fun p a => _assess_position p (total_value pa) = Returned a)
         (List.filter held ps) (positions pa)
    /\ rebalance_needed pa = false
    /\ concentration_warning pa = false
    /\ capital_at_risk pa = 0
    /\ total_value pa = invested_value pa + cash_available pa
    /\ exists cash_part,
        s = position_suggestions 0 (sorted (positions pa)) ++ cash_part
        /\ (cash_part = []
            \/ exists pct,
                cash_part =
                  [deploy_cash
                     (Z.of_nat (length (position_suggestions 0
                                          (sorted (positions pa)))) + 1)%Z
                     pct (cash_available pa)]).
Proof.
  unfold assess_portfolio_risk.
  match goal with
  | |- context [assess_positions ps ?t] =>
      destruct (assess_positions_spec ps t) as (l & Hl & Hall); rewrite Hl
  end.
  cbn [bind]. unfold _generate_recommendations.
  rewrite analyze_keeps_positions.
  rewrite (proj1 (analyze_keeps_totals _)), (proj2 (analyze_keeps_totals _)).
  cbn [positions total_value cash_available].
  match goal with
  | |- context [Qlt_bool 0 ?t] => destruct (Qlt_bool_spec 0 t)
  end; rewrite ?pydiv_returns by lra; cbn [bind];
    match goal with
    | |- context [Qlt_bool 30 ?t] => destruct (Qlt_bool 30 t)
    end;
    do 2 eexists; (split; [reflexivity|]); cbn;
    (split; [exact Hall|]); repeat (split; [reflexivity|]);
    eexists; (split; [try reflexivity; symmetry; apply app_nil_r|]);
    first [left; reflexivity | right; eexists; reflexivity].
Qed.

End PortfolioShape.

Section PortfolioComposition.

Import RiskService RiskFacts.

Implicit Types (pa : PortfolioRiskAssessment) (l : list PositionRiskAssessment).

Lemma assessed_rows_positive total ps l :
  Forall2 (fun p x => _assess_position p total = Returned x)
    (List.filter held ps) l ->
  Forall (fun x => 0 < quantity x) l.
Proof.
  revert l. induction ps as [|p ps IH]; intros l Hrows; cbn in Hrows.
  - inversion Hrows. constructor.
  - destruct (held p) eqn:Hheld; [|now apply IH].
    inversion Hrows as [|p' x ps' l' Hx Hrest]; subst.
    constructor; [|now apply IH].
    destruct (assess_position_returns p total) as (a & Ha' & Hq & _).
    rewrite Ha' in Hx. injection Hx as <-. rewrite Hq.
    now apply Qlt_bool_iff.
Qed.

(** X3: [assess_portfolio_risk] raises [ValueError] when the account does
    not exist and returns otherwise; the positions of the assessment are the
    assessments, in order, of exactly the stored rows with a positive
    quantity, each taken against the portfolio's total value, so no row with
    a zero, missing or negative quantity is assessed. *)
Theorem X3_portfolio_assesses_held_rows :
  (forall id ps,
      assess_portfolio_risk id None ps
      = Raised (ValueError ("Account " ++ id ++ " not found")))
  /\ (forall id account ps,
        exists a,
          assess_portfolio_risk id (Some account) ps = Returned a
          /\ Forall2 (fun p x => _assess_position p (total_value a) = Returned x)
               (List.filter held ps) (positions a)
          /\ Forall (fun x => 0 < quantity x) (positions a)).
Proof.
  split; [reflexivity|].
  intros id account ps.
  destruct (assess_portfolio_risk_shape id account ps)
    as (pa & s & Ha & Hrows & _).
  eexists. split; [exact Ha|].
  cbn [with_suggestions total_value positions].
  rewrite analyze_keeps_positions, (proj1 (analyze_keeps_totals pa)).
  split; [exact Hrows|]. exact (assessed_rows_positive _ _ _ Hrows).
Qed.

(** *** Generic facts about the counts of [_analyze_portfolio_composition] *)

Lemma some_selected {A} (P : A -> Prop) `{forall x, Decision (P x)} (xs : list A) :
  Nat.ltb 0 (length (filter P xs)) = true <-> Exists P xs.
Proof.
  induction xs as [|x xs IH].
  - cbn. split; [discriminate | inversion 1].
  - rewrite filter_cons. destruct (decide (P x)) as [Hx|Hx].
    + cbn. split; [now left | reflexivity].
    + rewrite IH. split; [now right|].
      inversion 1; [contradiction | assumption].
Qed.

Lemma positive_count (n : nat) :
  Qlt_bool 0 (inject_Z (Z.of_nat n)) = true <-> (0 < n)%nat.
Proof.
  rewrite Qlt_bool_iff. unfold Qlt. cbn. lia.
Qed.

Lemma not_hold (a : PositionAction) :
  PositionAction_eqb a HOLD = false <-> a <> HOLD.
Proof. destruct a; cbn; split; congruence. Qed.

Lemma is_critical (r : RiskLevel) :
  RiskLevel_eqb r CRITICAL = true <-> r = CRITICAL.
Proof. destruct r; cbn; split; congruence. Qed.

Lemma pymax_list_spec (x : Q) (xs : list Q) :
  Forall (fun y => y <= pymax_list x xs) (x :: xs)
  /\ In (pymax_list x xs) (x :: xs).
Proof.
  revert x. induction xs as [|y xs IH]; intros x.
  - cbn. split; [repeat constructor; lra | now left].
  - unfold pymax_list. cbn [fold_left]. fold (pymax_list (if Qlt_bool x y then y else x) xs).
    destruct (IH (if Qlt_bool x y then y else x)) as [Hall Hin].
    inversion Hall as [|m ms Hm Hrest]; subst.
    destruct (Qlt_bool_spec x y) as [Hxy|Hxy].
    + split.
      * constructor; [lra|]. constructor; assumption.
      * right. exact Hin.
    + split.
      * constructor; [assumption|]. constructor; [lra | assumption].
      * destruct Hin as [Hin|Hin]; [now left | right; now right].
Qed.

Lemma pysum_nonneg (xs : list Q) (acc : Q) :
  0 <= acc -> Forall (fun x => 0 <= x) xs -> 0 <= fold_left Qplus xs acc.
Proof.
  revert acc. induction xs as [|x xs IH]; intros acc Hacc Hall; [exact Hacc|].
  inversion Hall; subst. cbn. apply IH; [lra | assumption].
Qed.

(** What [_analyze_portfolio_composition] computes from a record whose
    flags and capital at risk are at their defaults. *)
Lemma analyze_metrics pa :
  let a := _analyze_portfolio_composition pa in
  (10 <= diversification_score a <= 100
   /\ (positions pa = [] -> diversification_score a = 100)
   /\ (positions pa <> [] -> diversification_score a <= 90))
  /\ (rebalance_needed pa = false ->
      (rebalance_needed a = true
       <-> Exists (fun p => recommended_action p <> HOLD) (positions pa)))
  /\ (overall_risk_level a = CRITICAL
      <-> Exists (fun p => risk_level p = CRITICAL) (positions pa))
  /\ (positions pa <> [] ->
      Forall (fun p => concentration_risk p <= max_position_concentration_seen a)
        (positions pa)
      /\ Exists (fun p => concentration_risk p = max_position_concentration_seen a)
           (positions pa))
  /\ (concentration_warning pa = false ->
      (concentration_warning a = true
       <-> Exists (fun p => 25 < concentration_risk p) (positions pa)))
  /\ (capital_at_risk pa = 0 ->
      0 <= capital_at_risk a
      /\ (Forall (fun p => 0 <= unrealized_pnl p) (positions pa) ->
          capital_at_risk a = 0)).
Proof.
  cbn zeta. unfold _analyze_portfolio_composition.
  destruct (positions pa) as [|p0 rest] eqn:Hps.
  - cbn [with_composition diversification_score rebalance_needed
         overall_risk_level max_position_concentration_seen
         concentration_warning capital_at_risk].
    split; [split; [lra | split; [reflexivity | congruence]]|].
    split; [intros ->; split; [discriminate | inversion 1]|].
    split; [split; [discriminate | inversion 1]|].
    split; [congruence|].
    split; [intros ->; split; [discriminate | inversion 1]|].
    intros ->. split; [lra | reflexivity].
  - set (ps := p0 :: rest).
    destruct (pymax_list_spec (concentration_risk p0) (map concentration_risk rest))
      as [Hbound Hattained].
    set (m := pymax_list (concentration_risk p0) (map concentration_risk rest)) in *.
    assert (Hall : Forall (fun p => concentration_risk p <= m) ps).
    { change (concentration_risk p0 :: map concentration_risk rest)
        with (map concentration_risk ps) in Hbound.
      now rewrite Forall_map in Hbound. }
    assert (Hex : Exists (fun p => concentration_risk p = m) ps).
    { change (concentration_risk p0 :: map concentration_risk rest)
        with (map concentration_risk ps) in Hattained.
      apply in_map_iff in Hattained as (p & Hp & Hin).
      apply Exists_exists. exists p. split; [now apply list_elem_of_In | exact Hp]. }
    cbn [with_composition diversification_score rebalance_needed
         overall_risk_level max_position_concentration_seen
         concentration_warning capital_at_risk].
    unfold max_position_concentration.
    repeat split.
    + destruct (Qlt_bool _ m); repeat (destruct (Nat.leb _ _)); lra.
    + destruct (Qlt_bool _ m); repeat (destruct (Nat.leb _ _)); lra.
    + discriminate.
    + intros _. destruct (Qlt_bool _ m); repeat (destruct (Nat.leb _ _)); lra.
    + intros Hgoal. apply some_selected in Hgoal.
      eapply Exists_impl; [exact Hgoal|]. intros p. apply not_hold.
    + intros Hgoal. apply some_selected.
      eapply Exists_impl; [exact Hgoal|]. intros p. apply not_hold.
    + intros Hgoal.
      destruct (Qlt_bool 0 _) eqn:Hcrit.
      * apply positive_count, Nat.ltb_lt, some_selected in Hcrit.
        eapply Exists_impl; [exact Hcrit|]. intros p. apply is_critical.
      * repeat (destruct (Qlt_bool _ _) in Hgoal); discriminate.
    + intros Hgoal.
      assert (Hcount : Qlt_bool 0 (inject_Z (Z.of_nat (risk_counts ps CRITICAL)))
                       = true).
      { apply positive_count, Nat.ltb_lt, some_selected.
        eapply Exists_impl; [exact Hgoal|]. intros p. apply is_critical. }
      rewrite Hcount. reflexivity.
    + exact Hall.
    + exact Hex.
    + intros Hgoal. destruct (Qlt_bool_spec ((25 # 100) * 100) m) as [Hm|Hm].
      * eapply Exists_impl; [exact Hex|]. cbn. intros p ->. lra.
      * congruence.
    + intros Hgoal. destruct (Qlt_bool_spec ((25 # 100) * 100) m) as [Hm|Hm];
        [reflexivity|].
      exfalso. apply Exists_exists in Hgoal as (p & Hin & Hp).
      rewrite Forall_forall in Hall. specialize (Hall p Hin). lra.
    + unfold pysum. apply pysum_nonneg; [lra|].
      apply Forall_map. apply Forall_forall. intros p Hp.
      apply list_elem_of_filter in Hp as [Hneg _].
      apply Qlt_bool_iff in Hneg. unfold pyabs.
      destruct (Qlt_bool_spec (unrealized_pnl p) 0); lra.
    + intros Hwin.
      assert (Hnone : filter (fun p => Qlt_bool (unrealized_pnl p) 0 = true) ps = []).
      { clear Hall Hex. clearbody ps. induction Hwin as [|p ps' Hp _ IH]; [reflexivity|].
        rewrite filter_cons_False; [exact IH|].
        intros Hneg. apply Qlt_bool_iff in Hneg. lra. }
      rewrite Hnone. reflexivity.
Qed.

(** Opens a statement about the assessment of an existing account: names
    the fresh record [pa], rewrites the fields of the result to those of the
    analysed [pa], and leaves the metrics of [pa] as [Hmetrics]. *)
Ltac open_assessment id account ps :=
  let pa := fresh "pa" in
  let s := fresh "s" in
  let Ha := fresh "Ha" in
  destruct (assess_portfolio_risk_shape id account ps)
    as (pa & s & Ha & _ & Hrebalance & Hwarning & Hcapital & _);
  eexists; split; [exact Ha|];
  cbn [with_suggestions positions diversification_score rebalance_needed
       overall_risk_level max_position_concentration_seen
       concentration_warning capital_at_risk];
  rewrite ?analyze_keeps_positions;
  pose proof (analyze_metrics pa) as Hmetrics; cbn zeta in Hmetrics.

(** X4: the diversification score of a portfolio assessment lies between 10
    and 100; it is 100 when no position is assessed and at most 90
    otherwise. *)
Theorem X4_diversification_score_range id account ps :
  exists a,
    assess_portfolio_risk id (Some account) ps = Returned a
    /\ 10 <= diversification_score a <= 100
    /\ (positions a = [] -> diversification_score a = 100)
    /\ (positions a <> [] -> diversification_score a <= 90).
Proof.
  open_assessment id account ps. apply Hmetrics.
Qed.

(** X5: a portfolio assessment asks for a rebalance exactly when one of its
    positions is recommended something other than HOLD. *)
Theorem X5_rebalance_needed_iff_action id account ps :
  exists a,
    assess_portfolio_risk id (Some account) ps = Returned a
    /\ (rebalance_needed a = true
        <-> Exists (fun p => recommended_action p <> HOLD) (positions a)).
Proof.
  open_assessment id account ps.
  destruct Hmetrics as (_ & Hneeded & _). exact (Hneeded Hrebalance).
Qed.

(** X6: the overall risk level of a portfolio assessment is CRITICAL exactly
    when one of its positions is CRITICAL. *)
Theorem X6_overall_critical_iff_position id account ps :
  exists a,
    assess_portfolio_risk id (Some account) ps = Returned a
    /\ (overall_risk_level a = CRITICAL
        <-> Exists (fun p => risk_level p = CRITICAL) (positions a)).
Proof.
  open_assessment id account ps.
  destruct Hmetrics as (_ & _ & Hcritical & _). exact Hcritical.
Qed.

(** X7: when positions are assessed, the reported maximal concentration is
    the concentration of one of them and bounds all of them; and the
    concentration warning is raised exactly when some position exceeds
    25%. *)
Theorem X7_max_concentration_and_warning id account ps :
  exists a,
    assess_portfolio_risk id (Some account) ps = Returned a
    /\ (positions a <> [] ->
        Forall (fun p => concentration_risk p <= max_position_concentration_seen a)
          (positions a)
        /\ Exists (fun p => concentration_risk p = max_position_concentration_seen a)
             (positions a))
    /\ (concentration_warning a = true
        <-> Exists (fun p => 25 < concentration_risk p) (positions a)).
Proof.
  open_assessment id account ps.
  destruct Hmetrics as (_ & _ & _ & Hmax & Hwarn & _).
  split; [exact Hmax | exact (Hwarn Hwarning)].
Qed.

(** X8: the capital at risk of a portfolio assessment is never negative,
    and is 0 when no assessed position has a negative unrealized P&L. *)
Theorem X8_capital_at_risk_nonnegative id account ps :
  exists a,
    assess_portfolio_risk id (Some account) ps = Returned a
    /\ 0 <= capital_at_risk a
    /\ (Forall (fun p => 0 <= unrealized_pnl p) (positions a) ->
        capital_at_risk a = 0).
Proof.
  open_assessment id account ps.
  destruct Hmetrics as (_ & _ & _ & _ & _ & Hrisk). exact (Hrisk Hcapital).
Qed.

End PortfolioComposition.

Section Recommendations.

Import RiskService RiskFacts.

Implicit Types (x y : PositionRiskAssessment) (l : list PositionRiskAssessment).

Lemma key_le_iff (k1 k2 : Z * Q) :
  key_le k1 k2
  <-> (fst k1 < fst k2)%Z \/ (fst k1 = fst k2 /\ snd k1 <= snd k2).
Proof.
  unfold key_le, key_lt.
  destruct (Z.ltb_spec (fst k2) (fst k1)); cbn [orb].
  - split; [discriminate | intros [?|[? _]]; lia].
  - destruct (Z.eqb_spec (fst k2) (fst k1)) as [Heq|Hne]; cbn [andb].
    + destruct (Qlt_bool_spec (snd k2) (snd k1)); split; try discriminate;
        try reflexivity.
      * intros [?|[_ ?]]; [lia | lra].
      * intros _. right. split; [lia | lra].
    + split; [intros _; left; lia | reflexivity].
Qed.

Lemma key_le_total (k1 k2 : Z * Q) : key_lt k1 k2 = true -> key_le k1 k2.
Proof.
  intros Hlt. apply key_le_iff.
  destruct (key_lt k2 k1) eqn:Hgt.
  - exfalso. unfold key_lt in *.
    destruct (Z.ltb_spec (fst k1) (fst k2)), (Z.ltb_spec (fst k2) (fst k1));
      cbn [orb] in *; try lia.
    destruct (Z.eqb_spec (fst k1) (fst k2)), (Z.eqb_spec (fst k2) (fst k1));
      cbn [andb] in *; try discriminate.
    apply Qlt_bool_iff in Hlt, Hgt. lra.
  - apply key_le_iff in Hgt. unfold key_lt in Hlt.
    destruct (Z.ltb_spec (fst k1) (fst k2)); [now left|].
    cbn [orb] in Hlt. destruct (Z.eqb_spec (fst k1) (fst k2)); [|discriminate].
    cbn [andb] in Hlt. apply Qlt_bool_iff in Hlt. right. split; [assumption | lra].
Qed.

Lemma key_le_trans (k1 k2 k3 : Z * Q) :
  key_le k1 k2 -> key_le k2 k3 -> key_le k1 k3.
Proof.
  rewrite !key_le_iff. intros [?|[? ?]] [?|[? ?]]; try (left; lia).
  right. split; [lia | lra].
Qed.

Lemma insert_sorted_permutation x l : Permutation (insert_sorted x l) (x :: l).
Proof.
  induction l as [|y l IH]; cbn [insert_sorted]; [reflexivity|].
  destruct (key_lt (sort_key y) (sort_key x)); [|reflexivity].
  rewrite IH. apply perm_swap.
Qed.

Lemma insert_sorted_ordered x l :
  ordered_by_key l -> ordered_by_key (insert_sorted x l).
Proof.
  unfold ordered_by_key.
  induction 1 as [|y l Hl IH Hy]; cbn [insert_sorted].
  - repeat constructor.
  - destruct (key_lt (sort_key y) (sort_key x)) eqn:Hlt.
    + constructor; [exact IH|].
      rewrite (insert_sorted_permutation x l).
      constructor; [now apply key_le_total | exact Hy].
    + constructor; [now constructor|].
      constructor; [exact Hlt|].
      eapply Forall_impl; [exact Hy|]. cbn. intros z Hz.
      now apply (key_le_trans _ (sort_key y)).
Qed.

Lemma sorted_spec l :
  Permutation (sorted l) l /\ ordered_by_key (sorted l).
Proof.
  unfold sorted. induction l as [|x l [Hperm Hord]]; cbn [fold_right].
  - split; [reflexivity | constructor].
  - split.
    + rewrite insert_sorted_permutation. now constructor.
    + now apply insert_sorted_ordered.
Qed.

(** X9: the sort of [_generate_recommendations] rearranges the positions
    without losing or duplicating any, and puts them in the order of the key
    (priority of the action, then larger absolute P&L first): no position is
    followed by one with a smaller key. *)
Theorem X9_sort_by_urgency l :
  Permutation (sorted l) l /\ ordered_by_key (sorted l).
Proof. exact (sorted_spec l). Qed.

Lemma no_suggestion_for_holds i l :
  Forall (fun x => is_hold x = true) l -> position_suggestions i l = [].
Proof.
  intros Hall. revert i.
  induction Hall as [|x l Hx _ IH]; intros i; cbn [position_suggestions];
    [reflexivity|].
  unfold is_hold in Hx. rewrite Hx. apply IH.
Qed.

Lemma hold_sorts_last x y :
  is_hold x = true -> key_le (sort_key x) (sort_key y) -> is_hold y = true.
Proof.
  unfold is_hold, sort_key. rewrite key_le_iff. cbn [fst snd].
  destruct (recommended_action x); try discriminate.
  destruct (recommended_action y); cbn; intros _ [?|[? _]];
    try lia; try discriminate; reflexivity.
Qed.

Lemma consecutive_cons (from : Z) (n : nat) :
  consecutive from (S n) = (from + 1)%Z :: consecutive (from + 1) n.
Proof.
  unfold consecutive. cbn [seq map]. f_equal; [lia|].
  rewrite <- seq_shift, map_map. apply map_ext. intros k. lia.
Qed.

Lemma consecutive_snoc (from : Z) (n : nat) :
  consecutive from (S n) = consecutive from n ++ [(from + Z.of_nat n + 1)%Z].
Proof.
  unfold consecutive. rewrite seq_S, map_app. cbn. do 2 f_equal. lia.
Qed.

(** The priorities of the suggestions made for an ordered list count up
    from [i + 1], one per position that is not on HOLD. *)
Lemma position_suggestions_priorities i l :
  ordered_by_key l ->
  map sg_priority (position_suggestions i l)
  = consecutive i (length (position_suggestions i l))
  /\ length (position_suggestions i l)
     = length (List.filter (fun x => negb (is_hold x)) l).
Proof.
  unfold ordered_by_key. intros Hord. revert i.
  induction Hord as [|x l Hl IH Hx]; intros i;
    cbn [position_suggestions List.filter]; [split; reflexivity|].
  fold (is_hold x). destruct (is_hold x) eqn:Hhold; cbn [negb].
  - assert (Hall : Forall (fun y => is_hold y = true) l).
    { eapply Forall_impl; [exact Hx|]. cbn. intros y. now apply hold_sorts_last. }
    rewrite (no_suggestion_for_holds _ _ Hall). split; [reflexivity|].
    clear -Hall. induction Hall as [|y l Hy _ IH]; [reflexivity|].
    cbn [List.filter]. rewrite Hy. exact IH.
  - destruct (IH (i + 1)%Z) as [Hprio Hlen].
    cbn [map length sg_priority]. rewrite consecutive_cons, Hprio, Hlen.
    split; reflexivity.
Qed.

Lemma acting_permutation l l' :
  Permutation l l' ->
  length (List.filter (fun x => negb (is_hold x)) l)
  = length (List.filter (fun x => negb (is_hold x)) l').
Proof.
  induction 1 as [|x l l' _ IH|x y l|l l' l'' _ IH1 _ IH2].
  - reflexivity.
  - simpl. destruct (negb (is_hold x)); simpl; rewrite IH; reflexivity.
  - simpl. destruct (negb (is_hold x)), (negb (is_hold y)); reflexivity.
  - now rewrite IH1.
Qed.

(** X10: the suggested actions of a portfolio assessment carry the
    priorities 1, 2, ..., n without gap or repetition, in this order; there
    is one suggestion for each position not on HOLD, and at most one more,
    the suggestion to deploy cash. *)
Theorem X10_suggestion_priorities_count_up id account ps :
  exists a,
    assess_portfolio_risk id (Some account) ps = Returned a
    /\ map sg_priority (suggested_actions a)
       = consecutive 0 (length (suggested_actions a))
    /\ let acting :=
         length (List.filter (fun x => negb (is_hold x)) (positions a)) in
       length (suggested_actions a) = acting
       \/ (length (suggested_actions a) = S acting
           /\ map sg_action (drop acting (suggested_actions a))
              = ["deploy_cash"%string]).
Proof.
  destruct (assess_portfolio_risk_shape id account ps)
    as (pa & s & Ha & _ & _ & _ & _ & _ & cash_part & -> & Hcash).
  eexists. split; [exact Ha|].
  cbn [with_suggestions suggested_actions positions].
  rewrite analyze_keeps_positions.
  destruct (sorted_spec (positions pa)) as [Hperm Hord].
  destruct (position_suggestions_priorities 0 _ Hord) as [Hprio Hlen].
  assert (Hacting :
            length (List.filter (fun x => negb (is_hold x)) (sorted (positions pa)))
            = length (List.filter (fun x => negb (is_hold x)) (positions pa))).
  { now apply acting_permutation. }
  rewrite Hacting in Hlen. cbn zeta.
  destruct Hcash as [->|(pct & ->)].
  - rewrite app_nil_r. split; [exact Hprio | left; exact Hlen].
  - rewrite map_app, length_app, Hprio. cbn [length map sg_priority deploy_cash].
    rewrite Nat.add_1_r, consecutive_snoc. split.
    + reflexivity.
    + right. split; [now rewrite Hlen|].
      rewrite <- Hlen, drop_app_length. reflexivity.
Qed.

End Recommendations.

Section Reallocation.

Import RiskService RiskFacts RiskQueries.

Lemma upper_ascii_idempotent (c : ascii) :
  upper_ascii (upper_ascii c) = upper_ascii c.
Proof.
  destruct c as [[] [] [] [] [] [] [] []]; reflexivity.
Qed.

Lemma upper_idempotent (s : string) : upper (upper s) = upper s.
Proof.
  induction s as [|c s IH]; cbn [upper]; [reflexivity|].
  now rewrite upper_ascii_idempotent, IH.
Qed.

(** X11: [get_position_recommendation] raises [ValueError] for a missing
    account; otherwise it returns the first assessed position whose symbol
    equals the requested one up to letter case, and [None] exactly when no
    assessed position does; asking with the symbol in upper case gives the
    same answer. *)
Theorem X11_position_lookup_ignores_case :
  (forall id ps symbol,
      get_position_recommendation id None ps symbol
      = Raised (ValueError ("Account " ++ id ++ " not found")))
  /\ (forall id account ps symbol,
        exists a r,
          assess_portfolio_risk id (Some account) ps = Returned a
          /\ get_position_recommendation id (Some account) ps symbol = Returned r
          /\ (r = None <->
              Forall (fun x => upper (symbol_text (RiskService.symbol x))
                               <> upper symbol) (positions a))
          /\ (forall x, r = Some x ->
                exists i,
                  positions a !! i = Some x
                  /\ upper (symbol_text (RiskService.symbol x)) = upper symbol
                  /\ forall j y, (j < i)%nat -> positions a !! j = Some y ->
                       upper (symbol_text (RiskService.symbol y)) <> upper symbol)
          /\ get_position_recommendation id (Some account) ps (upper symbol)
             = Returned r).
Proof.
  split; [reflexivity|].
  intros id account ps symbol.
  destruct (assess_portfolio_risk_returns id account ps) as (a & l & Ha & _).
  unfold get_position_recommendation. rewrite Ha. cbn [bind].
  exists a. eexists. split; [reflexivity|]. split; [reflexivity|].
  rewrite upper_idempotent.
  split; [|split; [|reflexivity]].
  - rewrite fmap_None, list_find_None. reflexivity.
  - intros x Hx. apply fmap_Some in Hx as ([i x'] & Hfind & ->).
    apply list_find_Some in Hfind as (Hi & Hmatch & Hfirst).
    exists i. cbn [snd]. split; [exact Hi|]. split; [exact Hmatch|].
    intros j y Hlt Hj. exact (Hfirst j y Hj Hlt).
Qed.

Lemma share_divisor (n : nat) :
  (0 < n)%nat -> ~ inject_Z (Z.min 3 (Z.of_nat n)) == 0.
Proof.
  intros Hn. unfold Qeq, inject_Z. cbn. lia.
Qed.

Lemma opportunity_suggestions_spec (freed : Q) (n : nat) (i : Z)
    (opps : list Opportunity) :
  (0 < n)%nat ->
  exists shares,
    opportunity_suggestions freed n i opps = Returned shares
    /\ length shares = length opps
    /\ Forall (fun sg => amount sg = freed / inject_Z (Z.min 3 (Z.of_nat n))
                         /\ from_symbol sg = Some "freed_capital"%string)
         shares
    /\ map to_symbol shares = map opp_symbol opps.
Proof.
  intros Hn. revert i.
  induction opps as [|opp opps IH]; intros i; cbn [opportunity_suggestions].
  - exists []. repeat split. constructor.
  - rewrite (pydiv_returns _ _ (share_divisor n Hn)). cbn [bind].
    destruct (IH (i + 1)%Z) as (shares & -> & Hlen & Hall & Hto).
    cbn [bind]. eexists. split; [reflexivity|]. cbn.
    repeat split; [now rewrite Hlen | | now rewrite Hto].
    constructor; [split; reflexivity | exact Hall].
Qed.

Lemma equal_shares (freed : Q) (k : nat) (shares : list ReallocationSuggestion) :
  (1 <= k <= 3)%nat ->
  length shares = k ->
  Forall (fun sg => amount sg = freed / inject_Z (Z.of_nat k)) shares ->
  Forall (fun sg => amount sg * inject_Z (Z.of_nat (length shares)) == freed)
    shares
  /\ pysum (map amount shares) == freed.
Proof.
  intros Hk Hlen Hall. rewrite Hlen. split.
  - eapply Forall_impl; [exact Hall|]. cbn beta. intros sg ->.
    field. unfold Qeq, inject_Z. cbn. lia.
  - destruct k as [|[|[|[|k]]]]; try lia;
      repeat (destruct shares as [|? shares]; try discriminate Hlen);
      repeat match goal with
        | H : Forall _ (_ :: _) |- _ => inversion H; subst; clear H
        end;
      cbn [map pysum fold_left];
      repeat match goal with
        | H : amount _ = _ |- _ => rewrite H; clear H
        end;
      cbn; field.
Qed.

(** X12: [get_reallocation_suggestions] raises [ValueError] for a missing
    account and otherwise returns, never dividing by zero.  Its result is
    one suggestion per position on REDUCE or EXIT, in the order of the
    assessment, followed by the shares of the freed capital: none when no
    opportunity is given or no capital is freed, and otherwise one for each
    of the first three opportunities, all of the same amount and together
    worth the freed capital. *)
Theorem X12_reallocation_shares_freed_capital :
  (forall id ps opps,
      get_reallocation_suggestions id None ps opps
      = Raised (ValueError ("Account " ++ id ++ " not found")))
  /\ (forall id account ps opps,
        exists a shares,
          assess_portfolio_risk id (Some account) ps = Returned a
          /\ get_reallocation_suggestions id (Some account) ps opps
             = Returned (map (reduction_suggestion a)
                           (List.filter to_reduce (positions a)) ++ shares)
          /\ let freed :=
               pysum (map (reduction_amount (total_value a))
                        (List.filter to_reduce (positions a))) in
             let offered := default [] opps in
             if (negb (bool_decide (offered = [])) && Qlt_bool 0 freed)%bool
             then length shares = Nat.min 3 (length offered)
                  /\ map to_symbol shares = map opp_symbol (take 3 offered)
                  /\ Forall (fun sg => amount sg * inject_Z (Z.of_nat (length shares))
                                       == freed) shares
                  /\ pysum (map amount shares) == freed
             else shares = []).
Proof.
  split; [reflexivity|].
  intros id account ps opps.
  destruct (assess_portfolio_risk_returns id account ps) as (a & l & Ha & _).
  unfold get_reallocation_suggestions. rewrite Ha. cbn [bind].
  exists a.
  set (reduce := List.filter to_reduce (positions a)).
  set (freed := pysum (map (reduction_amount (total_value a)) reduce)).
  destruct (default [] opps) as [|o1 rest] eqn:Hoffered.
  - rewrite (bool_decide_eq_true_2 ([] = [])) by reflexivity.
    cbn [negb andb]. exists []. split; [reflexivity|].
    destruct (bool_decide (reduce = [])) eqn:Hnone; cbn [andb].
    + apply bool_decide_eq_true in Hnone. rewrite Hnone. repeat split.
    + rewrite app_nil_r. repeat split.
  - rewrite (bool_decide_eq_false_2 (o1 :: rest = [])) by discriminate.
    rewrite andb_false_r. cbn [negb andb].
    destruct (Qlt_bool_spec 0 freed) as [Hfreed|Hfreed].
    + destruct (opportunity_suggestions_spec freed (length (o1 :: rest)) 0
                  (take 3 (o1 :: rest))) as (shares & -> & Hlen & Hall & Hto);
        [cbn; lia|].
      cbn [bind]. exists shares. split; [reflexivity|]. split; [reflexivity|].
      cbn zeta. rewrite length_take in Hlen.
      split; [exact Hlen|]. split; [exact Hto|].
      apply (equal_shares freed (Nat.min 3 (length (o1 :: rest))));
        [cbn [length]; lia | exact Hlen|].
      eapply Forall_impl; [exact Hall|]. cbn beta. intros sg [-> _].
      do 2 f_equal. lia.
    + exists []. split; [reflexivity|]. rewrite app_nil_r. repeat split.
Qed.

(** X13: what a reduction frees: an EXIT frees the whole market value; a
    REDUCE never frees a negative amount; a REDUCE of a position above the
    25% limit, which needs a positive total portfolio value, aims at 25% and
    frees the excess over 25% of the portfolio, which is positive; and a
    REDUCE of a position within the limit (a profit-taking one) has its
    current concentration as its target allocation. *)
Theorem X13_reduction_amounts position total :
  exists a,
    _assess_position position total = Returned a
    /\ (recommended_action a = EXIT ->
        reduction_amount total a = market_value a)
    /\ (recommended_action a = REDUCE -> 0 <= reduction_amount total a)
    /\ (recommended_action a = REDUCE -> concentration_risk a <= 25 ->
        target_allocation a = concentration_risk a)
    /\ (recommended_action a = REDUCE -> 25 < concentration_risk a ->
        0 < total
        /\ target_allocation a == 25
        /\ reduction_amount total a == market_value a - total * (25 # 100)
        /\ 0 < reduction_amount total a).
Proof.
  destruct (assess_position_returns position total)
    as (a & Ha & _ & _ & _ & _ & _ & Hconc).
  destruct (assess_position_levels position total)
    as (a' & Ha' & _ & _ & Htarget & _).
  rewrite Ha in Ha'. injection Ha' as <-.
  exists a. split; [exact Ha|].
  unfold reduction_amount, pymax. rewrite Htarget.
  unfold pymin, max_position_concentration.
  split; [intros ->; reflexivity|].
  split; [|split].
  - intros ->. cbn [PositionAction_eqb].
    match goal with
    | |- context [Qlt_bool 0 ?x] => destruct (Qlt_bool_spec 0 x)
    end; lra.
  - intros _ Hc.
    destruct (Qlt_bool_spec ((25 # 100) * 100) (concentration_risk a));
      [lra | reflexivity].
  - intros -> Hc. cbn [PositionAction_eqb].
    destruct (Qlt_bool_spec 0 total) as [Htotal|Hno];
      [|rewrite Hconc in Hc; lra].
    assert (Hmv : market_value a == concentration_risk a * total / 100).
    { rewrite Hconc. field. lra. }
    destruct (Qlt_bool_spec ((25 # 100) * 100) (concentration_risk a)) as [q|];
      [|lra].
    assert (Hexcess : 0 < market_value a - total * ((25 # 100) * 100 / 100)).
    { rewrite Hmv. revert q. generalize (concentration_risk a). intros c Hc'.
      assert (Hprod : 0 < (c - 25) * total) by (apply Qmult_lt_0_compat; lra).
      assert (E : c * total / 100 - total * ((25 # 100) * 100 / 100)
                  == (c - 25) * total / 100) by field.
      rewrite E. apply Qlt_shift_div_l; [reflexivity|].
      revert Hprod. generalize ((c - 25) * total). intros x Hx. lra. }
    match goal with
    | |- context [Qlt_bool 0 ?x] => destruct (Qlt_bool_spec 0 x) as [_|Hno']
    end; [|lra].
    split; [exact Htotal|]. split; [reflexivity|].
    split; [field | exact Hexcess].
Qed.

End Reallocation.

(** * Further properties of the rebalancer *)

Section ExecutionFacts.

Import Rebalancer Handling RebalancerFacts.

Implicit Types (self : Rebalancer) (st : State) (w : World) (env : Env)
  (e : TradeExecution).

(** One call of [_execute_trade], in full: it leaves without a trade, or
    records the execution it built from its arguments. *)
Lemma execute_trade_facts self st w env symbol action reason alert_type price pct :
  let step :=
    _execute_trade self st w env symbol action reason alert_type price pct in
  let st0 := _reset_daily_limits st (at_reset env) in
  let position := find_position (stored_positions (store w)) symbol in
  step = (st0, w, Returned tt)
  \/ exists e db,
      step = (record_trade st0 env e,
              {| store := db;
                 notified := notified w ++ match on_trade self with
                                           | Some _ => [e]
                                           | None => []
                                           end |},
              match on_trade self with
              | Some callback => callback e
              | None => Returned tt
              end)
      /\ throttle_passed self st0 env symbol
      /\ Rebalancer.symbol e = symbol
      /\ Rebalancer.action e = action
      /\ Rebalancer.reason e = reason
      /\ Rebalancer.alert_type e = alert_type
      /\ Rebalancer.price e = price
      /\ timestamp e = at_stamp env
      /\ quantity e = calculate_quantity self position action pct
      /\ total_value e = calculate_value (quantity e) price
      /\ too_small self (total_value e) action = false
      /\ (is_sell action = true -> is_Some position)
      /\ settled self w env e db.
Proof.
  cbn zeta. unfold _execute_trade.
  destruct (can_trade_cases self st env symbol) as (ok & msg & -> & Hok).
  destruct ok; cbn [negb]; [|now left].
  specialize (Hok eq_refl).
  set (position := find_position (stored_positions (store w)) symbol).
  destruct (negb (bool_decide (is_Some position)) && is_sell action)%bool
    eqn:Hfound; [now left|].
  destruct (too_small _ _ _) eqn:Hsize; [now left|].
  assert (Hpos : is_sell action = true -> is_Some position).
  { intros Hsell. rewrite Hsell, andb_true_r, negb_false_iff in Hfound.
    now apply bool_decide_eq_true in Hfound. }
  right. unfold settled.
  destruct (dry_run (config self)) eqn:Hdry.
  - destruct (on_trade self); do 2 eexists;
      (split; [rewrite ?app_nil_r; reflexivity|]);
      cbn; rewrite ?Hdry; repeat split; auto; apply Hok.
  - destruct (_execute_real_trade _ _ _ _ _ _ _) as [db [[]|ex]] eqn:Hreal;
      destruct (on_trade self); do 2 eexists;
        (split; [rewrite ?app_nil_r; reflexivity|]);
        cbn; rewrite ?Hdry; repeat split; auto; try apply Hok;
        eexists; (split; [exact Hreal|]); cbn; auto.
Qed.

Ltac dispatched symbol action reason pct :=
  right; right; exists symbol, action, reason, pct;
  repeat match goal with |- _ /\ _ => split end;
  repeat match goal with
    | H : Rebalancer.a_alert_type _ = _ |- _ => rewrite H
    end;
  first [reflexivity | discriminate].

(** One call of [_handle_alert], in full: the alert is discarded, or the
    concentration handler divides by a zero concentration, or the alert is
    passed on as one selling call of [_execute_trade]. *)
Lemma handle_alert_dispatch self st w env alert :
  let step := _handle_alert self st w env alert in
  step = (st, w, Returned tt)
  \/ (step = (st, w, Raised ZeroDivisionError)
      /\ a_alert_type alert = CONCENTRATION
      /\ get (a_data alert) "concentration_pct" == 0
      /\ auto_reduce_concentration_pct (config self) < 0)
  \/ exists symbol action reason pct,
      _running st = true
      /\ enabled (config self) = true
      /\ should_act (config self) (a_urgency alert) = true
      /\ a_symbol alert = Some symbol
      /\ symbol <> ""%string
      /\ a_alert_type alert <> IDLE_CAPITAL
      /\ is_sell action = true
      /\ step = _execute_trade self st w env symbol action reason
                  (Some (a_alert_type alert))
                  (get (a_data alert) "current_price") pct.
Proof.
  cbn zeta. unfold _handle_alert.
  destruct (_running st) eqn:Hrun; cbn [negb orb]; [|now left].
  destruct (enabled (config self)) eqn:Hen; cbn [negb]; [|now left].
  destruct (should_act _ _) eqn:Hact; cbn [negb]; [|now left].
  destruct (a_alert_type alert) eqn:Htype;
    unfold _handle_stop_loss, _handle_take_profit, _handle_concentration,
      _handle_risk_threshold, _handle_idle_capital;
    try (destruct (a_symbol alert) as [[|c symbol]|] eqn:Hsym;
         cbn [usable_symbol]; try (now left)).
  - destruct (Qlt_bool _ _).
    + dispatched (String c symbol) SELL_ALL
        (StopLossTriggered (get (a_data alert) "pnl_pct")) 100.
    + dispatched (String c symbol) SELL
        (ReducingExposure (get (a_data alert) "pnl_pct")) 50.
  - destruct (Qlt_bool _ _); [|now left].
    dispatched (String c symbol) SELL
      (TakingProfits (get (a_data alert) "pnl_pct"))
      (pymin 50 (max_single_trade_pct (config self))).
  - destruct (Qlt_bool_spec (auto_reduce_concentration_pct (config self))
                (get (a_data alert) "concentration_pct")) as [Hover|_];
      [|now left].
    unfold pydiv.
    destruct (Qeq_bool _ 0) eqn:Hzero.
    + right; left. apply Qeq_bool_iff in Hzero.
      repeat split; [exact Hzero | lra].
    + dispatched (String c symbol) SELL
        (ReducingConcentration (get (a_data alert) "concentration_pct")
           (target_position_pct (config self)))
        (pymin
           ((get (a_data alert) "concentration_pct"
             - target_position_pct (config self))
            / get (a_data alert) "concentration_pct" * 100)
           (max_single_trade_pct (config self))).
  - dispatched (String c symbol) SELL_ALL CriticalRiskThreshold 100.
Qed.

Lemma reset_keeps_history st now :
  _trade_history (_reset_daily_limits st now) = _trade_history st.
Proof.
  unfold _reset_daily_limits. now destruct (Z.ltb _ _).
Qed.

Lemma not_own_extension {A} (l : list A) (x : A) : l <> l ++ [x].
Proof.
  intros H. apply (f_equal length) in H. rewrite length_app in H. cbn in H. lia.
Qed.

Lemma upper_empty (s : string) : upper s = ""%string -> s = ""%string.
Proof. destruct s; [reflexivity | discriminate]. Qed.

(** Everything known of an execution a handling recorded. *)
Lemma recorded_facts self st w env alert e :
  records st (_handle_alert self st w env alert) e ->
  let st0 := _reset_daily_limits st (at_reset env) in
  let position := find_position (stored_positions (store w)) (symbol e) in
  exists reason pct db,
    _running st = true
    /\ enabled (config self) = true
    /\ should_act (config self) (a_urgency alert) = true
    /\ a_symbol alert = Some (symbol e)
    /\ symbol e <> ""%string
    /\ a_alert_type alert <> IDLE_CAPITAL
    /\ is_sell (action e) = true
    /\ _handle_alert self st w env alert
       = (record_trade st0 env e,
          {| store := db;
             notified := notified w ++ match on_trade self with
                                       | Some _ => [e]
                                       | None => []
                                       end |},
          match on_trade self with
          | Some callback => callback e
          | None => Returned tt
          end)
    /\ throttle_passed self st0 env (symbol e)
    /\ Rebalancer.reason e = reason
    /\ alert_type e = Some (a_alert_type alert)
    /\ price e = get (a_data alert) "current_price"
    /\ timestamp e = at_stamp env
    /\ quantity e = calculate_quantity self position (action e) pct
    /\ total_value e = calculate_value (quantity e) (price e)
    /\ too_small self (total_value e) (action e) = false
    /\ is_Some position
    /\ settled self w env e db.
Proof.
  unfold records. intros Hrec. cbn zeta.
  destruct (handle_alert_dispatch self st w env alert)
    as [Hstep|[(Hstep & _)|(symbol & action & reason & pct & Hrun & Hen & Hact
                            & Hsym & Hne & Htype & Hsell & Hstep)]];
    rewrite Hstep in Hrec |- *; cbn [fst] in Hrec;
    try (now apply not_own_extension in Hrec).
  destruct (execute_trade_facts self st w env symbol action reason
              (Some (a_alert_type alert))
              (get (a_data alert) "current_price") pct)
    as [Hskip|(e' & db & Hdone & Hpass & Hs & Ha & Hr & Ht & Hp & Hts & Hq
               & Hv & Hsize & Hpos & Hset)];
    cbn zeta in *.
  - rewrite Hskip in Hrec. cbn [fst] in Hrec.
    rewrite reset_keeps_history in Hrec.
    now apply not_own_extension in Hrec.
  - rewrite Hdone in Hrec |- *. cbn [fst record_trade _trade_history] in Hrec.
    rewrite reset_keeps_history in Hrec.
    apply app_inj_tail in Hrec as [_ <-].
    subst symbol action. rewrite <- Hp in Hv.
    exists reason, pct, db. repeat split; auto; apply Hpass.
Qed.

End ExecutionFacts.

Section Handlings.

Import Rebalancer Handling RebalancerFacts Scenario.

Implicit Types (self : Rebalancer) (st : State) (w : World) (env : Env)
  (e : TradeExecution).

(** X14: an alert is discarded, leaving the state (its daily counter and
    reset date included) and the world untouched, and the handling returns,
    when the rebalancer is not running or not enabled, when the urgency tier
    of the alert is not acted on, when the alert is of type IDLE_CAPITAL,
    when it names no symbol or an empty one, when it is a TAKE_PROFIT alert
    whose gain does not exceed [auto_reduce_gain_pct], or a CONCENTRATION
    alert whose concentration does not exceed
    [auto_reduce_concentration_pct]. *)
Theorem X14_discarded_alerts self st w env alert :
  _running st = false
  \/ enabled (config self) = false
  \/ should_act (config self) (a_urgency alert) = false
  \/ a_alert_type alert = IDLE_CAPITAL
  \/ a_symbol alert = None
  \/ a_symbol alert = Some ""%string
  \/ (a_alert_type alert = TAKE_PROFIT
      /\ get (a_data alert) "pnl_pct" <= auto_reduce_gain_pct (config self))
  \/ (a_alert_type alert = CONCENTRATION
      /\ get (a_data alert) "concentration_pct"
         <= auto_reduce_concentration_pct (config self)) ->
  _handle_alert self st w env alert = (st, w, Returned tt).
Proof.
  intros Hwhy. unfold _handle_alert.
  destruct (_running st); cbn [negb orb]; [|reflexivity].
  destruct (enabled (config self)); cbn [negb]; [|reflexivity].
  destruct (should_act _ _); cbn [negb]; [|reflexivity].
  destruct Hwhy as [H|[H|[H|[H|[H|[H|[[H Hlow]|[H Hlow]]]]]]]];
    try discriminate H.
  - rewrite H. reflexivity.
  - destruct (a_alert_type alert);
      unfold _handle_stop_loss, _handle_take_profit, _handle_concentration,
        _handle_risk_threshold, _handle_idle_capital; rewrite ?H; reflexivity.
  - destruct (a_alert_type alert);
      unfold _handle_stop_loss, _handle_take_profit, _handle_concentration,
        _handle_risk_threshold, _handle_idle_capital; rewrite ?H; reflexivity.
  - rewrite H. unfold _handle_take_profit.
    destruct (usable_symbol _); [|reflexivity].
    destruct (Qlt_bool_spec (auto_reduce_gain_pct (config self))
                (get (a_data alert) "pnl_pct")); [lra | reflexivity].
  - rewrite H. unfold _handle_concentration.
    destruct (usable_symbol _); [|reflexivity].
    destruct (Qlt_bool_spec (auto_reduce_concentration_pct (config self))
                (get (a_data alert) "concentration_pct")); [lra | reflexivity].
Qed.

Lemma X14_discarded_alerts_witness :
  _handle_alert (rebalancer true None) (init 0) holding (at_time 90000 None)
    risk_alert
  = (init 0, holding, Returned tt).
Proof.
  apply X14_discarded_alerts. left. reflexivity.
Defined.

Lemma pymin_le_r (a b : Q) : pymin a b <= b.
Proof. unfold pymin. destruct (Qlt_bool_spec b a); lra. Qed.

(** X15: an execution recorded by a handling comes from the alert handled:
    the rebalancer was running and enabled and acts on the alert's urgency;
    the execution carries the alert's symbol, its type (never IDLE_CAPITAL)
    and the current price of its payload (0 when the payload has none),
    and sells; it passed the throttle check; and the store holds a position
    whose ticker equals the symbol up to letter case, the first such row
    being the one traded. *)
Theorem X15_recorded_execution_provenance self st w env alert e :
  records st (_handle_alert self st w env alert) e ->
  _running st = true
  /\ enabled (config self) = true
  /\ should_act (config self) (a_urgency alert) = true
  /\ a_symbol alert = Some (symbol e)
  /\ alert_type e = Some (a_alert_type alert)
  /\ a_alert_type alert <> IDLE_CAPITAL
  /\ price e = default 0 (a_data alert !! "current_price"%string)
  /\ timestamp e = at_stamp env
  /\ (action e = SELL \/ action e = SELL_ALL)
  /\ throttle_passed self (_reset_daily_limits st (at_reset env)) env (symbol e)
  /\ exists i p ticker,
      find_position (stored_positions (store w)) (symbol e) = Some (i, p)
      /\ stored_positions (store w) !! i = Some p
      /\ sp_ticker p = Some ticker
      /\ upper ticker = upper (symbol e)
      /\ forall j q, (j < i)%nat -> stored_positions (store w) !! j = Some q ->
           upper (pos_symbol q) <> upper (symbol e).
Proof.
  intros Hrec.
  destruct (recorded_facts self st w env alert e Hrec)
    as (reason & pct & db & Hrun & Hen & Hact & Hsym & Hne & Htype & Hsell & _
        & Hpass & _ & Hat & Hprice & Hts & _ & _ & _ & [[i p] Hpos] & _).
  split; [exact Hrun|]. split; [exact Hen|]. split; [exact Hact|].
  split; [exact Hsym|]. split; [exact Hat|]. split; [exact Htype|].
  split; [exact Hprice|]. split; [exact Hts|].
  split; [destruct (action e); try discriminate Hsell; auto|].
  split; [exact Hpass|].
  unfold find_position in Hpos.
  pose proof Hpos as Hfound.
  apply list_find_Some in Hfound as (Hi & Hmatch & Hfirst).
  unfold pos_symbol in Hmatch.
  destruct (sp_ticker p) as [ticker|] eqn:Hticker.
  - exists i, p, ticker. repeat split; auto.
    intros j q Hlt Hj. exact (Hfirst j q Hj Hlt).
  - cbn in Hmatch. symmetry in Hmatch. apply upper_empty in Hmatch.
    contradiction.
Qed.

Lemma X15_recorded_execution_witness :
  let self := rebalancer true None in
  let st := start (init 0) in
  let env := at_time 1000 None in
  exists e,
    records st (_handle_alert self st holding env risk_alert) e
    /\ a_symbol risk_alert = Some (symbol e)
    /\ alert_type e = Some (a_alert_type risk_alert)
    /\ price e = default 0 (a_data risk_alert !! "current_price"%string)
    /\ timestamp e = at_stamp env.
Proof.
  cbn zeta. eexists. split; [vm_compute; reflexivity|].
  match goal with
  | |- context [symbol ?e] =>
      destruct (X15_recorded_execution_provenance (rebalancer true None)
                  (start (init 0)) holding (at_time 1000 None) risk_alert e)
        as (_ & _ & _ & Hsym & Hat & _ & Hprice & Hts & _)
  end; [vm_compute; reflexivity|].
  repeat split; assumption.
Defined.

(** X16: the size of an execution recorded by a handling: its quantity is
    at most [max_single_trade_pct] percent of the quantity of the position
    traded; its total value is quantity times price for a positive price and
    0 otherwise; and unless it is a SELL_ALL its total value is at least
    [min_trade_value]. *)
Theorem X16_recorded_execution_size self st w env alert e :
  records st (_handle_alert self st w env alert) e ->
  exists i p,
    find_position (stored_positions (store w)) (symbol e) = Some (i, p)
    /\ quantity e <= sp_quantity p * (max_single_trade_pct (config self) / 100)
    /\ total_value e
       = (if Qlt_bool 0 (price e) then quantity e * price e else 0)
    /\ (action e = SELL -> min_trade_value (config self) <= total_value e).
Proof.
  intros Hrec.
  destruct (recorded_facts self st w env alert e Hrec)
    as (reason & pct & db & _ & _ & _ & _ & _ & _ & _ & _ & _ & _ & _ & _ & _
        & Hq & Hv & Hsize & [[i p] Hpos] & _).
  cbn zeta in Hq. rewrite Hpos in Hq.
  exists i, p. split; [exact Hpos|].
  split; [rewrite Hq; apply pymin_le_r|].
  split; [exact Hv|].
  intros Hsell. unfold too_small in Hsize. rewrite Hsell in Hsize.
  cbn [is_sell_all negb] in Hsize. rewrite andb_true_r in Hsize.
  now apply Qlt_bool_false_iff in Hsize.
Qed.

Lemma X16_recorded_execution_size_witness :
  let self := rebalancer true None in
  let st := start (init 0) in
  let env := at_time 1000 None in
  exists e,
    records st (_handle_alert self st holding env stop_loss_alert) e
    /\ exists i p,
        find_position (stored_positions (store holding)) (symbol e) = Some (i, p)
        /\ quantity e
           <= sp_quantity p * (max_single_trade_pct (config self) / 100)
        /\ total_value e
           = (if Qlt_bool 0 (price e) then quantity e * price e else 0)
        /\ (action e = SELL -> min_trade_value (config self) <= total_value e).
Proof.
  cbn zeta. eexists. split; [vm_compute; reflexivity|].
  apply (X16_recorded_execution_size (rebalancer true None) (start (init 0))
           holding (at_time 1000 None) stop_loss_alert).
  vm_compute. reflexivity.
Defined.

End Handlings.

Section FurtherRuns.

Import Rebalancer Handling Clock RebalancerFacts Scenario.

Implicit Types (self : Rebalancer) (st : State) (w : World) (env : Env)
  (e : TradeExecution) (op : Op) (ops : list Op).

Ltac nothing_added :=
  exists []; cbn [start stop _trade_history];
  rewrite ?app_nil_r, ?reset_keeps_history;
  split; [reflexivity|]; split; [constructor|];
  split; [destruct (on_trade _); now rewrite app_nil_r|];
  split; [cbn; lia|]; intros _; split; [reflexivity | constructor].

(** What one operation adds to the history, to the callback's log and to the
    store. *)
Lemma step_adds self st w op :
  let '(st', w') := step self (st, w) op in
  exists added,
    _trade_history st' = _trade_history st ++ added
    /\ Forall well_formed added
    /\ notified w' = notified w ++ match on_trade self with
                                    | Some _ => added
                                    | None => []
                                    end
    /\ (length added <= handlings [op])%nat
    /\ (dry_run (config self) = true ->
        store w' = store w
        /\ Forall (fun e => success e = true /\ error e = None) added).
Proof.
  destruct op as [| |alert env|now_reset now_filter]; cbn [step fst];
    try nothing_added.
  pose proof (handle_alert_outcome self st w env alert) as Hout.
  destruct (_handle_alert self st w env alert) as [[st' w'] r] eqn:Hstep.
  cbn [fst].
  destruct Hout as [(Hh & -> & _)|(e & Hst & Hh & Hsell & Hdry & _ & Hn & _)].
  - rewrite Hh. nothing_added.
  - exists [e]. split; [exact Hh|].
    assert (Hrec : records st (_handle_alert self st w env alert) e).
    { unfold records. rewrite Hstep. exact Hh. }
    destruct (recorded_facts self st w env alert e Hrec)
      as (reason & pct & db & _ & _ & _ & _ & _ & Htype & _ & _ & _ & _ & Hat
          & _ & _ & _ & _ & _ & _ & Hset).
    split.
    { constructor; [|constructor]. split.
      - destruct (action e); try discriminate Hsell; auto.
      - eauto. }
    split; [rewrite Hn; now destruct (on_trade self)|].
    split; [cbn; lia|].
    intros Hdry'. destruct (Hdry Hdry') as [Hs Hstore].
    split; [exact Hstore|].
    constructor; [|constructor]. split; [exact Hs|].
    unfold settled in Hset. rewrite Hdry' in Hset. apply Hset.
  - cbn [get_daily_stats fst]. nothing_added.
Qed.

Lemma handlings_cons op ops :
  handlings (op :: ops) = (handlings [op] + handlings ops)%nat.
Proof.
  unfold handlings. cbn [List.filter]. destruct op; cbn; reflexivity.
Qed.

Lemma run_adds self ops st w :
  let '(st', w') := run self (st, w) ops in
  exists added,
    _trade_history st' = _trade_history st ++ added
    /\ Forall well_formed added
    /\ notified w' = notified w ++ match on_trade self with
                                    | Some _ => added
                                    | None => []
                                    end
    /\ (length added <= handlings ops)%nat
    /\ (dry_run (config self) = true ->
        store w' = store w
        /\ Forall (fun e => success e = true /\ error e = None) added).
Proof.
  revert st w. induction ops as [|op ops IH]; intros st w.
  - cbn. nothing_added.
  - rewrite run_cons. pose proof (step_adds self st w op) as Hstep.
    destruct (step self (st, w) op) as [st1 w1].
    specialize (IH st1 w1). destruct (run self (st1, w1) ops) as [st2 w2].
    destruct Hstep as (a1 & Hh1 & Hwf1 & Hn1 & Hl1 & Hd1).
    destruct IH as (a2 & Hh2 & Hwf2 & Hn2 & Hl2 & Hd2).
    exists (a1 ++ a2). rewrite Hh2, Hh1, Hn2, Hn1, <- !app_assoc.
    split; [reflexivity|]. split; [now apply Forall_app|].
    split; [destruct (on_trade self); now rewrite ?app_nil_r|].
    split; [rewrite length_app, handlings_cons; lia|].
    intros Hdry. destruct (Hd1 Hdry) as [Hs1 Hok1].
    destruct (Hd2 Hdry) as [Hs2 Hok2].
    split; [congruence | now apply Forall_app].
Qed.

(** X17: whatever operations are performed, the history only grows at its
    end, by at most one execution per alert handled; every execution added
    is a SELL or a SELL_ALL for an alert of a trading type (the rebalancer
    never buys); and when a callback is registered it has been handed
    exactly the executions added, in their order. *)
Theorem X17_history_is_append_only self ops st w :
  exists added,
    _trade_history (fst (run self (st, w) ops)) = _trade_history st ++ added
    /\ (length added <= handlings ops)%nat
    /\ Forall well_formed added
    /\ notified (snd (run self (st, w) ops))
       = notified w ++ match on_trade self with
                       | Some _ => added
                       | None => []
                       end.
Proof.
  pose proof (run_adds self ops st w) as Hrun.
  destruct (run self (st, w) ops) as [st' w'].
  destruct Hrun as (added & Hh & Hwf & Hn & Hl & _).
  exists added. auto.
Qed.

(** X18: in dry-run mode no sequence of operations changes the store, and
    every execution it adds to the history is marked successful, without
    error. *)
Theorem X18_dry_run_leaves_the_store self ops st w
    (Hdry : dry_run (config self) = true) :
  store (snd (run self (st, w) ops)) = store w
  /\ exists added,
      _trade_history (fst (run self (st, w) ops)) = _trade_history st ++ added
      /\ Forall (fun e => success e = true /\ error e = None) added.
Proof.
  pose proof (run_adds self ops st w) as Hrun.
  destruct (run self (st, w) ops) as [st' w'].
  destruct Hrun as (added & Hh & _ & _ & _ & Hd).
  destruct (Hd Hdry) as [Hstore Hok].
  split; [exact Hstore|]. exists added. auto.
Qed.

Lemma X18_dry_run_witness :
  let self := rebalancer true None in
  let ops := [Start; HandleAlert risk_alert (at_time 1000 None);
              HandleAlert stop_loss_alert (at_time 5000 None)] in
  store (snd (run self (init 0, holding) ops)) = store holding
  /\ exists added,
      _trade_history (fst (run self (init 0, holding) ops))
      = _trade_history (init 0) ++ added
      /\ Forall (fun e => success e = true /\ error e = None) added.
Proof.
  cbn zeta. apply X18_dry_run_leaves_the_store. reflexivity.
Defined.

(** X19: a rebalancer that is not running records nothing and touches
    nothing until it is started: over operations none of which is [Start],
    the history, the last-trade times and the world stay as they are and the
    rebalancer stays stopped. *)
Theorem X19_stopped_rebalancer_is_inert self ops st w
    (Hstopped : _running st = false) (Hops : Forall not_start ops) :
  let '(st', w') := run self (st, w) ops in
  _trade_history st' = _trade_history st
  /\ _last_trade_time st' = _last_trade_time st
  /\ _running st' = false
  /\ w' = w.
Proof.
  revert st Hstopped. induction Hops as [|op ops Hop _ IH]; intros st Hstopped.
  - cbn. auto.
  - rewrite run_cons.
    assert (Hstep : exists st1,
               step self (st, w) op = (st1, w)
               /\ _trade_history st1 = _trade_history st
               /\ _last_trade_time st1 = _last_trade_time st
               /\ _running st1 = false).
    { destruct op as [| |alert env|now_reset now_filter]; cbn [step].
      - contradiction.
      - exists (stop st). auto.
      - unfold _handle_alert. rewrite Hstopped. cbn. exists st. auto.
      - cbn. eexists. split; [reflexivity|].
        destruct (reset_cases st now_reset)
          as [(_ & _ & _ & Hh & Hl)|(_ & ->)]; auto.
        rewrite Hh, Hl. split; [reflexivity|]. split; [reflexivity|].
        unfold _reset_daily_limits. now destruct (Z.ltb _ _). }
    destruct Hstep as (st1 & -> & Hh & Hl & Hr).
    specialize (IH st1 Hr). destruct (run self (st1, w) ops) as [st2 w2].
    destruct IH as (Hh2 & Hl2 & Hr2 & Hw2).
    rewrite Hh2, Hl2. auto.
Qed.

Lemma X19_stopped_rebalancer_witness :
  let self := rebalancer true None in
  let ops := [HandleAlert risk_alert (at_time 1000 None); Stop;
              GetDailyStats 90000 90000;
              HandleAlert stop_loss_alert (at_time 95000 None)] in
  let '(st', w') := run self (init 0, holding) ops in
  _trade_history st' = _trade_history (init 0)
  /\ _last_trade_time st' = _last_trade_time (init 0)
  /\ _running st' = false
  /\ w' = holding.
Proof.
  cbn zeta.
  apply (X19_stopped_rebalancer_is_inert (rebalancer true None)
           [HandleAlert risk_alert (at_time 1000 None); Stop;
            GetDailyStats 90000 90000;
            HandleAlert stop_loss_alert (at_time 95000 None)]
           (init 0) holding).
  - reflexivity.
  - repeat constructor.
Defined.

(** X20: the division of [_handle_concentration] is guarded by the
    threshold: when [auto_reduce_concentration_pct] is not negative a
    handling never ends in [ZeroDivisionError], unless the callback raises
    one, because the concentration is divided by only when it exceeds the
    threshold. *)
Theorem X20_no_division_by_zero self st w env alert
    (Hthreshold : 0 <= auto_reduce_concentration_pct (config self))
    (Hcallback : forall callback e,
        on_trade self = Some callback ->
        divided_by_zero (callback e) = false) :
  divided_by_zero (snd (_handle_alert self st w env alert)) = false.
Proof.
  destruct (handle_alert_dispatch self st w env alert)
    as [->|[(_ & _ & _ & Hneg)|(symbol & action & reason & pct & _ & _ & _ & _
                                & _ & _ & _ & ->)]];
    [reflexivity | lra |].
  destruct (execute_trade_facts self st w env symbol action reason
              (Some (a_alert_type alert))
              (get (a_data alert) "current_price") pct)
    as [->|(e & db & -> & _)]; [reflexivity|].
  cbn [snd]. destruct (on_trade self) as [callback|] eqn:Hcb; [|reflexivity].
  now apply Hcallback.
Qed.

Lemma X20_no_division_by_zero_witness :
  divided_by_zero
    (snd (_handle_alert
            (RebalancerQueries.create_auto_rebalancer "demo" true None)
            (start (init 0)) holding (at_time 1000 None) concentration_alert))
  = false.
Proof.
  apply X20_no_division_by_zero.
  - cbn. lra.
  - intros callback e Hcb. cbn in Hcb. injection Hcb as <-. reflexivity.
Defined.

End FurtherRuns.

Section Statistics.

Import Rebalancer Handling Clock RebalancerFacts RebalancerQueries Scenario.

Implicit Types (self : Rebalancer) (st : State) (w : World) (env : Env)
  (e : TradeExecution) (op : Op) (ops : list Op).

Lemma success_partition (l : list TradeExecution) :
  (length (filter (fun t => success t = true) l)
   + length (filter (fun t => success t = false) l))%nat = length l.
Proof.
  induction l as [|t l IH]; [reflexivity|].
  rewrite !filter_cons. destruct (success t) eqn:Hs.
  - rewrite decide_True by reflexivity. rewrite decide_False by discriminate.
    cbn. lia.
  - rewrite decide_False by discriminate. rewrite decide_True by reflexivity.
    cbn. lia.
Qed.

(** X21: the figures of [get_daily_stats]: the trades of today are the
    executions of the history stamped on the day of the query, and split
    into the successful and the failed ones; the trades remaining are the
    cap less the daily counter after the reset check; and the query changes
    nothing of the state but what that reset changes. *)
Theorem X21_daily_stats_figures self st now_reset now_filter :
  let '(st', stats) := get_daily_stats self st now_reset now_filter in
  trades_today stats
  = Z.of_nat (trades_on (date now_filter) (_trade_history st))
  /\ (successful stats + failed_count stats = trades_today stats)%Z
  /\ (0 <= trades_today stats <= Z.of_nat (length (_trade_history st)))%Z
  /\ trades_remaining stats
     = (max_daily_trades (config self) - _daily_trade_count st')%Z
  /\ dry_run_mode stats = dry_run (config self)
  /\ st' = _reset_daily_limits st now_reset
  /\ _trade_history st' = _trade_history st
  /\ _last_trade_time st' = _last_trade_time st
  /\ _running st' = _running st.
Proof.
  cbn [get_daily_stats]. cbn [trades_today successful failed_count
                               trades_remaining dry_run_mode].
  rewrite reset_keeps_history. unfold trades_on.
  split; [reflexivity|].
  split; [rewrite <- Nat2Z.inj_add, success_partition; reflexivity|].
  split; [pose proof (length_filter
                        (fun t => date (timestamp t) = date now_filter)
                        (_trade_history st)); lia|].
  repeat (split; [reflexivity|]).
  unfold _reset_daily_limits. destruct (Z.ltb _ _); split; reflexivity.
Qed.

Lemma reset_counter_exact d st now :
  (d <= date now)%Z ->
  counter_exact d st ->
  counter_exact (date now) (_reset_daily_limits st now)
  /\ _last_reset_date (_reset_daily_limits st now) = date now.
Proof.
  intros Hd (Hdate & Hpast & Hcount).
  destruct (reset_cases st now) as [(Hlt & H0 & Hd' & Hh & _)|(Hle & ->)].
  - split; [|exact Hd'].
    unfold counter_exact. rewrite H0, Hd', Hh.
    assert (Hbefore : Forall (fun e => (date (timestamp e) < date now)%Z)
                        (_trade_history st)).
    { eapply Forall_impl; [exact Hpast|]. cbn. intros e He. lia. }
    split; [lia|]. split.
    + eapply Forall_impl; [exact Hbefore|]. cbn. intros e He. lia.
    + now rewrite (trades_on_later _ _ Hbefore).
  - split; [|lia]. unfold counter_exact. split; [lia | auto].
Qed.

Lemma record_counter_exact d st env e :
  counter_exact d st ->
  date (timestamp e) = _last_reset_date st ->
  counter_exact d (record_trade st env e).
Proof.
  intros (Hdate & Hpast & Hcount) He.
  unfold counter_exact, record_trade.
  cbn [_last_reset_date _trade_history _daily_trade_count].
  split; [exact Hdate|]. split.
  - apply Forall_app. split; [exact Hpast|].
    constructor; [lia | constructor].
  - rewrite trades_on_snoc. rewrite decide_True by exact He. lia.
Qed.

Lemma run_counter_exact self ops rest d st w :
  clock_advances d (ops ++ rest) ->
  counter_exact d st ->
  exists d',
    counter_exact d' (fst (run self (st, w) ops)) /\ clock_advances d' rest.
Proof.
  revert d st w.
  induction ops as [|op ops IH]; intros d st w Hclock Hst;
    [exists d; split; assumption|].
  rewrite run_cons. pose proof (step_cases self st w op) as Hstep.
  cbn zeta in Hstep. destruct (step self (st, w) op) as [st1 w1].
  cbn [fst] in Hstep.
  destruct op as [| |alert env|now_reset now_filter]; cbn in Hclock.
  - subst st1. apply (IH d); [exact Hclock | exact Hst].
  - subst st1. apply (IH d); [exact Hclock | exact Hst].
  - destruct Hclock as (Hd & Hsame & Hrest).
    destruct (reset_counter_exact d st (at_reset env) Hd Hst) as [Hreset Hnow].
    apply (IH (date (at_reset env))); [exact Hrest|].
    destruct Hstep as [->|[->|(e & _ & Hts & ->)]].
    + destruct Hst as (Hdate & Hrest'). split; [lia | exact Hrest'].
    + exact Hreset.
    + apply record_counter_exact; [exact Hreset|].
      rewrite Hts, Hnow. exact Hsame.
  - destruct Hclock as (Hd & Hrest). subst st1.
    apply (IH (date now_reset)); [exact Hrest|].
    exact (proj1 (reset_counter_exact d st now_reset Hd Hst)).
Qed.

(** X22: the two figures of the daily statistics agree: in a run of the
    rebalancer from its construction, on a clock whose date never falls back
    and on which no handling straddles midnight, a query that filters the
    history with the date of its reset check reports as trades of today
    exactly the daily counter, so that trades of today and trades remaining
    add up to [max_daily_trades]. *)
Theorem X22_daily_stats_add_up self ops t0 w0 now_reset now_filter
    (Hclock : clock_advances (date t0)
                (ops ++ [GetDailyStats now_reset now_filter]))
    (Hsame : date now_filter = date now_reset) :
  let st := fst (run self (init t0, w0) ops) in
  let '(st', stats) := get_daily_stats self st now_reset now_filter in
  trades_today stats = _daily_trade_count st'
  /\ (trades_today stats + trades_remaining stats
      = max_daily_trades (config self))%Z.
Proof.
  cbn zeta.
  assert (Hinit : counter_exact (date t0) (init t0)).
  { unfold counter_exact. cbn. repeat split; [lia | constructor]. }
  destruct (run_counter_exact self ops _ _ _ w0 Hclock Hinit)
    as (d & Hexact & Hd & _).
  set (st := fst (run self (init t0, w0) ops)) in *.
  destruct (reset_counter_exact d st now_reset Hd Hexact)
    as [(_ & _ & Hcount) Hnow].
  cbn [get_daily_stats trades_today trades_remaining].
  rewrite Hnow in Hcount.
  fold (trades_on (date now_filter)
          (_trade_history (_reset_daily_limits st now_reset))).
  rewrite Hsame, Hcount. split; [reflexivity | lia].
Qed.

Lemma X22_daily_stats_witness :
  let self := rebalancer true None in
  let ops := [Start; HandleAlert risk_alert (at_time 1000 None)] in
  let st := fst (run self (init 0, holding) ops) in
  let '(st', stats) := get_daily_stats self st 2000 2000 in
  trades_today stats = _daily_trade_count st'
  /\ (trades_today stats + trades_remaining stats
      = max_daily_trades (config self))%Z.
Proof.
  cbn zeta.
  apply (X22_daily_stats_add_up (rebalancer true None)
           [Start; HandleAlert risk_alert (at_time 1000 None)] 0 holding
           2000 2000).
  - cbn. repeat split; vm_compute; congruence.
  - reflexivity.
Defined.

(** X23: [get_trade_history] returns an end of the history: for a positive
    limit its last [limit] executions, or all of them when there are fewer;
    for the limit 0 the whole history (the slice [-0:] starts at the
    beginning); and for a negative limit the history without its first
    [-limit] executions. *)
Theorem X23_trade_history_is_a_suffix st (limit : Z) :
  let h := _trade_history st in
  (exists dropped, h = dropped ++ get_trade_history st limit)
  /\ ((0 < limit)%Z ->
      length (get_trade_history st limit)
      = Nat.min (Z.to_nat limit) (length h))
  /\ (limit = 0%Z -> get_trade_history st limit = h)
  /\ ((limit < 0)%Z ->
      get_trade_history st limit = drop (Z.to_nat (- limit)) h).
Proof.
  cbn zeta. unfold get_trade_history, slice_from.
  set (h := _trade_history st).
  split; [eexists; symmetry; apply take_drop|].
  split; [|split].
  - intros Hpos. rewrite (proj2 (Z.ltb_lt _ _)) by lia.
    rewrite length_drop. lia.
  - intros ->. cbn. rewrite Z.min_l by lia. reflexivity.
  - intros Hneg. rewrite (proj2 (Z.ltb_ge _ _)) by lia.
    destruct (Z.le_ge_cases (- limit) (Z.of_nat (length h))) as [Hle|Hge].
    + rewrite Z.min_l by lia. reflexivity.
    + rewrite Z.min_r by lia. rewrite Nat2Z.id.
      rewrite !drop_ge by lia. reflexivity.
Qed.

End Statistics.

Section ManualRebalance.

Import Rebalancer Handling Clock RebalancerFacts RebalancerQueries Scenario.

Implicit Types (self : Rebalancer) (st : State) (w : World)
  (e : TradeExecution).

Lemma handle_alerts_adds self envs l k st w :
  let '(st', w', out) := handle_alerts self st w envs k l in
  exists added,
    _trade_history st' = _trade_history st ++ added
    /\ (length added <= length l)%nat.
Proof.
  revert k st w. induction l as [|alert l IH]; intros k st w;
    cbn [handle_alerts].
  - exists []. now rewrite app_nil_r.
  - pose proof (handle_alert_outcome self st w (envs k) alert) as Hout.
    destruct (_handle_alert self st w (envs k) alert) as [[st1 w1] r].
    assert (Hone : exists a1, _trade_history st1 = _trade_history st ++ a1
                              /\ (length a1 <= 1)%nat).
    { destruct Hout as [(Hh & _)|(e & _ & Hh & _)].
      - exists []. rewrite app_nil_r. split; [exact Hh | cbn; lia].
      - exists [e]. split; [exact Hh | cbn; lia]. }
    destruct Hone as (a1 & Hh1 & Hl1).
    destruct r as [[]|ex].
    + specialize (IH (S k) st1 w1).
      destruct (handle_alerts self st1 w1 envs (S k) l) as [[st2 w2] out].
      destruct IH as (a2 & Hh2 & Hl2).
      exists (a1 ++ a2). rewrite Hh2, Hh1, <- app_assoc.
      split; [reflexivity|]. rewrite length_app. cbn. lia.
    + exists a1. split; [exact Hh1 | cbn; lia].
Qed.

Lemma slice_new_entries {A} (old added : list A) :
  slice_from (Z.of_nat (length old)) (old ++ added) = added.
Proof.
  unfold slice_from. rewrite (proj2 (Z.ltb_ge _ _)) by lia.
  rewrite length_app, Z.min_l by lia.
  rewrite Nat2Z.id. apply drop_app_length.
Qed.

(** X24: [manual_rebalance] raises [ValueError] and changes nothing when no
    monitor is connected.  Otherwise it handles the alerts of the snapshot
    in order until one handling raises; the history only grows, by at most
    one execution per alert; and when the call returns, the trades it
    reports are exactly the executions added, the alerts it counts are all
    those of the snapshot (none without a snapshot), and it passes on both
    snapshots, the dry-run flag and the clock reading. *)
Theorem X24_manual_rebalance_reports_new_trades self on_rebalance st w envs now :
  manual_rebalance self on_rebalance None st w envs now
  = (st, w, Raised (ValueError "Monitor not connected. Call start() first."))
  /\ forall before after,
      let '(st', w', out) :=
        manual_rebalance self on_rebalance (Some (before, after)) st w envs now in
      exists added,
        _trade_history st' = _trade_history st ++ added
        /\ (length added <= length (from_option alerts [] before))%nat
        /\ match out with
           | Returned r =>
               trades_executed r = added
               /\ alerts_processed r = length (from_option alerts [] before)
               /\ portfolio_before r = before
               /\ portfolio_after r = after
               /\ r_dry_run r = dry_run (config self)
               /\ r_timestamp r = now
           | Raised _ => True
           end.
Proof.
  split; [reflexivity|]. intros before after. unfold manual_rebalance.
  assert (Hloop :
            let '(st', w', out) :=
              match before with
              | Some snapshot => handle_alerts self st w envs 0 (alerts snapshot)
              | None => (st, w, Returned tt)
              end in
            exists added,
              _trade_history st' = _trade_history st ++ added
              /\ (length added <= length (from_option alerts [] before))%nat).
  { destruct before as [snapshot|]; cbn [from_option].
    - apply handle_alerts_adds.
    - exists []. now rewrite app_nil_r. }
  destruct (match before with
            | Some snapshot => handle_alerts self st w envs 0 (alerts snapshot)
            | None => (st, w, Returned tt)
            end) as [[st' w'] out].
  destruct Hloop as (added & Hh & Hl).
  destruct out as [[]|ex]; [|exists added; auto].
  rewrite Hh, slice_new_entries.
  assert (Hcount : match before with
                   | Some snapshot => length (alerts snapshot)
                   | None => 0%nat
                   end = length (from_option alerts [] before)).
  { now destruct before. }
  destruct on_rebalance as [callback|];
    [destruct (callback _) as [[]|ex]|];
    exists added; cbn; rewrite ?Hcount; repeat split; auto.
Qed.

End ManualRebalance.

Section LiveTrades.

Import Rebalancer Handling Clock RebalancerFacts Scenario.

Implicit Types (self : Rebalancer) (st : State) (w : World) (env : Env)
  (e : TradeExecution) (l : list StoredPosition).

Lemma held_app l1 l2 :
  fold_right Qplus 0 (map sp_quantity (l1 ++ l2))
  == fold_right Qplus 0 (map sp_quantity l1)
     + fold_right Qplus 0 (map sp_quantity l2).
Proof.
  induction l1 as [|p l1 IH]; cbn [app map fold_right]; [lra|].
  rewrite IH. lra.
Qed.

Lemma held_row l i p :
  l !! i = Some p ->
  forall p',
    fold_right Qplus 0 (map sp_quantity (<[i := p']> l))
    == fold_right Qplus 0 (map sp_quantity l) - sp_quantity p + sp_quantity p'
    /\ fold_right Qplus 0 (map sp_quantity (delete i l))
       == fold_right Qplus 0 (map sp_quantity l) - sp_quantity p.
Proof.
  intros Hi p'.
  assert (Hlen : (i < length l)%nat) by (eapply lookup_lt_Some; exact Hi).
  rewrite insert_take_drop by exact Hlen. rewrite delete_take_drop.
  rewrite <- (take_drop_middle l i p Hi) at 3 6.
  rewrite !held_app. cbn [map fold_right]. split; lra.
Qed.

(** X25: a live trade whose store transaction goes through: the execution
    recorded is marked successful; the store gains exactly one filled sell
    order, for the traded position, with the quantity and the price of the
    execution; and the traded row either stays with its quantity reduced by
    the quantity sold, the quantity held over the whole store falling by
    as much, or, when nothing of it remains, is deleted, all other rows
    being kept. *)
Theorem X25_live_trade_settles self st w env alert e
    (Hlive : dry_run (config self) = false)
    (Hcommit : commit_error env = None)
    (Hrec : records st (_handle_alert self st w env alert) e) :
  exists i p order,
    find_position (stored_positions (store w)) (symbol e) = Some (i, p)
    /\ success e = true
    /\ error e = None
    /\ let db := store (snd (fst (_handle_alert self st w env alert))) in
       stored_orders db = stored_orders (store w) ++ [order]
       /\ o_quantity order = quantity e
       /\ o_price order = price e
       /\ o_symbol_id order = sp_symbol_id p
       /\ o_order_type order = "sell"%string
       /\ o_status order = "filled"%string
       /\ if Qle_bool (sp_quantity p - quantity e) 0
          then stored_positions db = delete i (stored_positions (store w))
               /\ total_held db == total_held (store w) - sp_quantity p
          else stored_positions db
               = <[i := {| sp_ticker := sp_ticker p;
                           sp_symbol_id := sp_symbol_id p;
                           sp_quantity := sp_quantity p - quantity e |}]>
                   (stored_positions (store w))
               /\ total_held db == total_held (store w) - quantity e.
Proof.
  destruct (recorded_facts self st w env alert e Hrec)
    as (reason & pct & db & _ & _ & _ & _ & _ & _ & Hsell & Hstep & _ & _ & _
        & _ & _ & _ & _ & _ & [[i p] Hpos] & Hset).
  cbn zeta in *. rewrite Hstep. cbn [fst snd store].
  unfold settled in Hset. rewrite Hlive in Hset.
  destruct Hset as (r & Hreal & Hmark).
  unfold _execute_real_trade in Hreal.
  rewrite Hsell, Hcommit, Hpos in Hreal.
  injection Hreal as <- <-. destruct Hmark as [Hok Herr].
  pose proof Hpos as Hfound. unfold find_position in Hfound.
  apply list_find_Some in Hfound as (Hi & _).
  destruct (held_row _ i p Hi
              {| sp_ticker := sp_ticker p; sp_symbol_id := sp_symbol_id p;
                 sp_quantity := sp_quantity p - quantity e |})
    as [Hkept Hgone].
  exists i, p. eexists. split; [exact Hpos|].
  split; [exact Hok|]. split; [exact Herr|].
  cbn [stored_orders stored_positions o_quantity o_price o_symbol_id
       o_order_type o_status].
  split; [reflexivity|].
  cbn [stored_orders stored_positions o_quantity o_price o_symbol_id
       o_order_type o_status].
  repeat (split; [reflexivity|]).
  unfold total_held. cbn [stored_positions].
  destruct (Qle_bool (sp_quantity p - quantity e) 0).
  - split; [reflexivity | exact Hgone].
  - split; [reflexivity|]. rewrite Hkept. cbn [sp_quantity]. lra.
Qed.

Lemma X25_live_trade_witness :
  let self := rebalancer false None in
  let st := start (init 0) in
  let env := at_time 1000 None in
  exists e,
    records st (_handle_alert self st holding env risk_alert) e
    /\ success e = true
    /\ error e = None
    /\ length (stored_orders
                 (store (snd (fst (_handle_alert self st holding env
                                     risk_alert))))) = 1%nat.
Proof.
  cbn zeta. eexists. split; [vm_compute; reflexivity|].
  match goal with
  | |- success ?e = _ /\ _ =>
      destruct (X25_live_trade_settles (rebalancer false None) (start (init 0))
                  holding (at_time 1000 None) risk_alert e
                  eq_refl eq_refl)
        as (i & p & order & _ & Hok & Herr & Horders & _)
  end; [vm_compute; reflexivity|].
  split; [exact Hok|]. split; [exact Herr|].
  cbn zeta in Horders. rewrite Horders. reflexivity.
Defined.

End LiveTrades.

Section Decisions.

Import Rebalancer Handling Clock RebalancerFacts Scenario.

Implicit Types (self : Rebalancer) (st : State) (w : World) (env : Env)
  (e : TradeExecution).

Lemma executed_action self st w env symbol action reason alert_type price pct e :
  records st
    (_execute_trade self st w env symbol action reason alert_type price pct) e ->
  Rebalancer.action e = action.
Proof.
  unfold records. intros Hrec.
  destruct (execute_trade_facts self st w env symbol action reason alert_type
              price pct)
    as [Hskip|(e' & db & Hdone & _ & _ & Ha & _)]; cbn zeta in *.
  - rewrite Hskip in Hrec. cbn [fst] in Hrec.
    rewrite reset_keeps_history in Hrec.
    now apply not_own_extension in Hrec.
  - rewrite Hdone in Hrec. cbn [fst record_trade _trade_history] in Hrec.
    rewrite reset_keeps_history in Hrec.
    apply app_inj_tail in Hrec as [_ <-]. exact Ha.
Qed.

(** X26: which sale an alert leads to: an execution recorded for a
    RISK_THRESHOLD alert is a SELL_ALL; one for a STOP_LOSS_HIT alert is a
    SELL_ALL when the loss is below [auto_exit_loss_pct] and a SELL
    otherwise (a missing [pnl_pct] counting as 0); and one for a TAKE_PROFIT
    or a CONCENTRATION alert is a SELL. *)
Theorem X26_alert_decides_the_action self st w env alert e :
  records st (_handle_alert self st w env alert) e ->
  action e = chosen_action self alert
  /\ (action e = SELL_ALL <->
      a_alert_type alert = RISK_THRESHOLD
      \/ (a_alert_type alert = STOP_LOSS_HIT
          /\ default 0 (a_data alert !! "pnl_pct"%string)
             < auto_exit_loss_pct (config self))).
Proof.
  intros Hrec.
  assert (Haction : action e = chosen_action self alert).
  { revert Hrec. unfold chosen_action, _handle_alert.
    destruct (negb (_running st) || negb (enabled (config self)))%bool;
      [intros H; now apply not_own_extension in H|].
    destruct (negb (should_act _ _));
      [intros H; now apply not_own_extension in H|].
    destruct (a_alert_type alert);
      unfold _handle_stop_loss, _handle_take_profit, _handle_concentration,
        _handle_risk_threshold, _handle_idle_capital;
      try (destruct (usable_symbol _);
           [|intros H; now apply not_own_extension in H]);
      try (intros H; now apply not_own_extension in H).
    - destruct (Qlt_bool _ _); apply executed_action.
    - destruct (Qlt_bool _ _);
        [apply executed_action | intros H; now apply not_own_extension in H].
    - destruct (Qlt_bool _ _);
        [|intros H; now apply not_own_extension in H].
      destruct (pydiv _ _);
        [apply executed_action | intros H; now apply not_own_extension in H].
    - apply executed_action. }
  split; [exact Haction|]. rewrite Haction. unfold chosen_action, get.
  destruct (a_alert_type alert);
    try (split; [discriminate | intros [H|[H _]]; discriminate H]).
  - destruct (Qlt_bool_spec (default 0 (a_data alert !! "pnl_pct"%string))
                (auto_exit_loss_pct (config self))).
    + split; [intros _; right; split; [reflexivity | assumption] | reflexivity].
    + split; [discriminate | intros [H|[_ H]]; [discriminate H | contradiction]].
  - split; [intros _; now left | reflexivity].
Qed.

Lemma X26_alert_decides_the_action_witness :
  let self := rebalancer true None in
  let st := start (init 0) in
  let env := at_time 1000 None in
  exists e,
    records st (_handle_alert self st holding env stop_loss_alert) e
    /\ action e = chosen_action self stop_loss_alert
    /\ action e = SELL_ALL.
Proof.
  cbn zeta. eexists. split; [vm_compute; reflexivity|].
  match goal with
  | |- action ?e = _ /\ _ =>
      destruct (X26_alert_decides_the_action (rebalancer true None)
                  (start (init 0)) holding (at_time 1000 None)
                  stop_loss_alert e) as [Hact Hall]
  end; [vm_compute; reflexivity|].
  split; [exact Hact|]. apply Hall. right. split; reflexivity.
Defined.

End Decisions.
